(** * ProbePilot eBPF probes: a shallow embedding and its checked properties

    The three probes of the repository
    - [probes/memory/memory-tracker/memory_tracker.c]
    - [probes/network/tcp-flow/tcp_flow.c]
    - [probes/performance/cpu-profiler/cpu_profiler.c]
    are modelled as state transformers over their BPF maps.  A hook runs to
    completion on the state it is given (one invocation at a time); kernel
    inputs that the hook reads (clock, current task, tracepoint arguments,
    fields fetched with BPF_CORE_READ) are explicit arguments. *)

From Stdlib Require Import ZArith Lia List String.
From stdpp Require Import gmap list.

Local Open Scope Z_scope.

(** ** Machine integers and the BPF helpers the probes call *)

Module Bpf.

(** Unsigned C integers are [Z] with the wrap-around written out. *)
Definition u8  (x : Z) : Z := x mod 2 ^ 8.
Definition u16 (x : Z) : Z := x mod 2 ^ 16.
Definition u32 (x : Z) : Z := x mod 2 ^ 32.
Definition u64 (x : Z) : Z := x mod 2 ^ 64.

(** Reading a 64-bit pattern as [__s64] / a 32-bit pattern as [int]. *)
Definition s64 (x : Z) : Z :=
  if u64 x <? 2 ^ 63 then u64 x else u64 x - 2 ^ 64.
Definition s32 (x : Z) : Z :=
  if u32 x <? 2 ^ 31 then u32 x else u32 x - 2 ^ 32.

(** [bpf_ntohs] on a little-endian host: swap the two bytes. *)
Definition bpf_ntohs (x : Z) : Z :=
  Z.lor (Z.shiftl (Z.land x 255) 8) (Z.land (Z.shiftr x 8) 255).

#[global] Arguments u8 : simpl never.
#[global] Arguments u16 : simpl never.
#[global] Arguments u32 : simpl never.
#[global] Arguments u64 : simpl never.
#[global] Arguments s64 : simpl never.
#[global] Arguments s32 : simpl never.
#[global] Arguments bpf_ntohs : simpl never.

(** What a hook obtains from the kernel about the running context:
    [bpf_ktime_get_ns], [bpf_get_current_pid_tgid],
    [bpf_get_current_comm], [bpf_get_stackid],
    [bpf_get_smp_processor_id]. *)
Record bpf_env := {
  ktime_ns : Z;
  current_pid_tgid : Z;
  current_comm : string;
  current_stackid : Z;
  smp_processor_id : Z;
}.

(** [BPF_MAP_TYPE_RINGBUF]: the records submitted and not yet drained,
    oldest first, and how many records of the probe's event type fit. *)
Record ringbuf (E : Type) := {
  rb_capacity : nat;
  rb_records : list E;
}.
Arguments rb_capacity {E} _.
Arguments rb_records {E} _.

(** [bpf_ringbuf_reserve] yields NULL exactly when there is no room. *)
Definition bpf_ringbuf_reserve {E} (rb : ringbuf E) : bool :=
  (length (rb_records rb) <? rb_capacity rb)%nat.

Definition bpf_ringbuf_submit {E} (e : E) (rb : ringbuf E) : ringbuf E :=
  {| rb_capacity := rb_capacity rb; rb_records := rb_records rb ++ [e] |}.

(** [BPF_MAP_TYPE_HASH] helpers.  [bpf_map_update_elem] with [BPF_ANY]
    overwrites an existing key and inserts a new one unless the map
    already holds [max_entries] keys; the probes ignore its return code. *)
Section HashMap.
Context {K : Type} `{Countable K} {V : Type}.

Definition bpf_map_lookup_elem (m : gmap K V) (k : K) : option V := m !! k.

Definition bpf_map_update_elem (max_entries : Z) (k : K) (v : V)
    (m : gmap K V) : gmap K V :=
  match m !! k with
  | Some _ => <[k := v]> m
  | None => if Z.of_nat (size m) <? max_entries then <[k := v]> m else m
  end.

Definition bpf_map_delete_elem (k : K) (m : gmap K V) : gmap K V :=
  delete k m.

(** The specification's [getOrCreate] on a keyed aggregation table of
    fixed capacity, against which the probes' lookup/insert sequences
    are compared: an absent key receives the record [fresh] unless the
    table is at capacity, in which case nothing changes; a present
    key's record is updated in place by [evolve]. *)
Definition spec_getOrCreate (capacity : Z) (k : K) (fresh : V)
    (evolve : V -> V) (m : gmap K V) : gmap K V :=
  match m !! k with
  | Some r => <[k := evolve r]> m
  | None => if Z.of_nat (size m) <? capacity then <[k := fresh]> m else m
  end.
End HashMap.

(** Running a list of hook invocations, oldest first. *)
Section Runs.
Context {St Hk : Type} (step : Hk -> St -> St).

Fixpoint run (tr : list Hk) (st : St) : St :=
  match tr with
  | [] => st
  | h :: tr' => run tr' (step h st)
  end.

(** How many steps of a run bring key [k] into table [tbl]. *)
Context {K : Type} `{Countable K} {V : Type} (tbl : St -> gmap K V).

Definition creates (k : K) (h : Hk) (st : St) : bool :=
  match tbl st !! k, tbl (step h st) !! k with
  | None, Some _ => true
  | _, _ => false
  end.

Fixpoint creations (k : K) (tr : list Hk) (st : St) : nat :=
  match tr with
  | [] => 0%nat
  | h :: tr' =>
      ((if creates k h st then 1 else 0) + creations k tr' (step h st))%nat
  end.
End Runs.

End Bpf.

Import Bpf.

(** ** memory_tracker.c *)

Module MemoryTracker.

Definition MAX_ENTRIES : Z := 10240.

(** [enum alloc_type] *)
Definition ALLOC_MALLOC : Z := 1.
Definition ALLOC_CALLOC : Z := 2.
Definition ALLOC_REALLOC : Z := 3.
Definition ALLOC_FREE : Z := 4.
Definition ALLOC_MMAP : Z := 5.
Definition ALLOC_MUNMAP : Z := 6.
Definition ALLOC_BRK : Z := 7.
Definition ALLOC_PAGE : Z := 8.

(** [struct memory_event]; fields carry the prefix [ev_] because
    [struct allocation_info] reuses several of the names. *)
Record memory_event := {
  ev_timestamp : Z;
  ev_pid : Z;
  ev_tid : Z;
  ev_addr : Z;
  ev_size : Z;
  ev_old_addr : Z;
  ev_type : Z;
  ev_flags : Z;
  ev_stack_id : Z;
  ev_comm : string;
}.

(** [struct process_memory] *)
Record process_memory := {
  total_allocated : Z;
  total_freed : Z;
  current_usage : Z;
  peak_usage : Z;
  allocation_count : Z;
  free_count : Z;
  page_faults : Z;
  major_faults : Z;
  rss_pages : Z;
  vmem_pages : Z;
}.

(** [struct system_memory] *)
Record system_memory := {
  total_memory : Z;
  free_memory : Z;
  available_memory : Z;
  cached_memory : Z;
  buffer_memory : Z;
  slab_memory : Z;
  page_cache_size : Z;
  memory_pressure : Z;
}.

(** [struct allocation_info] (prefix [info_]) *)
Record allocation_info := {
  info_size : Z;
  info_timestamp : Z;
  info_stack_id : Z;
  info_pid : Z;
}.

(** The maps of the object file.  [system_memory_map] is an array of one
    slot, which always exists; [stack_traces] is filled by the kernel
    inside [bpf_get_stackid] and [config_map] is never read. *)
Record state := {
  process_memory_map : gmap Z process_memory;
  allocation_map : gmap Z allocation_info;
  system_memory_map : system_memory;
  events : ringbuf memory_event;
}.

Definition with_process_memory_map (pm : gmap Z process_memory) (st : state) :=
  {| process_memory_map := pm; allocation_map := allocation_map st;
     system_memory_map := system_memory_map st; events := events st |}.
Definition with_allocation_map (am : gmap Z allocation_info) (st : state) :=
  {| process_memory_map := process_memory_map st; allocation_map := am;
     system_memory_map := system_memory_map st; events := events st |}.
Definition with_system_memory_map (sm : system_memory) (st : state) :=
  {| process_memory_map := process_memory_map st;
     allocation_map := allocation_map st;
     system_memory_map := sm; events := events st |}.
Definition with_events (rb : ringbuf memory_event) (st : state) :=
  {| process_memory_map := process_memory_map st;
     allocation_map := allocation_map st;
     system_memory_map := system_memory_map st; events := rb |}.

(** [struct process_memory new_mem = {};] *)
Definition new_mem : process_memory :=
  {| total_allocated := 0; total_freed := 0; current_usage := 0;
     peak_usage := 0; allocation_count := 0; free_count := 0;
     page_faults := 0; major_faults := 0; rss_pages := 0; vmem_pages := 0 |}.

(** Field assignments [mem->f = v]. *)
Definition set_total_allocated (v : Z) (m : process_memory) :=
  {| total_allocated := v; total_freed := total_freed m;
     current_usage := current_usage m; peak_usage := peak_usage m;
     allocation_count := allocation_count m; free_count := free_count m;
     page_faults := page_faults m; major_faults := major_faults m;
     rss_pages := rss_pages m; vmem_pages := vmem_pages m |}.
Definition set_total_freed (v : Z) (m : process_memory) :=
  {| total_allocated := total_allocated m; total_freed := v;
     current_usage := current_usage m; peak_usage := peak_usage m;
     allocation_count := allocation_count m; free_count := free_count m;
     page_faults := page_faults m; major_faults := major_faults m;
     rss_pages := rss_pages m; vmem_pages := vmem_pages m |}.
Definition set_current_usage (v : Z) (m : process_memory) :=
  {| total_allocated := total_allocated m; total_freed := total_freed m;
     current_usage := v; peak_usage := peak_usage m;
     allocation_count := allocation_count m; free_count := free_count m;
     page_faults := page_faults m; major_faults := major_faults m;
     rss_pages := rss_pages m; vmem_pages := vmem_pages m |}.
Definition set_peak_usage (v : Z) (m : process_memory) :=
  {| total_allocated := total_allocated m; total_freed := total_freed m;
     current_usage := current_usage m; peak_usage := v;
     allocation_count := allocation_count m; free_count := free_count m;
     page_faults := page_faults m; major_faults := major_faults m;
     rss_pages := rss_pages m; vmem_pages := vmem_pages m |}.
Definition set_allocation_count (v : Z) (m : process_memory) :=
  {| total_allocated := total_allocated m; total_freed := total_freed m;
     current_usage := current_usage m; peak_usage := peak_usage m;
     allocation_count := v; free_count := free_count m;
     page_faults := page_faults m; major_faults := major_faults m;
     rss_pages := rss_pages m; vmem_pages := vmem_pages m |}.
Definition set_free_count (v : Z) (m : process_memory) :=
  {| total_allocated := total_allocated m; total_freed := total_freed m;
     current_usage := current_usage m; peak_usage := peak_usage m;
     allocation_count := allocation_count m; free_count := v;
     page_faults := page_faults m; major_faults := major_faults m;
     rss_pages := rss_pages m; vmem_pages := vmem_pages m |}.
Definition set_page_faults (v : Z) (m : process_memory) :=
  {| total_allocated := total_allocated m; total_freed := total_freed m;
     current_usage := current_usage m; peak_usage := peak_usage m;
     allocation_count := allocation_count m; free_count := free_count m;
     page_faults := v; major_faults := major_faults m;
     rss_pages := rss_pages m; vmem_pages := vmem_pages m |}.
Definition set_major_faults (v : Z) (m : process_memory) :=
  {| total_allocated := total_allocated m; total_freed := total_freed m;
     current_usage := current_usage m; peak_usage := peak_usage m;
     allocation_count := allocation_count m; free_count := free_count m;
     page_faults := page_faults m; major_faults := v;
     rss_pages := rss_pages m; vmem_pages := vmem_pages m |}.
Definition set_rss_vmem (rss vmem : Z) (m : process_memory) :=
  {| total_allocated := total_allocated m; total_freed := total_freed m;
     current_usage := current_usage m; peak_usage := peak_usage m;
     allocation_count := allocation_count m; free_count := free_count m;
     page_faults := page_faults m; major_faults := major_faults m;
     rss_pages := rss; vmem_pages := vmem |}.

(** [send_memory_event] (lines 122-148). *)
Definition send_memory_event (env : bpf_env) (pid addr size type old_addr : Z)
    (st : state) : state :=
  if bpf_ringbuf_reserve (events st) then
    let event :=
      {| ev_timestamp := ktime_ns env;
         ev_pid := pid;
         ev_tid := u32 (current_pid_tgid env);
         ev_addr := addr;
         ev_size := size;
         ev_old_addr := old_addr;
         ev_type := type;
         ev_flags := 0;
         ev_stack_id := u64 (current_stackid env);
         ev_comm := current_comm env |} in
    with_events (bpf_ringbuf_submit event (events st)) st
  else st.

(** The body of [update_process_memory] once it holds a record
    (lines 161-174).  [size_delta] is declared [__s64]; each use, the
    comparison included, converts it to unsigned 64 bits. *)
Definition account (size_delta is_allocation : Z) (mem : process_memory)
    : process_memory :=
  let d := u64 size_delta in
  if is_allocation =? 0 then
    let mem := set_total_freed (u64 (total_freed mem + d)) mem in
    let mem := set_free_count (u64 (free_count mem + 1)) mem in
    if d <=? current_usage mem
    then set_current_usage (u64 (current_usage mem - d)) mem
    else mem
  else
    let mem := set_total_allocated (u64 (total_allocated mem + d)) mem in
    let mem := set_allocation_count (u64 (allocation_count mem + 1)) mem in
    let mem := set_current_usage (u64 (current_usage mem + d)) mem in
    if peak_usage mem <? current_usage mem
    then set_peak_usage (current_usage mem) mem
    else mem.

(** The lookup-or-create prologue shared by [update_process_memory],
    [trace_page_fault] and [sample_memory_stats] (lines 153-159,
    299-305, 355-361), followed by the in-place update [f]. *)
Definition lookup_or_create (pid : Z) (f : process_memory -> process_memory)
    (pm : gmap Z process_memory) : gmap Z process_memory :=
  match bpf_map_lookup_elem pm pid with
  | Some mem => <[pid := f mem]> pm
  | None =>
      let pm := bpf_map_update_elem MAX_ENTRIES pid new_mem pm in
      match bpf_map_lookup_elem pm pid with
      | Some mem => <[pid := f mem]> pm
      | None => pm
      end
  end.

(** [update_process_memory] (lines 151-175), on the map it mutates. *)
Definition update_process_memory (pid size_delta is_allocation : Z)
    (st : state) : state :=
  with_process_memory_map
    (lookup_or_create pid (account size_delta is_allocation)
       (process_memory_map st)) st.

(** [bpf_get_current_pid_tgid() >> 32] stored in a [__u32]. *)
Definition current_pid (env : bpf_env) : Z :=
  u32 (Z.shiftr (current_pid_tgid env) 32).

#[global] Arguments current_pid : simpl never.

(** uprobe/malloc *)
Definition trace_malloc (env : bpf_env) (size : Z) (st : state) : state :=
  let pid := current_pid env in
  if (pid =? 0) || (size =? 0) then st
  else send_memory_event env pid 0 size ALLOC_MALLOC 0 st.

(** uretprobe/malloc: both paths return without touching anything. *)
Definition trace_malloc_ret (env : bpf_env) (addr : Z) (st : state) : state :=
  let pid := current_pid env in
  if (pid =? 0) || (addr =? 0) then st
  else st.

(** The lookup followed by the delete that [trace_free] (213-217) and
    [trace_munmap] (266-268) perform on [allocation_map]. *)
Definition allocation_take (addr : Z) (am : gmap Z allocation_info)
    : option allocation_info * gmap Z allocation_info :=
  match bpf_map_lookup_elem am addr with
  | Some info => (Some info, bpf_map_delete_elem addr am)
  | None => (None, am)
  end.

(** uprobe/free *)
Definition trace_free (env : bpf_env) (addr : Z) (st : state) : state :=
  let pid := current_pid env in
  if (pid =? 0) || (addr =? 0) then st
  else
    let '(size, st) :=
      match allocation_take addr (allocation_map st) with
      | (Some info, am) =>
          let size := info_size info in
          (size, update_process_memory pid size 0 (with_allocation_map am st))
      | (None, _) => (0, st)
      end in
    send_memory_event env pid addr size ALLOC_FREE 0 st.

(** tp/syscalls/sys_enter_mmap; [len] is [ctx->args[1]]. *)
Definition trace_mmap_enter (env : bpf_env) (len : Z) (st : state) : state :=
  let size := u64 len in
  let pid := current_pid env in
  if (pid =? 0) || (size =? 0) then st
  else send_memory_event env pid 0 size ALLOC_MMAP 0 st.

(** tp/syscalls/sys_exit_mmap; [ret] is [ctx->ret]. *)
Definition trace_mmap_exit (env : bpf_env) (ret : Z) (st : state) : state :=
  let addr := u64 ret in
  let pid := current_pid env in
  if (pid =? 0) || (s64 addr <? 0) then st
  else
    let info := {| info_size := 0; info_timestamp := ktime_ns env;
                   info_stack_id := 0; info_pid := pid |} in
    with_allocation_map
      (bpf_map_update_elem (MAX_ENTRIES * 4) addr info (allocation_map st)) st.

(** tp/syscalls/sys_enter_munmap; [a0], [a1] are [ctx->args[0..1]]. *)
Definition trace_munmap (env : bpf_env) (a0 a1 : Z) (st : state) : state :=
  let addr := u64 a0 in
  let size := u64 a1 in
  let pid := current_pid env in
  if (pid =? 0) || (addr =? 0) then st
  else
    let st :=
      match allocation_take addr (allocation_map st) with
      | (Some _, am) =>
          update_process_memory pid size 0 (with_allocation_map am st)
      | (None, _) => st
      end in
    send_memory_event env pid addr size ALLOC_MUNMAP 0 st.

(** tp/syscalls/sys_enter_brk *)
Definition trace_brk (env : bpf_env) (a0 : Z) (st : state) : state :=
  let addr := u64 a0 in
  let pid := current_pid env in
  if pid =? 0 then st
  else send_memory_event env pid addr 0 ALLOC_BRK 0 st.

(** tp/exceptions/page_fault_user *)
Definition trace_page_fault (env : bpf_env) (address error_code : Z)
    (st : state) : state :=
  let pid := current_pid env in
  let address := u64 address in
  let error_code := u32 error_code in
  if pid =? 0 then st
  else
    let hit mem :=
      let mem := set_page_faults (u64 (page_faults mem + 1)) mem in
      if Z.land error_code 4 =? 0 then mem
      else set_major_faults (u64 (major_faults mem + 1)) mem in
    match bpf_map_lookup_elem (process_memory_map st) pid with
    | Some mem =>
        let st := with_process_memory_map
                    (<[pid := hit mem]> (process_memory_map st)) st in
        send_memory_event env pid address 4096 ALLOC_PAGE 0 st
    | None =>
        let pm := bpf_map_update_elem MAX_ENTRIES pid new_mem
                    (process_memory_map st) in
        match bpf_map_lookup_elem pm pid with
        | Some mem =>
            let st := with_process_memory_map (<[pid := hit mem]> pm) st in
            send_memory_event env pid address 4096 ALLOC_PAGE 0 st
        | None => with_process_memory_map pm st
        end
    end.

(** tp/vmscan/mm_vmscan_wakeup_kswapd; [memory_pressure] is a [__u32]. *)
Definition trace_memory_pressure (st : state) : state :=
  let sys_mem := system_memory_map st in
  with_system_memory_map
    {| total_memory := total_memory sys_mem;
       free_memory := free_memory sys_mem;
       available_memory := available_memory sys_mem;
       cached_memory := cached_memory sys_mem;
       buffer_memory := buffer_memory sys_mem;
       slab_memory := slab_memory sys_mem;
       page_cache_size := page_cache_size sys_mem;
       memory_pressure := u32 (memory_pressure sys_mem + 1) |} st.

(** tp/oom/mark_victim; [victim] is [ctx->pid]. *)
Definition trace_oom_victim (env : bpf_env) (victim : Z) (st : state) : state :=
  send_memory_event env (u32 victim) 0 0 255 0 st.

(** perf_event sampler; [mm] is the pointer read from the task and
    [rss], [vm] the two counters read through it. *)
Definition sample_memory_stats (env : bpf_env) (mm rss vm : Z) (st : state)
    : state :=
  let pid := current_pid env in
  if pid =? 0 then st
  else if mm =? 0 then st
  else
    with_process_memory_map
      (lookup_or_create pid (set_rss_vmem (u64 rss) (u64 vm))
         (process_memory_map st)) st.

(** [(1ULL << order) * 4096]; a BPF shift uses the low six bits of the
    count. *)
Definition pages_to_bytes (order : Z) : Z :=
  u64 (u64 (Z.shiftl 1 (Z.land order 63)) * 4096).

(** kprobe/__alloc_pages *)
Definition alloc_pages (env : bpf_env) (order : Z) (st : state) : state :=
  let pid := current_pid env in
  let size := pages_to_bytes order in
  if pid =? 0 then st
  else
    let st := update_process_memory pid size 1 st in
    send_memory_event env pid 0 size ALLOC_PAGE 0 st.

(** kprobe/__free_pages *)
Definition free_pages (env : bpf_env) (order : Z) (st : state) : state :=
  let pid := current_pid env in
  let size := pages_to_bytes order in
  if pid =? 0 then st
  else update_process_memory pid size 0 st.

(** One firing of an attachment point, with the arguments it decodes. *)
Inductive hook : Type :=
| Malloc (size : Z)
| MallocRet (addr : Z)
| Free (addr : Z)
| MmapEnter (len : Z)
| MmapExit (ret : Z)
| Munmap (a0 a1 : Z)
| Brk (a0 : Z)
| PageFault (address error_code : Z)
| MemoryPressure
| OomVictim (victim : Z)
| SampleMemoryStats (mm rss vm : Z)
| AllocPages (order : Z)
| FreePages (order : Z).

Definition fire (eh : bpf_env * hook) (st : state) : state :=
  let (env, h) := eh in
  match h with
  | Malloc size => trace_malloc env size st
  | MallocRet addr => trace_malloc_ret env addr st
  | Free addr => trace_free env addr st
  | MmapEnter len => trace_mmap_enter env len st
  | MmapExit ret => trace_mmap_exit env ret st
  | Munmap a0 a1 => trace_munmap env a0 a1 st
  | Brk a0 => trace_brk env a0 st
  | PageFault address error_code => trace_page_fault env address error_code st
  | MemoryPressure => trace_memory_pressure st
  | OomVictim victim => trace_oom_victim env victim st
  | SampleMemoryStats mm rss vm => sample_memory_stats env mm rss vm st
  | AllocPages order => alloc_pages env order st
  | FreePages order => free_pages env order st
  end.

(** A put on [allocation_map] under key [addr]: the only writer is
    [trace_mmap_exit]. *)
Definition puts (addr : Z) (eh : bpf_env * hook) : bool :=
  match snd eh with
  | MmapExit ret => u64 ret =? addr
  | _ => false
  end.

(** No gauge above its high-water mark. *)
Definition peak_inv (pm : gmap Z process_memory) : Prop :=
  forall pid r, pm !! pid = Some r -> current_usage r <= peak_usage r.

(** An in-place update that never lowers the peak and keeps the gauge
    under it. *)
Definition tame (f : process_memory -> process_memory) : Prop :=
  forall m, peak_usage m <= peak_usage (f m) /\
            (current_usage m <= peak_usage m ->
             current_usage (f m) <= peak_usage (f m)).

(** The maps as the loader leaves them, with room for [cap] events. *)
Definition init (cap : nat) : state :=
  {| process_memory_map := ∅;
     allocation_map := ∅;
     system_memory_map :=
       {| total_memory := 0; free_memory := 0; available_memory := 0;
          cached_memory := 0; buffer_memory := 0; slab_memory := 0;
          page_cache_size := 0; memory_pressure := 0 |};
     events := {| rb_capacity := cap; rb_records := [] |} |}.

(** Sample contexts and states for the worked examples: process 1234
    running on CPU 0, the kernel's own context (process id 0), a table
    that already tracks process 1234, and a channel with no room left. *)
Definition env_user : bpf_env :=
  {| ktime_ns := 1000; current_pid_tgid := 1234 * 2 ^ 32 + 1234;
     current_comm := "app"; current_stackid := 7; smp_processor_id := 0 |}.

Definition env_kernel : bpf_env :=
  {| ktime_ns := 1000; current_pid_tgid := 0;
     current_comm := "swapper"; current_stackid := 0;
     smp_processor_id := 0 |}.

Definition busy_record : process_memory :=
  {| total_allocated := 100; total_freed := 0; current_usage := 100;
     peak_usage := 100; allocation_count := 1; free_count := 5;
     page_faults := 0; major_faults := 0; rss_pages := 0; vmem_pages := 0 |}.

Definition mapped_info : allocation_info :=
  {| info_size := 0; info_timestamp := 900; info_stack_id := 0;
     info_pid := 1234 |}.

Definition st_busy : state :=
  {| process_memory_map := {[ 1234 := busy_record ]};
     allocation_map := {[ 4096 := mapped_info ]};
     system_memory_map := system_memory_map (init 8);
     events := {| rb_capacity := 8; rb_records := [] |} |}.

Definition st_full : state := with_events (events (init 0)) st_busy.

Definition one_page_record : process_memory :=
  {| total_allocated := 4096; total_freed := 0; current_usage := 4096;
     peak_usage := 4096; allocation_count := 1; free_count := 0;
     page_faults := 0; major_faults := 0; rss_pages := 0; vmem_pages := 0 |}.

Definition scenario_A : list (bpf_env * hook) :=
  [(env_user, Malloc 128); (env_user, MallocRet 4096); (env_user, Free 4096)].

(** Hooks whose body starts with the [pid == 0] guard; the memory-pressure
    and OOM tracepoints do not read the current process id. *)
Definition guards_pid (h : hook) : bool :=
  match h with
  | MemoryPressure | OomVictim _ => false
  | _ => true
  end.

(** An in-place update that accounts no allocation: the allocation ledger
    and the peak stay put and the gauge does not grow. *)
Definition quiet (f : process_memory -> process_memory) : Prop :=
  forall m, total_allocated (f m) = total_allocated m
            /\ allocation_count (f m) = allocation_count m
            /\ peak_usage (f m) = peak_usage m
            /\ current_usage (f m) <= current_usage m.

(** The entry [trace_mmap_exit] stores. *)
Definition mmap_info (env : bpf_env) : allocation_info :=
  {| info_size := 0; info_timestamp := ktime_ns env; info_stack_id := 0;
     info_pid := current_pid env |}.

(** What [trace_page_fault] does to a record it holds (lines 307-312). *)
Definition count_fault (error_code : Z) (mem : process_memory)
    : process_memory :=
  let mem := set_page_faults (u64 (page_faults mem + 1)) mem in
  if Z.land error_code 4 =? 0 then mem
  else set_major_faults (u64 (major_faults mem + 1)) mem.

(** A statistics table at capacity (processes 1 to 10240), for the examples
    about rejected insertions; process 1234 is in it, process 20000 is not. *)
Definition full_table : gmap Z process_memory :=
  list_to_map (map (fun i => (Z.of_nat i, new_mem)) (seq 1 (Z.to_nat 10240))).

Definition st_table_full : state :=
  {| process_memory_map := full_table;
     allocation_map := ∅;
     system_memory_map := system_memory_map (init 8);
     events := {| rb_capacity := 8; rb_records := [] |} |}.

Definition env_other : bpf_env :=
  {| ktime_ns := 2000; current_pid_tgid := 20000 * 2 ^ 32 + 20000;
     current_comm := "other"; current_stackid := 9; smp_processor_id := 1 |}.

(** Every entry of the correlation table records size 0. *)
Definition sizes_zero (am : gmap Z allocation_info) : Prop :=
  forall addr info, am !! addr = Some info -> info_size info = 0.

(** The hooks that take the entry of address [addr] from the correlation
    table, the size each reports given what its lookup found (free reports
    the recorded size, or 0; munmap reports the length it was called with),
    and the event kind it emits. *)
Definition takes (addr : Z) (h : hook) : bool :=
  match h with
  | Free a => a =? addr
  | Munmap a0 _ => u64 a0 =? addr
  | _ => false
  end.

Definition take_size (h : hook) (found : option allocation_info) : Z :=
  match h with
  | Munmap _ a1 => u64 a1
  | _ => default 0 (info_size <$> found)
  end.

Definition take_type (h : hook) : Z :=
  match h with
  | Munmap _ _ => ALLOC_MUNMAP
  | _ => ALLOC_FREE
  end.

End MemoryTracker.

(** ** tcp_flow.c *)

Module TcpFlow.

Definition AF_INET : Z := 2.
Definition MAX_ENTRIES : Z := 10240.

(** Kernel constants the probe takes from [vmlinux.h]. *)
Definition IPPROTO_TCP : Z := 6.
Definition TCP_ESTABLISHED : Z := 1.
Definition TCP_SYN_SENT : Z := 2.
Definition TCP_SYN_RECV : Z := 3.
Definition TCP_CLOSE : Z := 7.

(** [struct flow_key] *)
Record flow_key := {
  saddr : Z;
  daddr : Z;
  sport : Z;
  dport : Z;
  protocol : Z;
}.

#[global] Instance flow_key_eq_dec : EqDecision flow_key.
Proof. solve_decision. Defined.

#[global] Instance flow_key_countable : Countable flow_key.
Proof.
  refine (inj_countable'
    (fun k => (saddr k, daddr k, sport k, dport k, protocol k))
    (fun t => let '(a, b, c, d, e) := t in
              {| saddr := a; daddr := b; sport := c; dport := d;
                 protocol := e |}) _).
  by intros [].
Defined.

(** [struct flow_data] *)
Record flow_data := {
  bytes_tx : Z;
  bytes_rx : Z;
  packets_tx : Z;
  packets_rx : Z;
  first_seen : Z;
  last_seen : Z;
  rtt_samples : Z;
  rtt_total : Z;
  state : Z;
}.

(** [struct tcp_event] (prefix [ev_]) *)
Record tcp_event := {
  ev_timestamp : Z;
  ev_pid : Z;
  ev_saddr : Z;
  ev_daddr : Z;
  ev_sport : Z;
  ev_dport : Z;
  ev_bytes : Z;
  ev_rtt : Z;
  ev_event_type : Z;
  ev_comm : string;
}.

(** The four [struct inet_sock] fields the probe fetches with
    BPF_CORE_READ_INTO, ports in network byte order. *)
Record sock := {
  inet_saddr : Z;
  inet_daddr : Z;
  inet_sport : Z;
  inet_dport : Z;
}.

Record probe_state := {
  flow_map : gmap flow_key flow_data;
  events : ringbuf tcp_event;
}.

Definition with_flow_map (fm : gmap flow_key flow_data) (st : probe_state) :=
  {| flow_map := fm; events := events st |}.
Definition with_events (rb : ringbuf tcp_event) (st : probe_state) :=
  {| flow_map := flow_map st; events := rb |}.

(** [make_flow_key] (lines 78-86) *)
Definition make_flow_key (saddr daddr sport dport : Z) : flow_key :=
  {| saddr := u32 saddr; daddr := u32 daddr; sport := u16 sport;
     dport := u16 dport; protocol := u8 IPPROTO_TCP |}.

(** [send_event] (lines 89-118) *)
Definition send_event (env : bpf_env) (event_type : Z) (sk : sock)
    (bytes rtt : Z) (st : probe_state) : probe_state :=
  if bpf_ringbuf_reserve (events st) then
    let event :=
      {| ev_timestamp := ktime_ns env;
         ev_pid := u32 (Z.shiftr (current_pid_tgid env) 32);
         ev_event_type := u8 event_type;
         ev_bytes := u32 bytes;
         ev_rtt := u32 rtt;
         ev_comm := current_comm env;
         ev_saddr := u32 (inet_saddr sk);
         ev_daddr := u32 (inet_daddr sk);
         ev_sport := bpf_ntohs (u16 (inet_sport sk));
         ev_dport := bpf_ntohs (u16 (inet_dport sk)) |} in
    with_events (bpf_ringbuf_submit event (events st)) st
  else st.

(** tp/sock/inet_sock_set_state *)
Definition trace_tcp_state_change (env : bpf_env) (sk : sock)
    (family oldstate newstate : Z) (st : probe_state) : probe_state :=
  if negb (u16 family =? AF_INET) then st
  else
    let st := if (oldstate =? TCP_SYN_SENT) && (newstate =? TCP_ESTABLISHED)
              then send_event env 1 sk 0 0 st else st in
    let st := if (oldstate =? TCP_SYN_RECV) && (newstate =? TCP_ESTABLISHED)
              then send_event env 2 sk 0 0 st else st in
    let st := if newstate =? TCP_CLOSE
              then send_event env 5 sk 0 0 st else st in
    st.

(** tp/tcp/tcp_probe *)
Definition trace_tcp_probe (env : bpf_env) (sk : sock)
    (snd_nxt snd_una srtt : Z) (st : probe_state) : probe_state :=
  let bytes_in_flight := u32 (u32 snd_nxt - u32 snd_una) in
  send_event env 3 sk bytes_in_flight (u32 srtt) st.

(** tp/tcp/tcp_retransmit_skb *)
Definition trace_tcp_retransmit (env : bpf_env) (sk : sock)
    (st : probe_state) : probe_state :=
  send_event env 6 sk 0 0 st.

(** [struct flow_data new_flow = {};] *)
Definition zero_flow : flow_data :=
  {| bytes_tx := 0; bytes_rx := 0; packets_tx := 0; packets_rx := 0;
     first_seen := 0; last_seen := 0; rtt_samples := 0; rtt_total := 0;
     state := 0 |}.

(** The key both data-path kprobes derive from the socket. *)
Definition sock_key (sk : sock) : flow_key :=
  make_flow_key (u32 (inet_saddr sk)) (u32 (inet_daddr sk))
    (bpf_ntohs (u16 (inet_sport sk))) (bpf_ntohs (u16 (inet_dport sk))).

(** kprobe/tcp_sendmsg *)
Definition tcp_sendmsg (env : bpf_env) (sk : sock) (size : Z)
    (st : probe_state) : probe_state :=
  let size := u64 size in
  let ts := ktime_ns env in
  let key := sock_key sk in
  let fm :=
    match bpf_map_lookup_elem (flow_map st) key with
    | None =>
        let new_flow :=
          {| bytes_tx := size; bytes_rx := 0; packets_tx := 1;
             packets_rx := 0; first_seen := ts; last_seen := ts;
             rtt_samples := 0; rtt_total := 0; state := 0 |} in
        bpf_map_update_elem MAX_ENTRIES key new_flow (flow_map st)
    | Some flow =>
        <[key := {| bytes_tx := u64 (bytes_tx flow + size);
                    bytes_rx := bytes_rx flow;
                    packets_tx := u64 (packets_tx flow + 1);
                    packets_rx := packets_rx flow;
                    first_seen := first_seen flow;
                    last_seen := ts;
                    rtt_samples := rtt_samples flow;
                    rtt_total := rtt_total flow;
                    state := state flow |}]> (flow_map st)
    end in
  send_event env 3 sk size 0 (with_flow_map fm st).

(** kprobe/tcp_cleanup_rbuf; [copied] is a C [int]. *)
Definition tcp_cleanup_rbuf (env : bpf_env) (sk : sock) (copied : Z)
    (st : probe_state) : probe_state :=
  let copied := s32 copied in
  let ts := ktime_ns env in
  if copied <=? 0 then st
  else
    let key := sock_key sk in
    let fm :=
      match bpf_map_lookup_elem (flow_map st) key with
      | None =>
          let new_flow :=
            {| bytes_tx := 0; bytes_rx := u64 copied; packets_tx := 0;
               packets_rx := 1; first_seen := ts; last_seen := ts;
               rtt_samples := 0; rtt_total := 0; state := 0 |} in
          bpf_map_update_elem MAX_ENTRIES key new_flow (flow_map st)
      | Some flow =>
          <[key := {| bytes_tx := bytes_tx flow;
                      bytes_rx := u64 (bytes_rx flow + copied);
                      packets_tx := packets_tx flow;
                      packets_rx := u64 (packets_rx flow + 1);
                      first_seen := first_seen flow;
                      last_seen := ts;
                      rtt_samples := rtt_samples flow;
                      rtt_total := rtt_total flow;
                      state := state flow |}]> (flow_map st)
      end in
    send_event env 4 sk copied 0 (with_flow_map fm st).

Inductive hook : Type :=
| StateChange (sk : sock) (family oldstate newstate : Z)
| TcpProbe (sk : sock) (snd_nxt snd_una srtt : Z)
| Retransmit (sk : sock)
| SendMsg (sk : sock) (size : Z)
| CleanupRbuf (sk : sock) (copied : Z).

Definition fire (eh : bpf_env * hook) (st : probe_state) : probe_state :=
  let (env, h) := eh in
  match h with
  | StateChange sk family oldstate newstate =>
      trace_tcp_state_change env sk family oldstate newstate st
  | TcpProbe sk snd_nxt snd_una srtt =>
      trace_tcp_probe env sk snd_nxt snd_una srtt st
  | Retransmit sk => trace_tcp_retransmit env sk st
  | SendMsg sk size => tcp_sendmsg env sk size st
  | CleanupRbuf sk copied => tcp_cleanup_rbuf env sk copied st
  end.

Definition init (cap : nat) : probe_state :=
  {| flow_map := ∅; events := {| rb_capacity := cap; rb_records := [] |} |}.

(** The record [tcp_sendmsg] stores on a first observation, and its
    in-place update of a known flow. *)
Definition fresh_tx (ts size : Z) : flow_data :=
  {| bytes_tx := size; bytes_rx := 0; packets_tx := 1; packets_rx := 0;
     first_seen := ts; last_seen := ts; rtt_samples := 0; rtt_total := 0;
     state := 0 |}.

Definition evolve_tx (ts size : Z) (flow : flow_data) : flow_data :=
  {| bytes_tx := u64 (bytes_tx flow + size);
     bytes_rx := bytes_rx flow;
     packets_tx := u64 (packets_tx flow + 1);
     packets_rx := packets_rx flow;
     first_seen := first_seen flow;
     last_seen := ts;
     rtt_samples := rtt_samples flow;
     rtt_total := rtt_total flow;
     state := state flow |}.

(** No record has a round-trip-time sample accumulated. *)
Definition rtt_unset (fm : gmap flow_key flow_data) : Prop :=
  forall k r, fm !! k = Some r -> rtt_samples r = 0 /\ rtt_total r = 0.

(** Sample context, socket (10.0.0.1:80 to 10.0.0.2:443, ports stored in
    network byte order) and states for the worked examples. *)
Definition env_user : bpf_env :=
  {| ktime_ns := 1000; current_pid_tgid := 1234 * 2 ^ 32 + 1234;
     current_comm := "app"; current_stackid := 7; smp_processor_id := 0 |}.

Definition sk_a : sock :=
  {| inet_saddr := 167772161; inet_daddr := 167772162;
     inet_sport := 20480; inet_dport := 47873 |}.

Definition key_a : flow_key :=
  {| saddr := 167772161; daddr := 167772162; sport := 80; dport := 443;
     protocol := 6 |}.

Definition flow_a : flow_data :=
  {| bytes_tx := 100; bytes_rx := 0; packets_tx := 1; packets_rx := 0;
     first_seen := 900; last_seen := 900; rtt_samples := 0; rtt_total := 0;
     state := 0 |}.

Definition st_flow : probe_state :=
  {| flow_map := {[ key_a := flow_a ]};
     events := {| rb_capacity := 8; rb_records := [] |} |}.

Definition st_full : probe_state :=
  {| flow_map := {[ key_a := flow_a ]};
     events := {| rb_capacity := 0; rb_records := [] |} |}.


(** The socket a hook invocation is about. *)
Definition hook_sock (h : hook) : sock :=
  match h with
  | StateChange sk _ _ _ => sk
  | TcpProbe sk _ _ _ => sk
  | Retransmit sk => sk
  | SendMsg sk _ => sk
  | CleanupRbuf sk _ => sk
  end.

(** A series of [tcp_sendmsg] calls on one socket, each with its own clock
    reading and size. *)
Definition sends (sk : sock) (calls : list (bpf_env * Z))
    : list (bpf_env * hook) :=
  map (fun c => (c.1, SendMsg sk c.2)) calls.

Definition total_size (calls : list (bpf_env * Z)) : Z :=
  foldr (fun c acc => c.2 + acc) 0 calls.

Definition env_later : bpf_env :=
  {| ktime_ns := 1500; current_pid_tgid := 1234 * 2 ^ 32 + 1234;
     current_comm := "app"; current_stackid := 7; smp_processor_id := 0 |}.

Definition sk_b : sock :=
  {| inet_saddr := 167772161; inet_daddr := 167772163;
     inet_sport := 20480; inet_dport := 47873 |}.

(** The record [tcp_cleanup_rbuf] stores on a first observation, and its
    in-place update of a known flow. *)
Definition fresh_rx (ts copied : Z) : flow_data :=
  {| bytes_tx := 0; bytes_rx := u64 copied; packets_tx := 0; packets_rx := 1;
     first_seen := ts; last_seen := ts; rtt_samples := 0; rtt_total := 0;
     state := 0 |}.

Definition evolve_rx (ts copied : Z) (flow : flow_data) : flow_data :=
  {| bytes_tx := bytes_tx flow;
     bytes_rx := u64 (bytes_rx flow + copied);
     packets_tx := packets_tx flow;
     packets_rx := u64 (packets_rx flow + 1);
     first_seen := first_seen flow;
     last_seen := ts;
     rtt_samples := rtt_samples flow;
     rtt_total := rtt_total flow;
     state := state flow |}.

End TcpFlow.

(** ** cpu_profiler.c *)

Module CpuProfiler.

Definition MAX_ENTRIES : Z := 10240.
Definition MAX_CPUS : Z := 256.

(** The scheduler's "runnable" task state, from [vmlinux.h]. *)
Definition TASK_RUNNING : Z := 0.

(** [struct cpu_sample] (prefix [sample_]) *)
Record cpu_sample := {
  sample_timestamp : Z;
  sample_pid : Z;
  sample_cpu : Z;
  sample_runtime : Z;
  sample_vruntime : Z;
  sample_prio : Z;
  sample_weight : Z;
  sample_comm : string;
}.

(** [struct process_stats] *)
Record process_stats := {
  total_runtime : Z;
  schedule_count : Z;
  voluntary_switches : Z;
  involuntary_switches : Z;
  last_seen : Z;
  min_cpu : Z;
  max_cpu : Z;
}.

(** [struct cpu_stats] *)
Record cpu_stats := {
  idle_time : Z;
  user_time : Z;
  system_time : Z;
  irq_time : Z;
  softirq_time : Z;
  context_switches : Z;
  frequency : Z;
  load_avg : Z;
}.

(** The [struct task_struct] fields [send_cpu_sample] fetches. *)
Record task_struct := {
  task_pid : Z;
  task_prio : Z;
  task_comm : string;
  task_se_vruntime : Z;
  task_se_load_weight : Z;
}.

(** [cpu_map] is a per-CPU array: the running CPU sees its own copy of
    each of the [MAX_CPUS] slots, all zero until written.  The key of
    the finite map is (running CPU, slot). *)
Record state := {
  process_map : gmap Z process_stats;
  cpu_map : gmap (Z * Z) cpu_stats;
  events : ringbuf cpu_sample;
}.

Definition with_process_map (pm : gmap Z process_stats) (st : state) :=
  {| process_map := pm; cpu_map := cpu_map st; events := events st |}.
Definition with_cpu_map (cm : gmap (Z * Z) cpu_stats) (st : state) :=
  {| process_map := process_map st; cpu_map := cm; events := events st |}.
Definition with_events (rb : ringbuf cpu_sample) (st : state) :=
  {| process_map := process_map st; cpu_map := cpu_map st; events := rb |}.

Definition zero_cpu_stats : cpu_stats :=
  {| idle_time := 0; user_time := 0; system_time := 0; irq_time := 0;
     softirq_time := 0; context_switches := 0; frequency := 0;
     load_avg := 0 |}.

(** [bpf_map_lookup_elem(&cpu_map, &key)] on CPU [cpu]: NULL exactly when
    the slot index is out of range. *)
Definition cpu_map_lookup (cpu key : Z) (cm : gmap (Z * Z) cpu_stats)
    : option cpu_stats :=
  if (0 <=? key) && (key <? MAX_CPUS)
  then Some (default zero_cpu_stats (cm !! (cpu, key)))
  else None.

(** An in-place update of a slot found by [cpu_map_lookup]. *)
Definition cpu_map_modify (cpu key : Z) (f : cpu_stats -> cpu_stats)
    (st : state) : state :=
  match cpu_map_lookup cpu key (cpu_map st) with
  | Some stats => with_cpu_map (<[(cpu, key) := f stats]> (cpu_map st)) st
  | None => st
  end.

(** [send_cpu_sample] (lines 84-108).  [&task->se] is the address of an
    embedded member, so the guarded reads always run. *)
Definition send_cpu_sample (env : bpf_env) (task : task_struct)
    (cpu runtime : Z) (st : state) : state :=
  if bpf_ringbuf_reserve (events st) then
    let sample :=
      {| sample_timestamp := ktime_ns env;
         sample_cpu := u32 cpu;
         sample_runtime := u64 runtime;
         sample_pid := u32 (task_pid task);
         sample_prio := u32 (task_prio task);
         sample_comm := task_comm task;
         sample_vruntime := u64 (task_se_vruntime task);
         sample_weight := u32 (task_se_load_weight task) |} in
    with_events (bpf_ringbuf_submit sample (events st)) st
  else st.

(** [stats->last_seen = ts] and the two min/max assignments that every
    hit path of the probe performs. *)
Definition touch (ts cpu : Z) (stats : process_stats) : process_stats :=
  {| total_runtime := total_runtime stats;
     schedule_count := schedule_count stats;
     voluntary_switches := voluntary_switches stats;
     involuntary_switches := involuntary_switches stats;
     last_seen := ts;
     min_cpu := if cpu <? min_cpu stats then cpu else min_cpu stats;
     max_cpu := if max_cpu stats <? cpu then cpu else max_cpu stats |}.

(** tp/sched/sched_switch, the outgoing task (lines 121-141). *)
Definition switch_out (ts cpu prev_pid prev_state : Z)
    (pm : gmap Z process_stats) : gmap Z process_stats :=
  if 0 <? prev_pid then
    match bpf_map_lookup_elem pm prev_pid with
    | None =>
        let new_stats :=
          {| total_runtime := 0; schedule_count := 0;
             voluntary_switches := 0; involuntary_switches := 0;
             last_seen := ts; min_cpu := cpu; max_cpu := cpu |} in
        bpf_map_update_elem MAX_ENTRIES prev_pid new_stats pm
    | Some stats =>
        let stats := touch ts cpu stats in
        let stats :=
          if prev_state =? TASK_RUNNING then
            {| total_runtime := total_runtime stats;
               schedule_count := schedule_count stats;
               voluntary_switches := voluntary_switches stats;
               involuntary_switches := u64 (involuntary_switches stats + 1);
               last_seen := last_seen stats;
               min_cpu := min_cpu stats; max_cpu := max_cpu stats |}
          else
            {| total_runtime := total_runtime stats;
               schedule_count := schedule_count stats;
               voluntary_switches := u64 (voluntary_switches stats + 1);
               involuntary_switches := involuntary_switches stats;
               last_seen := last_seen stats;
               min_cpu := min_cpu stats; max_cpu := max_cpu stats |} in
        <[prev_pid := stats]> pm
    end
  else pm.

(** tp/sched/sched_switch, the incoming task (lines 144-159). *)
Definition switch_in (ts cpu next_pid : Z) (pm : gmap Z process_stats)
    : gmap Z process_stats :=
  if 0 <? next_pid then
    match bpf_map_lookup_elem pm next_pid with
    | None =>
        let new_stats :=
          {| total_runtime := 0; schedule_count := 1;
             voluntary_switches := 0; involuntary_switches := 0;
             last_seen := ts; min_cpu := cpu; max_cpu := cpu |} in
        bpf_map_update_elem MAX_ENTRIES next_pid new_stats pm
    | Some stats =>
        let stats :=
          {| total_runtime := total_runtime stats;
             schedule_count := u64 (schedule_count stats + 1);
             voluntary_switches := voluntary_switches stats;
             involuntary_switches := involuntary_switches stats;
             last_seen := last_seen stats;
             min_cpu := min_cpu stats; max_cpu := max_cpu stats |} in
        <[next_pid := touch ts cpu stats]> pm
    end
  else pm.

Definition bump_context_switches (s : cpu_stats) : cpu_stats :=
  {| idle_time := idle_time s; user_time := user_time s;
     system_time := system_time s; irq_time := irq_time s;
     softirq_time := softirq_time s;
     context_switches := u64 (context_switches s + 1);
     frequency := frequency s; load_avg := load_avg s |}.

(** tp/sched/sched_switch (lines 111-168); [prev_pid], [next_pid] and
    [prev_state] are the tracepoint's fields. *)
Definition trace_sched_switch (env : bpf_env)
    (prev_pid next_pid prev_state : Z) (st : state) : state :=
  let prev_pid := u32 prev_pid in
  let next_pid := u32 next_pid in
  let cpu := u32 (smp_processor_id env) in
  let ts := ktime_ns env in
  let pm := switch_out ts cpu prev_pid prev_state (process_map st) in
  let pm := switch_in ts cpu next_pid pm in
  cpu_map_modify cpu cpu bump_context_switches (with_process_map pm st).

(** tp/sched/sched_wakeup; [task] is the current task. *)
Definition trace_sched_wakeup (env : bpf_env) (task : task_struct)
    (target_cpu : Z) (st : state) : state :=
  send_cpu_sample env task (u32 target_cpu) 0 st.

(** perf_event sampler (lines 184-215). *)
Definition sample_cpu_perf (env : bpf_env) (task : task_struct) (st : state)
    : state :=
  let pid := u32 (Z.shiftr (current_pid_tgid env) 32) in
  let cpu := u32 (smp_processor_id env) in
  let ts := ktime_ns env in
  if pid =? 0 then st
  else
    match bpf_map_lookup_elem (process_map st) pid with
    | None =>
        let new_stats :=
          {| total_runtime := 1; schedule_count := 0;
             voluntary_switches := 0; involuntary_switches := 0;
             last_seen := ts; min_cpu := cpu; max_cpu := cpu |} in
        let pm := bpf_map_update_elem MAX_ENTRIES pid new_stats
                    (process_map st) in
        send_cpu_sample env task cpu 1 (with_process_map pm st)
    | Some stats =>
        let stats :=
          {| total_runtime := u64 (total_runtime stats + 1);
             schedule_count := schedule_count stats;
             voluntary_switches := voluntary_switches stats;
             involuntary_switches := involuntary_switches stats;
             last_seen := last_seen stats;
             min_cpu := min_cpu stats; max_cpu := max_cpu stats |} in
        let stats := touch ts cpu stats in
        let pm := <[pid := stats]> (process_map st) in
        send_cpu_sample env task cpu (total_runtime stats)
          (with_process_map pm st)
    end.

(** tp/power/cpu_frequency *)
Definition trace_cpu_frequency (env : bpf_env) (cpu_id freq : Z) (st : state)
    : state :=
  cpu_map_modify (u32 (smp_processor_id env)) (u32 cpu_id)
    (fun s =>
       {| idle_time := idle_time s; user_time := user_time s;
          system_time := system_time s; irq_time := irq_time s;
          softirq_time := softirq_time s;
          context_switches := context_switches s;
          frequency := u32 freq; load_avg := load_avg s |}) st.

(** tp/power/cpu_idle *)
Definition trace_cpu_idle (env : bpf_env) (idle_state : Z) (st : state)
    : state :=
  let cpu := u32 (smp_processor_id env) in
  cpu_map_modify cpu cpu
    (fun s =>
       if u32 idle_state =? u32 (-1) then s
       else
         {| idle_time := u64 (idle_time s + 1); user_time := user_time s;
            system_time := system_time s; irq_time := irq_time s;
            softirq_time := softirq_time s;
            context_switches := context_switches s;
            frequency := frequency s; load_avg := load_avg s |}) st.

(** tp/irq/irq_handler_entry *)
Definition trace_irq_entry (env : bpf_env) (st : state) : state :=
  let cpu := u32 (smp_processor_id env) in
  cpu_map_modify cpu cpu
    (fun s =>
       {| idle_time := idle_time s; user_time := user_time s;
          system_time := system_time s; irq_time := u64 (irq_time s + 1);
          softirq_time := softirq_time s;
          context_switches := context_switches s;
          frequency := frequency s; load_avg := load_avg s |}) st.

(** tp/irq/softirq_entry *)
Definition trace_softirq_entry (env : bpf_env) (st : state) : state :=
  let cpu := u32 (smp_processor_id env) in
  cpu_map_modify cpu cpu
    (fun s =>
       {| idle_time := idle_time s; user_time := user_time s;
          system_time := system_time s; irq_time := irq_time s;
          softirq_time := u64 (softirq_time s + 1);
          context_switches := context_switches s;
          frequency := frequency s; load_avg := load_avg s |}) st.

(** kprobe/finish_task_switch; [prev] is the task switched away from. *)
Definition finish_task_switch (env : bpf_env) (prev : task_struct)
    (st : state) : state :=
  let prev_pid := u32 (task_pid prev) in
  let cpu := u32 (smp_processor_id env) in
  let ts := ktime_ns env in
  if 0 <? prev_pid then
    match bpf_map_lookup_elem (process_map st) prev_pid with
    | Some stats =>
        let runtime := u64 (ts - last_seen stats) in
        let stats :=
          {| total_runtime := u64 (total_runtime stats + runtime);
             schedule_count := schedule_count stats;
             voluntary_switches := voluntary_switches stats;
             involuntary_switches := involuntary_switches stats;
             last_seen := last_seen stats;
             min_cpu := min_cpu stats; max_cpu := max_cpu stats |} in
        send_cpu_sample env prev cpu runtime
          (with_process_map (<[prev_pid := stats]> (process_map st)) st)
    | None => st
    end
  else st.

Inductive hook : Type :=
| SchedSwitch (prev_pid next_pid prev_state : Z)
| SchedWakeup (task : task_struct) (target_cpu : Z)
| SampleCpuPerf (task : task_struct)
| CpuFrequency (cpu_id freq : Z)
| CpuIdle (idle_state : Z)
| IrqEntry
| SoftirqEntry
| FinishTaskSwitch (prev : task_struct).

Definition fire (eh : bpf_env * hook) (st : state) : state :=
  let (env, h) := eh in
  match h with
  | SchedSwitch prev_pid next_pid prev_state =>
      trace_sched_switch env prev_pid next_pid prev_state st
  | SchedWakeup task target_cpu => trace_sched_wakeup env task target_cpu st
  | SampleCpuPerf task => sample_cpu_perf env task st
  | CpuFrequency cpu_id freq => trace_cpu_frequency env cpu_id freq st
  | CpuIdle idle_state => trace_cpu_idle env idle_state st
  | IrqEntry => trace_irq_entry env st
  | SoftirqEntry => trace_softirq_entry env st
  | FinishTaskSwitch prev => finish_task_switch env prev st
  end.

Definition init (cap : nat) : state :=
  {| process_map := ∅; cpu_map := ∅;
     events := {| rb_capacity := cap; rb_records := [] |} |}.

(** The record a first observation of an outgoing task stores, and the
    in-place update of a known one. *)
Definition fresh_out (ts cpu : Z) : process_stats :=
  {| total_runtime := 0; schedule_count := 0; voluntary_switches := 0;
     involuntary_switches := 0; last_seen := ts; min_cpu := cpu;
     max_cpu := cpu |}.

Definition evolve_out (ts cpu prev_state : Z) (r : process_stats)
    : process_stats :=
  {| total_runtime := total_runtime r;
     schedule_count := schedule_count r;
     voluntary_switches :=
       if prev_state =? TASK_RUNNING then voluntary_switches r
       else u64 (voluntary_switches r + 1);
     involuntary_switches :=
       if prev_state =? TASK_RUNNING then u64 (involuntary_switches r + 1)
       else involuntary_switches r;
     last_seen := ts;
     min_cpu := if cpu <? min_cpu r then cpu else min_cpu r;
     max_cpu := if max_cpu r <? cpu then cpu else max_cpu r |}.

Definition fresh_in (ts cpu : Z) : process_stats :=
  {| total_runtime := 0; schedule_count := 1; voluntary_switches := 0;
     involuntary_switches := 0; last_seen := ts; min_cpu := cpu;
     max_cpu := cpu |}.

Definition evolve_in (ts cpu : Z) (r : process_stats) : process_stats :=
  {| total_runtime := total_runtime r;
     schedule_count := u64 (schedule_count r + 1);
     voluntary_switches := voluntary_switches r;
     involuntary_switches := involuntary_switches r;
     last_seen := ts;
     min_cpu := if cpu <? min_cpu r then cpu else min_cpu r;
     max_cpu := if max_cpu r <? cpu then cpu else max_cpu r |}.

(** Sample context (CPU 2, process 1234), task, record and states for
    the worked examples. *)
Definition env_user : bpf_env :=
  {| ktime_ns := 1000; current_pid_tgid := 1234 * 2 ^ 32 + 1234;
     current_comm := "app"; current_stackid := 7; smp_processor_id := 2 |}.

Definition task_app : task_struct :=
  {| task_pid := 1234; task_prio := 120; task_comm := "app";
     task_se_vruntime := 5000; task_se_load_weight := 1024 |}.

Definition known_stats : process_stats :=
  {| total_runtime := 10; schedule_count := 3; voluntary_switches := 4;
     involuntary_switches := 5; last_seen := 900; min_cpu := 1;
     max_cpu := 1 |}.

Definition st_known : state :=
  {| process_map := {[ 7 := known_stats ]}; cpu_map := ∅;
     events := {| rb_capacity := 8; rb_records := [] |} |}.

Definition st_full : state :=
  {| process_map := {[ 7 := known_stats ]}; cpu_map := ∅;
     events := {| rb_capacity := 0; rb_records := [] |} |}.


(** Every record's observed CPU range is well formed. *)
Definition cpu_range_inv (pm : gmap Z process_stats) : Prop :=
  forall k r, pm !! k = Some r -> min_cpu r <= max_cpu r.

(** CPU [c]'s own slot as that CPU reads it. *)
Definition own_slot (c : Z) (cm : gmap (Z * Z) cpu_stats) : cpu_stats :=
  default zero_cpu_stats (cm !! (c, c)).

(** The scheduler switches that ran on CPU [c] in a sequence of hook
    invocations. *)
Definition is_switch_on (c : Z) (eh : bpf_env * hook) : bool :=
  match eh.2 with
  | SchedSwitch _ _ _ => u32 (smp_processor_id eh.1) =? c
  | _ => false
  end.

Fixpoint switches_on (c : Z) (tr : list (bpf_env * hook)) : Z :=
  match tr with
  | [] => 0
  | eh :: tr' => (if is_switch_on c eh then 1 else 0) + switches_on c tr'
  end.

Definition env_cpu3 : bpf_env :=
  {| ktime_ns := 1200; current_pid_tgid := 1234 * 2 ^ 32 + 1234;
     current_comm := "app"; current_stackid := 7; smp_processor_id := 3 |}.

Definition task_known : task_struct :=
  {| task_pid := 7; task_prio := 120; task_comm := "worker";
     task_se_vruntime := 100; task_se_load_weight := 1024 |}.

(** The record [sample_cpu_perf] stores on a first observation, its
    in-place update of a known task, and the in-place update
    [finish_task_switch] makes. *)
Definition fresh_sample (ts cpu : Z) : process_stats :=
  {| total_runtime := 1; schedule_count := 0; voluntary_switches := 0;
     involuntary_switches := 0; last_seen := ts; min_cpu := cpu;
     max_cpu := cpu |}.

Definition evolve_sample (ts cpu : Z) (r : process_stats) : process_stats :=
  {| total_runtime := u64 (total_runtime r + 1);
     schedule_count := schedule_count r;
     voluntary_switches := voluntary_switches r;
     involuntary_switches := involuntary_switches r;
     last_seen := ts;
     min_cpu := if cpu <? min_cpu r then cpu else min_cpu r;
     max_cpu := if max_cpu r <? cpu then cpu else max_cpu r |}.

Definition evolve_finish (ts : Z) (r : process_stats) : process_stats :=
  {| total_runtime := u64 (total_runtime r + u64 (ts - last_seen r));
     schedule_count := schedule_count r;
     voluntary_switches := voluntary_switches r;
     involuntary_switches := involuntary_switches r;
     last_seen := last_seen r;
     min_cpu := min_cpu r; max_cpu := max_cpu r |}.

End CpuProfiler.

(** ** Properties of the helpers *)

Module BpfSpec.

Section Tables.
Context {K : Type} `{Countable K} {V : Type}.
Implicit Types (m : gmap K V) (k : K).

Lemma spec_getOrCreate_hit cap k fresh evolve m r :
  m !! k = Some r ->
  spec_getOrCreate cap k fresh evolve m = <[k := evolve r]> m.
Proof. intros Hr. unfold spec_getOrCreate. by rewrite Hr. Qed.

Lemma spec_getOrCreate_miss cap k fresh evolve m :
  m !! k = None -> Z.of_nat (size m) < cap ->
  spec_getOrCreate cap k fresh evolve m = <[k := fresh]> m.
Proof.
  intros Hk Hroom. unfold spec_getOrCreate. rewrite Hk.
  by destruct (Z.ltb_spec (Z.of_nat (size m)) cap); [|lia].
Qed.

Lemma spec_getOrCreate_full cap k fresh evolve m :
  m !! k = None -> cap <= Z.of_nat (size m) ->
  spec_getOrCreate cap k fresh evolve m = m.
Proof.
  intros Hk Hfull. unfold spec_getOrCreate. rewrite Hk.
  by destruct (Z.ltb_spec (Z.of_nat (size m)) cap); [lia|].
Qed.

(** Other keys are never disturbed. *)
Lemma spec_getOrCreate_other cap k fresh evolve m k' :
  k <> k' -> spec_getOrCreate cap k fresh evolve m !! k' = m !! k'.
Proof.
  intros Hne. unfold spec_getOrCreate.
  destruct (m !! k); [by rewrite lookup_insert_ne|].
  destruct (_ <? _); [by rewrite lookup_insert_ne|done].
Qed.

(** A present key stays present. *)
Lemma spec_getOrCreate_keeps cap k fresh evolve m k' :
  is_Some (m !! k') ->
  is_Some (spec_getOrCreate cap k fresh evolve m !! k').
Proof.
  intros Hk'. destruct (decide (k = k')) as [->|Hne].
  - destruct Hk' as [r Hr].
    rewrite (spec_getOrCreate_hit _ _ _ _ _ _ Hr), lookup_insert_eq. eauto.
  - by rewrite spec_getOrCreate_other.
Qed.

(** A miss followed by [bpf_map_update_elem], or a hit followed by a
    store through the pointer, is [spec_getOrCreate]. *)
Lemma lookup_then_update cap k fresh evolve m :
  match bpf_map_lookup_elem m k with
  | None => bpf_map_update_elem cap k fresh m
  | Some r => <[k := evolve r]> m
  end = spec_getOrCreate cap k fresh evolve m.
Proof.
  unfold bpf_map_lookup_elem, bpf_map_update_elem, spec_getOrCreate.
  by destruct (m !! k).
Qed.
End Tables.

Section Creations.
Context {St Hk : Type} (step : Hk -> St -> St).
Context {K : Type} `{Countable K} {V : Type} (tbl : St -> gmap K V).
Context (k : K).
Hypothesis step_keeps :
  forall h st, is_Some (tbl st !! k) -> is_Some (tbl (step h st) !! k).

Lemma run_keeps tr st :
  is_Some (tbl st !! k) -> is_Some (tbl (run step tr st) !! k).
Proof.
  revert st. induction tr as [|h tr IH]; intros st Hk'; simpl; [done|].
  apply IH. by apply step_keeps.
Qed.

Lemma creations_present tr st :
  is_Some (tbl st !! k) -> creations step tbl k tr st = 0%nat.
Proof.
  revert st. induction tr as [|h tr IH]; intros st Hk'; simpl; [done|].
  rewrite IH by by apply step_keeps.
  unfold creates. destruct Hk' as [r ->]. done.
Qed.

Lemma creations_at_most_once tr st :
  (creations step tbl k tr st <= 1)%nat.
Proof.
  revert st. induction tr as [|h tr IH]; intros st; simpl; [lia|].
  destruct (creates step tbl k h st) eqn:Hc.
  - rewrite creations_present; [lia|].
    unfold creates in Hc. destruct (tbl st !! k); [done|].
    destruct (tbl (step h st) !! k); [eauto|done].
  - specialize (IH (step h st)). lia.
Qed.
End Creations.

Section EventLog.
Context {St Hk E : Type} (step : Hk -> St -> St) (log : St -> ringbuf E).
Hypothesis step_emits :
  forall h st,
    log (step h st) = log st
    \/ (bpf_ringbuf_reserve (log st) = true
        /\ exists e, log (step h st) = bpf_ringbuf_submit e (log st)).

Lemma step_event_log h st :
  rb_capacity (log (step h st)) = rb_capacity (log st)
  /\ rb_records (log st) `prefix_of` rb_records (log (step h st))
  /\ (length (rb_records (log (step h st)))
      <= S (length (rb_records (log st))))%nat
  /\ ((length (rb_records (log st)) <= rb_capacity (log st))%nat ->
      (length (rb_records (log (step h st))) <= rb_capacity (log st))%nat).
Proof.
  destruct (step_emits h st) as [->|(Hroom & e & ->)].
  { repeat split; try done. lia. }
  unfold bpf_ringbuf_reserve in Hroom. apply Nat.ltb_lt in Hroom.
  cbn [bpf_ringbuf_submit rb_capacity rb_records]. rewrite length_app.
  cbn [length]. repeat split; try lia. by apply prefix_app_r.
Qed.

Lemma run_event_log tr st :
  rb_capacity (log (run step tr st)) = rb_capacity (log st)
  /\ rb_records (log st) `prefix_of` rb_records (log (run step tr st))
  /\ (length (rb_records (log (run step tr st)))
      <= length (rb_records (log st)) + length tr)%nat
  /\ ((length (rb_records (log st)) <= rb_capacity (log st))%nat ->
      (length (rb_records (log (run step tr st))) <= rb_capacity (log st))%nat).
Proof.
  revert st. induction tr as [|h tr IH]; intros st; cbn [run length].
  { repeat split; try done. lia. }
  destruct (step_event_log h st) as (Hc1 & Hp1 & Hl1 & Hb1).
  destruct (IH (step h st)) as (Hc2 & Hp2 & Hl2 & Hb2).
  rewrite Hc1 in Hc2, Hb2. repeat split.
  - done.
  - by etrans.
  - lia.
  - intros Hb. apply Hb2. by apply Hb1.
Qed.
End EventLog.

End BpfSpec.

(** ** Properties of the memory tracker *)

Module MemoryTrackerSpec.
Import MemoryTracker.

Lemma u64_range (x : Z) : 0 <= u64 x < 2 ^ 64.
Proof. unfold u64. apply Z.mod_pos_bound. lia. Qed.

Lemma u64_le (x : Z) : 0 <= x -> u64 x <= x.
Proof. intros Hx. unfold u64. apply Z.mod_le; lia. Qed.

(** *** Emission never touches the tables *)

Lemma send_memory_event_process_memory_map env pid addr size type old st :
  process_memory_map (send_memory_event env pid addr size type old st)
  = process_memory_map st.
Proof. unfold send_memory_event. by destruct (bpf_ringbuf_reserve _). Qed.

Lemma send_memory_event_allocation_map env pid addr size type old st :
  allocation_map (send_memory_event env pid addr size type old st)
  = allocation_map st.
Proof. unfold send_memory_event. by destruct (bpf_ringbuf_reserve _). Qed.

Lemma send_memory_event_full env pid addr size type old st :
  bpf_ringbuf_reserve (events st) = false ->
  send_memory_event env pid addr size type old st = st.
Proof. intros Hfull. unfold send_memory_event. by rewrite Hfull. Qed.

Lemma send_memory_event_room env pid addr size type old st :
  bpf_ringbuf_reserve (events st) = true ->
  rb_records (events (send_memory_event env pid addr size type old st))
  = rb_records (events st) ++
      [ {| ev_timestamp := ktime_ns env; ev_pid := pid;
           ev_tid := u32 (current_pid_tgid env); ev_addr := addr;
           ev_size := size; ev_old_addr := old; ev_type := type;
           ev_flags := 0; ev_stack_id := u64 (current_stackid env);
           ev_comm := current_comm env |} ].
Proof. intros Hroom. unfold send_memory_event. by rewrite Hroom. Qed.

(** *** Lookup-or-create *)

Lemma lookup_or_create_hit pid f pm mem :
  pm !! pid = Some mem -> lookup_or_create pid f pm = <[pid := f mem]> pm.
Proof. intros Hm. unfold lookup_or_create, bpf_map_lookup_elem. by rewrite Hm. Qed.

Lemma lookup_or_create_miss pid f pm :
  pm !! pid = None -> Z.of_nat (size pm) < MAX_ENTRIES ->
  lookup_or_create pid f pm = <[pid := f new_mem]> pm.
Proof.
  intros Hm Hroom.
  unfold lookup_or_create, bpf_map_lookup_elem, bpf_map_update_elem.
  rewrite Hm. destruct (Z.ltb_spec (Z.of_nat (size pm)) MAX_ENTRIES); [|lia].
  rewrite lookup_insert_eq. by rewrite insert_insert_eq.
Qed.

Lemma lookup_or_create_full pid f pm :
  pm !! pid = None -> MAX_ENTRIES <= Z.of_nat (size pm) ->
  lookup_or_create pid f pm = pm.
Proof.
  intros Hm Hfull.
  unfold lookup_or_create, bpf_map_lookup_elem, bpf_map_update_elem.
  rewrite Hm. destruct (Z.ltb_spec (Z.of_nat (size pm)) MAX_ENTRIES); [lia|].
  by rewrite Hm.
Qed.

Lemma lookup_or_create_getOrCreate pid f pm :
  lookup_or_create pid f pm
  = spec_getOrCreate MAX_ENTRIES pid (f new_mem) f pm.
Proof.
  unfold lookup_or_create, spec_getOrCreate.
  unfold bpf_map_lookup_elem, bpf_map_update_elem.
  destruct (pm !! pid) eqn:Hm; [done|].
  destruct (_ <? _).
  - by rewrite lookup_insert_eq, insert_insert_eq.
  - by rewrite Hm.
Qed.

(** The three outcomes, as one case analysis. *)
Lemma lookup_or_create_cases pid f pm :
  (exists mem, pm !! pid = Some mem /\
               lookup_or_create pid f pm = <[pid := f mem]> pm)
  \/ (pm !! pid = None /\ lookup_or_create pid f pm = <[pid := f new_mem]> pm)
  \/ (pm !! pid = None /\ lookup_or_create pid f pm = pm).
Proof.
  destruct (pm !! pid) as [mem|] eqn:Hm.
  - left. exists mem. split; [done|]. by apply lookup_or_create_hit.
  - right. destruct (Z.lt_ge_cases (Z.of_nat (size pm)) MAX_ENTRIES).
    + left. split; [done|]. by apply lookup_or_create_miss.
    + right. split; [done|]. by apply lookup_or_create_full.
Qed.

Lemma trace_page_fault_process_memory_map env address error_code st :
  current_pid env <> 0 ->
  exists f,
    process_memory_map (trace_page_fault env address error_code st)
    = lookup_or_create (current_pid env) f (process_memory_map st)
    /\ (forall m, current_usage (f m) = current_usage m)
    /\ (forall m, peak_usage (f m) = peak_usage m).
Proof.
  intros Hpid. unfold trace_page_fault.
  destruct (Z.eqb_spec (current_pid env) 0) as [|_]; [done|].
  eexists. split; [|split].
  - unfold lookup_or_create.
    destruct (bpf_map_lookup_elem (process_memory_map st) (current_pid env));
      [by rewrite send_memory_event_process_memory_map|].
    destruct (bpf_map_lookup_elem (bpf_map_update_elem _ _ _ _) _);
      [by rewrite send_memory_event_process_memory_map|done].
  - intros m. simpl. by destruct (_ =? 0).
  - intros m. simpl. by destruct (_ =? 0).
Qed.

(** *** How one hook invocation moves [process_memory_map] *)

Lemma account_tame size_delta is_allocation :
  tame (account size_delta is_allocation).
Proof.
  intros m. unfold account.
  pose proof (u64_range size_delta) as Hd.
  destruct (is_allocation =? 0); simpl.
  - destruct (Z.leb_spec (u64 size_delta) (current_usage m)); simpl.
    + split; [lia|]. intros Hinv.
      pose proof (u64_le (current_usage m - u64 size_delta)). lia.
    + split; [lia|done].
  - destruct (Z.ltb_spec (peak_usage m) (u64 (current_usage m + u64 size_delta)));
      simpl; lia.
Qed.

Lemma set_rss_vmem_tame rss vm : tame (set_rss_vmem rss vm).
Proof. intros m. simpl. lia. Qed.

Lemma fire_process_memory_map eh st :
  process_memory_map (fire eh st) = process_memory_map st
  \/ exists pid f, tame f /\
       process_memory_map (fire eh st)
       = lookup_or_create pid f (process_memory_map st).
Proof.
  destruct eh as [env h]. destruct h; unfold fire; cbv beta iota.
  - unfold trace_malloc. destruct (_ || _); [by left|].
    left. apply send_memory_event_process_memory_map.
  - unfold trace_malloc_ret. left. by destruct (_ || _).
  - unfold trace_free. destruct (_ || _); [by left|].
    unfold allocation_take.
    destruct (bpf_map_lookup_elem (allocation_map st) addr) as [info|].
    + right. exists (current_pid env), (account (info_size info) 0).
      split; [apply account_tame|].
      by rewrite send_memory_event_process_memory_map.
    + left. apply send_memory_event_process_memory_map.
  - unfold trace_mmap_enter. destruct (_ || _); [by left|].
    left. apply send_memory_event_process_memory_map.
  - unfold trace_mmap_exit. left. by destruct (_ || _).
  - unfold trace_munmap. destruct (_ || _); [by left|].
    unfold allocation_take.
    destruct (bpf_map_lookup_elem (allocation_map st) (u64 a0)) as [info|].
    + right. exists (current_pid env), (account (u64 a1) 0).
      split; [apply account_tame|].
      by rewrite send_memory_event_process_memory_map.
    + left. apply send_memory_event_process_memory_map.
  - unfold trace_brk. destruct (_ =? 0); [by left|].
    left. apply send_memory_event_process_memory_map.
  - destruct (Z.eq_dec (current_pid env) 0) as [Hz|Hnz].
    + left. unfold trace_page_fault. by rewrite Hz.
    + right.
      destruct (trace_page_fault_process_memory_map env address error_code st Hnz)
        as (f & Heq & Hcur & Hpeak).
      exists (current_pid env), f. split; [|done].
      intros m. rewrite Hcur, Hpeak. lia.
  - by left.
  - left. apply send_memory_event_process_memory_map.
  - unfold sample_memory_stats. destruct (_ =? 0); [by left|].
    destruct (_ =? 0); [by left|].
    right. eexists _, _. split; [apply set_rss_vmem_tame|done].
  - unfold alloc_pages. destruct (_ =? 0); [by left|].
    right. eexists _, _. split; [apply account_tame|].
    by rewrite send_memory_event_process_memory_map.
  - unfold free_pages. destruct (_ =? 0); [by left|].
    right. eexists _, _. split; [apply account_tame|done].
Qed.

(** Records are never removed, and their peak never drops. *)
Lemma fire_peak_mono eh st pid r :
  process_memory_map st !! pid = Some r ->
  exists r', process_memory_map (fire eh st) !! pid = Some r'
             /\ peak_usage r <= peak_usage r'.
Proof.
  intros Hr.
  destruct (fire_process_memory_map eh st) as [->|(p & f & Hf & ->)].
  { exists r. split; [done|lia]. }
  destruct (lookup_or_create_cases p f (process_memory_map st))
    as [(mem & Hm & ->)|[[Hm ->]|[Hm ->]]].
  - destruct (decide (p = pid)) as [->|Hne].
    + rewrite lookup_insert_eq. eexists. split; [done|].
      assert (mem = r) as -> by congruence. apply Hf.
    + rewrite lookup_insert_ne by done. exists r. split; [done|lia].
  - assert (p <> pid) by congruence.
    rewrite lookup_insert_ne by done. exists r. split; [done|lia].
  - exists r. split; [done|lia].
Qed.

Lemma fire_peak_inv eh st :
  peak_inv (process_memory_map st) ->
  peak_inv (process_memory_map (fire eh st)).
Proof.
  intros Hinv.
  destruct (fire_process_memory_map eh st) as [->|(p & f & Hf & ->)];
    [done|].
  destruct (lookup_or_create_cases p f (process_memory_map st))
    as [(mem & Hm & ->)|[[Hm ->]|[Hm ->]]]; [| |done].
  - intros pid r. destruct (decide (p = pid)) as [->|Hne].
    + rewrite lookup_insert_eq. intros [= <-]. apply Hf. by eapply Hinv.
    + rewrite lookup_insert_ne by done. apply Hinv.
  - intros pid r. destruct (decide (p = pid)) as [->|Hne].
    + rewrite lookup_insert_eq. intros [= <-]. by apply Hf.
    + rewrite lookup_insert_ne by done. apply Hinv.
Qed.

Lemma run_peak_inv tr st :
  peak_inv (process_memory_map st) ->
  peak_inv (process_memory_map (run fire tr st)).
Proof.
  revert st. induction tr as [|eh tr IH]; intros st Hinv; simpl; [done|].
  apply IH. by apply fire_peak_inv.
Qed.

Lemma run_peak_mono tr st pid r :
  process_memory_map st !! pid = Some r ->
  exists r', process_memory_map (run fire tr st) !! pid = Some r'
             /\ peak_usage r <= peak_usage r'.
Proof.
  revert st r. induction tr as [|eh tr IH]; intros st r Hr; simpl.
  { exists r. split; [done|lia]. }
  destruct (fire_peak_mono eh st pid r Hr) as (r1 & Hr1 & Hle1).
  destruct (IH _ _ Hr1) as (r2 & Hr2 & Hle2).
  exists r2. split; [done|lia].
Qed.

(** C7. Along every sequence of memory hook invocations started from
    tables in which no gauge exceeds its peak (in particular from the
    empty tables), a process's [peak_usage] never decreases, and at every
    later point it is at least every value [current_usage] has had for
    that process. *)
Theorem peak_usage_monotone_and_dominates
    (st : state) (earlier later : list (bpf_env * hook))
    (pid : Z) (r1 : process_memory) :
  peak_inv (process_memory_map st) ->
  process_memory_map (run fire earlier st) !! pid = Some r1 ->
  exists r2,
    process_memory_map (run fire later (run fire earlier st)) !! pid = Some r2
    /\ peak_usage r1 <= peak_usage r2
    /\ current_usage r1 <= peak_usage r2.
Proof.
  intros Hinv Hr1.
  destruct (run_peak_mono later _ pid r1 Hr1) as (r2 & Hr2 & Hle).
  exists r2. split; [done|]. split; [done|].
  pose proof (run_peak_inv earlier st Hinv pid r1 Hr1). lia.
Qed.

Lemma peak_inv_empty : peak_inv ∅.
Proof. intros pid r. by rewrite lookup_empty. Qed.

Lemma peak_usage_monotone_and_dominates_witness :
  exists r2,
    process_memory_map
      (run fire [(env_user, FreePages 1)]
         (run fire [(env_user, AllocPages 0)] (init 8))) !! 1234 = Some r2
    /\ peak_usage one_page_record <= peak_usage r2
    /\ current_usage one_page_record <= peak_usage r2.
Proof.
  apply (peak_usage_monotone_and_dominates (init 8)
           [(env_user, AllocPages 0)] [(env_user, FreePages 1)]
           1234 one_page_record).
  - apply peak_inv_empty.
  - reflexivity.
Defined.

(** *** The correlation table *)

Lemma update_process_memory_allocation_map pid d a st :
  allocation_map (update_process_memory pid d a st) = allocation_map st.
Proof. done. Qed.

Lemma trace_page_fault_allocation_map env address error_code st :
  allocation_map (trace_page_fault env address error_code st)
  = allocation_map st.
Proof.
  unfold trace_page_fault. destruct (_ =? 0); [done|].
  destruct (bpf_map_lookup_elem (process_memory_map st) _);
    [by rewrite send_memory_event_allocation_map|].
  destruct (bpf_map_lookup_elem (bpf_map_update_elem _ _ _ _) _);
    [by rewrite send_memory_event_allocation_map|done].
Qed.

(** Without a put on [addr], an absent entry stays absent. *)
Lemma fire_allocation_map_absent eh st addr :
  puts addr eh = false ->
  allocation_map st !! addr = None ->
  allocation_map (fire eh st) !! addr = None.
Proof.
  destruct eh as [env h]. intros Hput Habs.
  destruct h; unfold fire; cbv beta iota.
  - unfold trace_malloc. destruct (_ || _); [done|].
    by rewrite send_memory_event_allocation_map.
  - unfold trace_malloc_ret. by destruct (_ || _).
  - unfold trace_free. destruct (_ || _); [done|].
    unfold allocation_take, bpf_map_lookup_elem, bpf_map_delete_elem.
    destruct (allocation_map st !! addr0);
      rewrite send_memory_event_allocation_map; [|done].
    simpl. destruct (decide (addr0 = addr)) as [->|Hne].
    + apply lookup_delete_eq.
    + by rewrite lookup_delete_ne.
  - unfold trace_mmap_enter. destruct (_ || _); [done|].
    by rewrite send_memory_event_allocation_map.
  - unfold trace_mmap_exit. destruct (_ || _); [done|].
    simpl in Hput. apply Z.eqb_neq in Hput.
    unfold bpf_map_update_elem. simpl.
    destruct (allocation_map st !! u64 ret); [by rewrite lookup_insert_ne|].
    destruct (_ <? _); [by rewrite lookup_insert_ne|done].
  - unfold trace_munmap. destruct (_ || _); [done|].
    unfold allocation_take, bpf_map_lookup_elem, bpf_map_delete_elem.
    destruct (allocation_map st !! u64 a0);
      rewrite send_memory_event_allocation_map; [|done].
    simpl. destruct (decide (u64 a0 = addr)) as [->|Hne].
    + apply lookup_delete_eq.
    + by rewrite lookup_delete_ne.
  - unfold trace_brk. destruct (_ =? 0); [done|].
    by rewrite send_memory_event_allocation_map.
  - by rewrite trace_page_fault_allocation_map.
  - done.
  - unfold trace_oom_victim. by rewrite send_memory_event_allocation_map.
  - unfold sample_memory_stats. destruct (_ =? 0); [done|].
    by destruct (_ =? 0).
  - unfold alloc_pages. destruct (_ =? 0); [done|].
    by rewrite send_memory_event_allocation_map.
  - unfold free_pages. by destruct (_ =? 0).
Qed.

Lemma run_allocation_map_absent tr st addr :
  Forall (fun eh => puts addr eh = false) tr ->
  allocation_map st !! addr = None ->
  allocation_map (run fire tr st) !! addr = None.
Proof.
  intros Hall. revert st.
  induction Hall as [|eh tr Hput _ IH]; intros st Habs; simpl; [done|].
  apply IH. by apply fire_allocation_map_absent.
Qed.

(** What a take hook does when its lookup finds the entry [info]: the
    entry is deleted, the process is accounted a deallocation and the event
    is emitted. *)
Lemma take_hook_hit env h addr info st :
  current_pid env <> 0 -> addr <> 0 -> takes addr h = true ->
  allocation_map st !! addr = Some info ->
  fire (env, h) st
  = send_memory_event env (current_pid env) addr (take_size h (Some info))
      (take_type h) 0
      (update_process_memory (current_pid env) (take_size h (Some info)) 0
         (with_allocation_map (delete addr (allocation_map st)) st)).
Proof.
  intros Hpid Haddr Htakes Hl.
  destruct h; try discriminate Htakes; cbn [takes] in Htakes;
    apply Z.eqb_eq in Htakes; unfold fire; cbv beta iota.
  - subst addr0. unfold trace_free, allocation_take, bpf_map_lookup_elem,
      bpf_map_delete_elem.
    destruct (Z.eqb_spec (current_pid env) 0) as [|_]; [done|].
    destruct (Z.eqb_spec addr 0) as [|_]; [done|]. cbn [orb].
    by rewrite Hl.
  - unfold trace_munmap, allocation_take, bpf_map_lookup_elem,
      bpf_map_delete_elem. rewrite Htakes.
    destruct (Z.eqb_spec (current_pid env) 0) as [|_]; [done|].
    destruct (Z.eqb_spec addr 0) as [|_]; [done|]. cbn [orb].
    by rewrite Hl.
Qed.

(** What a take hook does when its lookup finds nothing: it only emits. *)
Lemma take_hook_miss env h addr st :
  current_pid env <> 0 -> addr <> 0 -> takes addr h = true ->
  allocation_map st !! addr = None ->
  fire (env, h) st
  = send_memory_event env (current_pid env) addr (take_size h None)
      (take_type h) 0 st.
Proof.
  intros Hpid Haddr Htakes Hl.
  destruct h; try discriminate Htakes; cbn [takes] in Htakes;
    apply Z.eqb_eq in Htakes; unfold fire; cbv beta iota.
  - subst addr0. unfold trace_free, allocation_take, bpf_map_lookup_elem.
    destruct (Z.eqb_spec (current_pid env) 0) as [|_]; [done|].
    destruct (Z.eqb_spec addr 0) as [|_]; [done|]. cbn [orb].
    by rewrite Hl.
  - unfold trace_munmap, allocation_take, bpf_map_lookup_elem. rewrite Htakes.
    destruct (Z.eqb_spec (current_pid env) 0) as [|_]; [done|].
    destruct (Z.eqb_spec addr 0) as [|_]; [done|]. cbn [orb].
    by rewrite Hl.
Qed.

(** C5. A take on the correlation table is exactly-once.  When a free or
    munmap hook (nonzero process id and address) fires on an address that
    has an entry, the hook consumes it: the entry is deleted from
    [allocation_map], the process is accounted a deallocation and the event
    is emitted.  After that, however many hooks run in between, as long as
    none of them puts the address back, the address has no entry, and a
    second free or munmap of it finds nothing: it only emits its event (of
    size 0 for free) and leaves every table as it was. *)
Theorem take_exactly_once
    (env1 env2 : bpf_env) (h1 h2 : hook) (addr : Z) (info : allocation_info)
    (between : list (bpf_env * hook)) (st : state) :
  current_pid env1 <> 0 -> current_pid env2 <> 0 -> addr <> 0 ->
  takes addr h1 = true -> takes addr h2 = true ->
  allocation_map st !! addr = Some info ->
  Forall (fun eh => puts addr eh = false) between ->
  let st1 := fire (env1, h1) st in
  let st2 := run fire between st1 in
  st1 = send_memory_event env1 (current_pid env1) addr
          (take_size h1 (Some info)) (take_type h1) 0
          (update_process_memory (current_pid env1)
             (take_size h1 (Some info)) 0
             (with_allocation_map (delete addr (allocation_map st)) st))
  /\ allocation_map st1 = delete addr (allocation_map st)
  /\ allocation_map st2 !! addr = None
  /\ fire (env2, h2) st2
     = send_memory_event env2 (current_pid env2) addr (take_size h2 None)
         (take_type h2) 0 st2.
Proof.
  intros Hp1 Hp2 Haddr Ht1 Ht2 Hl Hnoput st1 st2.
  assert (st1 = send_memory_event env1 (current_pid env1) addr
                  (take_size h1 (Some info)) (take_type h1) 0
                  (update_process_memory (current_pid env1)
                     (take_size h1 (Some info)) 0
                     (with_allocation_map (delete addr (allocation_map st))
                        st))) as Hst1.
  { subst st1. by apply take_hook_hit. }
  assert (allocation_map st1 = delete addr (allocation_map st)) as Ham1.
  { rewrite Hst1. by rewrite send_memory_event_allocation_map. }
  assert (allocation_map st2 !! addr = None) as Habs.
  { subst st2. apply run_allocation_map_absent; [done|].
    rewrite Ham1. apply lookup_delete_eq. }
  split; [done|]. split; [done|]. split; [done|].
  by apply take_hook_miss.
Qed.

Lemma take_exactly_once_witness :
  let st1 := fire (env_user, Free 4096) st_busy in
  let st2 := run fire [(env_user, Malloc 64); (env_user, MmapExit 8192)] st1 in
  st1 = send_memory_event env_user (current_pid env_user) 4096
          (take_size (Free 4096) (Some mapped_info)) (take_type (Free 4096)) 0
          (update_process_memory (current_pid env_user)
             (take_size (Free 4096) (Some mapped_info)) 0
             (with_allocation_map (delete 4096 (allocation_map st_busy))
                st_busy))
  /\ allocation_map st1 = delete 4096 (allocation_map st_busy)
  /\ allocation_map st2 !! 4096 = None
  /\ fire (env_user, Munmap 4096 100) st2
     = send_memory_event env_user (current_pid env_user) 4096
         (take_size (Munmap 4096 100) None) (take_type (Munmap 4096 100)) 0
         st2.
Proof.
  apply (take_exactly_once env_user env_user (Free 4096) (Munmap 4096 100)
           4096 mapped_info
           [(env_user, Malloc 64); (env_user, MmapExit 8192)] st_busy).
  - vm_compute. discriminate.
  - vm_compute. discriminate.
  - discriminate.
  - reflexivity.
  - reflexivity.
  - reflexivity.
  - repeat constructor.
Defined.

(** *** Guards *)

(** C10. When the malloc entry hook fires with requested size 0 or
    process id 0, or the free hook with address 0 or process id 0, or the
    mmap entry hook with length 0 or process id 0, the invocation changes
    nothing: no event is emitted and no table entry is created or
    modified. *)
Theorem zero_guard_is_noop (env : bpf_env) (st : state) (arg : Z) :
  current_pid env = 0 \/ arg = 0 ->
  trace_malloc env arg st = st
  /\ trace_free env arg st = st
  /\ trace_mmap_enter env arg st = st.
Proof.
  intros Hguard.
  assert ((current_pid env =? 0) || (arg =? 0) = true) as Hg.
  { destruct Hguard as [->| ->]; [done|]. apply orb_true_r. }
  assert ((current_pid env =? 0) || (u64 arg =? 0) = true) as Hg'.
  { destruct Hguard as [->| ->]; [done|]. apply orb_true_r. }
  unfold trace_malloc, trace_free, trace_mmap_enter.
  by rewrite Hg, Hg'.
Qed.

Lemma zero_guard_is_noop_witness :
  (trace_malloc env_kernel 128 st_busy = st_busy
   /\ trace_free env_kernel 128 st_busy = st_busy
   /\ trace_mmap_enter env_kernel 128 st_busy = st_busy)
  /\ (trace_malloc env_user 0 st_busy = st_busy
      /\ trace_free env_user 0 st_busy = st_busy
      /\ trace_mmap_enter env_user 0 st_busy = st_busy).
Proof.
  split.
  - apply (zero_guard_is_noop env_kernel st_busy 128). left. reflexivity.
  - apply (zero_guard_is_noop env_user st_busy 0). right. reflexivity.
Defined.

(** *** The malloc/free pair *)

(** Neither malloc hook writes a table, so a free of an address that no
    mmap put into [allocation_map] finds nothing to account. *)
Lemma malloc_free_pair_unaccounted env1 env2 env3 size addr st :
  allocation_map st !! addr = None ->
  let st' := run fire [(env1, Malloc size); (env2, MallocRet addr);
                       (env3, Free addr)] st in
  process_memory_map st' = process_memory_map st
  /\ allocation_map st' = allocation_map st.
Proof.
  intros Habs st'. subst st'. cbn [run]. unfold fire. cbv beta iota.
  assert (trace_malloc_ret env2 addr (trace_malloc env1 size st)
          = trace_malloc env1 size st) as ->.
  { unfold trace_malloc_ret. by destruct (_ || _). }
  assert (process_memory_map (trace_malloc env1 size st)
          = process_memory_map st
          /\ allocation_map (trace_malloc env1 size st) = allocation_map st)
    as [Hp Ha].
  { unfold trace_malloc. destruct (_ || _); [done|].
    by rewrite send_memory_event_process_memory_map,
               send_memory_event_allocation_map. }
  unfold trace_free. destruct (_ || _); [done|].
  unfold allocation_take, bpf_map_lookup_elem. rewrite Ha, Habs.
  by rewrite send_memory_event_process_memory_map,
             send_memory_event_allocation_map.
Qed.

(** C1, on the code.  Process 1234 mallocs 128 bytes (entry, then return
    of address 4096) and frees that address, starting from empty tables:
    afterwards the statistics table holds no record for the process at
    all, so none with [allocation_count = 1], [free_count = 1] and
    [total_allocated = total_freed = 128]; the two events that were emitted
    carry sizes 128 and 0. *)
Theorem scenario_A_statistics_not_recorded :
  let st := run fire scenario_A (init 8) in
  process_memory_map st !! 1234 = None
  /\ map ev_size (rb_records (events st)) = [128; 0]
  /\ map ev_type (rb_records (events st)) = [ALLOC_MALLOC; ALLOC_FREE].
Proof. vm_compute. done. Qed.

(** *** Deallocation-class updates *)

(** C4 fails as stated: with a gauge of 100, accounting a deallocation of
    200 leaves the gauge at 100; it is not set to 0. *)
Lemma oversized_free_counterexample :
  (current_usage <$>
     process_memory_map (update_process_memory 1234 200 0 st_busy) !! 1234)
  = Some 100
  /\ ~ (forall r,
          process_memory_map (update_process_memory 1234 200 0 st_busy)
            !! 1234 = Some r ->
          current_usage r = 0).
Proof.
  split; [reflexivity|].
  intros Hclaim. by specialize (Hclaim _ eq_refl).
Qed.

(** C4, amended.  When a deallocation-class update subtracts more than the
    process's gauge holds, the subtraction is skipped: [current_usage]
    keeps its value (it is not reset to 0 and does not wrap), while
    [free_count] and [total_freed] still advance. *)
Theorem oversized_free_skips_subtraction
    (st : state) (pid size_delta : Z) (r : process_memory) :
  process_memory_map st !! pid = Some r ->
  current_usage r < u64 size_delta ->
  exists r',
    process_memory_map (update_process_memory pid size_delta 0 st) !! pid
    = Some r'
    /\ current_usage r' = current_usage r
    /\ peak_usage r' = peak_usage r
    /\ free_count r' = u64 (free_count r + 1)
    /\ total_freed r' = u64 (total_freed r + u64 size_delta).
Proof.
  intros Hr Hlt. unfold update_process_memory. simpl.
  rewrite (lookup_or_create_hit _ _ _ _ Hr), lookup_insert_eq.
  eexists. split; [done|]. unfold account. simpl.
  destruct (Z.leb_spec (u64 size_delta) (current_usage r)); [lia|done].
Qed.

Lemma oversized_free_skips_subtraction_witness :
  exists r',
    process_memory_map (update_process_memory 1234 200 0 st_busy) !! 1234
    = Some r'
    /\ current_usage r' = current_usage busy_record
    /\ peak_usage r' = peak_usage busy_record
    /\ free_count r' = u64 (free_count busy_record + 1)
    /\ total_freed r' = u64 (total_freed busy_record + u64 200).
Proof.
  apply (oversized_free_skips_subtraction st_busy 1234 200 busy_record).
  - reflexivity.
  - vm_compute. reflexivity.
Defined.

(** *** Closing-phase events without a matching entry *)

(** C3 fails as stated: freeing address 8192, which has no entry, leaves
    process 1234's [free_count] at 5; and an unmatched munmap of 4096
    bytes at that address emits an event of size 4096, not 0. *)
Lemma unmatched_close_counterexample :
  allocation_map st_busy !! 8192 = None
  /\ (free_count <$>
        process_memory_map (trace_free env_user 8192 st_busy) !! 1234)
     = Some 5
  /\ (free_count <$>
        process_memory_map (trace_munmap env_user 8192 4096 st_busy) !! 1234)
     = Some 5
  /\ map ev_size (rb_records (events (trace_munmap env_user 8192 4096 st_busy)))
     = [4096].
Proof. vm_compute. done. Qed.

(** C3, amended.  For a free or munmap whose process id and address are
    nonzero and whose address has no entry in [allocation_map], while the
    channel has room: exactly one event is emitted, of size 0 for free and
    of the length passed to munmap for munmap, and every table is left as
    it was, so [free_count] does not move and [current_usage] is
    unaffected. *)
Theorem unmatched_close_emits_only
    (env : bpf_env) (st : state) (addr len : Z) :
  current_pid env <> 0 ->
  0 < addr < 2 ^ 64 ->
  allocation_map st !! addr = None ->
  bpf_ringbuf_reserve (events st) = true ->
  let event type size :=
    {| ev_timestamp := ktime_ns env; ev_pid := current_pid env;
       ev_tid := u32 (current_pid_tgid env); ev_addr := addr;
       ev_size := size; ev_old_addr := 0; ev_type := type; ev_flags := 0;
       ev_stack_id := u64 (current_stackid env);
       ev_comm := current_comm env |} in
  trace_free env addr st
  = with_events (bpf_ringbuf_submit (event ALLOC_FREE 0) (events st)) st
  /\ trace_munmap env addr len st
     = with_events
         (bpf_ringbuf_submit (event ALLOC_MUNMAP (u64 len)) (events st)) st.
Proof.
  intros Hpid Haddr Habs Hroom event. subst event.
  assert (u64 addr = addr) as Hu by (unfold u64; apply Z.mod_small; lia).
  unfold trace_free, trace_munmap, allocation_take, bpf_map_lookup_elem.
  rewrite Hu, Habs.
  destruct (Z.eqb_spec (current_pid env) 0) as [|_]; [done|].
  destruct (Z.eqb_spec addr 0) as [|_]; [lia|]. cbn [orb].
  unfold send_memory_event. by rewrite Hroom.
Qed.

Lemma unmatched_close_emits_only_witness :
  let event type size :=
    {| ev_timestamp := 1000; ev_pid := 1234; ev_tid := 1234;
       ev_addr := 8192; ev_size := size; ev_old_addr := 0;
       ev_type := type; ev_flags := 0; ev_stack_id := 7;
       ev_comm := "app" |} in
  trace_free env_user 8192 st_busy
  = with_events (bpf_ringbuf_submit (event ALLOC_FREE 0) (events st_busy))
      st_busy
  /\ trace_munmap env_user 8192 4096 st_busy
     = with_events
         (bpf_ringbuf_submit (event ALLOC_MUNMAP 4096) (events st_busy))
         st_busy.
Proof.
  apply (unmatched_close_emits_only env_user st_busy 8192 4096).
  - vm_compute. discriminate.
  - lia.
  - reflexivity.
  - reflexivity.
Defined.

(** *** Further properties of the hooks *)

Lemma u64_idem (x : Z) : u64 (u64 x) = u64 x.
Proof. unfold u64. apply Z.mod_mod. lia. Qed.

Lemma u64_small (x : Z) : 0 <= x < 2 ^ 64 -> u64 x = x.
Proof. intros Hx. unfold u64. by apply Z.mod_small. Qed.

Lemma s64_u64 (x : Z) : s64 (u64 x) = s64 x.
Proof. unfold s64. by rewrite u64_idem. Qed.

(** X1. Every hook that reads the current process id ignores the kernel's own
    context (process id 0): nothing is emitted and no map is written. *)
Theorem kernel_context_is_ignored (env : bpf_env) (h : hook) (st : state) :
  current_pid env = 0 -> guards_pid h = true -> fire (env, h) st = st.
Proof.
  intros Hpid Hg. destruct h; try discriminate Hg; unfold fire; cbv beta iota.
  - unfold trace_malloc. by rewrite Hpid.
  - unfold trace_malloc_ret. by rewrite Hpid.
  - unfold trace_free. by rewrite Hpid.
  - unfold trace_mmap_enter. by rewrite Hpid.
  - unfold trace_mmap_exit. by rewrite Hpid.
  - unfold trace_munmap. by rewrite Hpid.
  - unfold trace_brk. by rewrite Hpid.
  - unfold trace_page_fault. by rewrite Hpid.
  - unfold sample_memory_stats. by rewrite Hpid.
  - unfold alloc_pages. by rewrite Hpid.
  - unfold free_pages. by rewrite Hpid.
Qed.

Lemma kernel_context_is_ignored_witness :
  fire (env_kernel, AllocPages 3) st_busy = st_busy.
Proof.
  apply (kernel_context_is_ignored env_kernel (AllocPages 3) st_busy).
  - reflexivity.
  - reflexivity.
Defined.

Lemma trace_mmap_exit_ok env ret st :
  current_pid env <> 0 -> 0 <= s64 ret ->
  is_Some (allocation_map st !! u64 ret)
  \/ Z.of_nat (size (allocation_map st)) < MAX_ENTRIES * 4 ->
  trace_mmap_exit env ret st
  = with_allocation_map (<[u64 ret := mmap_info env]> (allocation_map st)) st.
Proof.
  intros Hpid Hok Hroom. unfold trace_mmap_exit. rewrite s64_u64.
  destruct (Z.eqb_spec (current_pid env) 0) as [|_]; [done|]. cbn [orb].
  destruct (Z.ltb_spec (s64 ret) 0); [lia|].
  f_equal. unfold bpf_map_update_elem, mmap_info.
  destruct (allocation_map st !! u64 ret) eqn:Hl; [done|].
  destruct Hroom as [[? ?]|Hroom]; [done|].
  by destruct (Z.ltb_spec (Z.of_nat (size (allocation_map st)))
                 (MAX_ENTRIES * 4)); [|lia].
Qed.

(** X2. A successful mmap return is put under the returned address, so that the
    next take yields an entry with size 0, the time of the return and the
    process id, and leaves the table without the address; a failed mmap
    (negative return value) records nothing. *)
Theorem mmap_exit_put_then_take (env : bpf_env) (ret : Z) (st : state) :
  current_pid env <> 0 ->
  (0 <= s64 ret ->
   is_Some (allocation_map st !! u64 ret)
   \/ Z.of_nat (size (allocation_map st)) < MAX_ENTRIES * 4 ->
   allocation_take (u64 ret) (allocation_map (trace_mmap_exit env ret st))
   = (Some (mmap_info env), delete (u64 ret) (allocation_map st)))
  /\ (s64 ret < 0 -> trace_mmap_exit env ret st = st).
Proof.
  intros Hpid. split.
  - intros Hok Hroom. rewrite trace_mmap_exit_ok by done.
    cbn [allocation_map with_allocation_map].
    unfold allocation_take, bpf_map_lookup_elem, bpf_map_delete_elem.
    by rewrite lookup_insert_eq, delete_insert_eq.
  - intros Hneg. unfold trace_mmap_exit. rewrite s64_u64.
    destruct (Z.ltb_spec (s64 ret) 0); [|lia]. by rewrite orb_true_r.
Qed.

Lemma mmap_exit_put_then_take_witness :
  allocation_take (u64 8192) (allocation_map (trace_mmap_exit env_user 8192 st_busy))
  = (Some (mmap_info env_user), delete (u64 8192) (allocation_map st_busy))
  /\ trace_mmap_exit env_user (-12) st_busy = st_busy.
Proof.
  destruct (mmap_exit_put_then_take env_user 8192 st_busy) as [Hok _].
  { vm_compute. discriminate. }
  destruct (mmap_exit_put_then_take env_user (-12) st_busy) as [_ Hfail].
  { vm_compute. discriminate. }
  split.
  - apply Hok.
    + vm_compute. discriminate.
    + right. vm_compute. reflexivity.
  - apply Hfail. vm_compute. reflexivity.
Defined.

(** X3. An mmap return followed by the munmap of the same address consumes the
    entry again, and the munmap is accounted as a deallocation of the
    length it was called with although the mapping was never accounted as
    an allocation: [total_freed] and [free_count] advance while
    [total_allocated] and [allocation_count] stay. *)
Theorem mmap_then_munmap_accounts_only_a_free
    (env1 env2 : bpf_env) (addr len : Z) (st : state) (r : process_memory) :
  current_pid env1 <> 0 -> current_pid env2 <> 0 ->
  0 < addr < 2 ^ 63 ->
  allocation_map st !! addr = None ->
  Z.of_nat (size (allocation_map st)) < MAX_ENTRIES * 4 ->
  process_memory_map st !! current_pid env2 = Some r ->
  let st' := run fire [(env1, MmapExit addr); (env2, Munmap addr len)] st in
  allocation_map st' = allocation_map st
  /\ exists r',
       process_memory_map st' !! current_pid env2 = Some r'
       /\ total_allocated r' = total_allocated r
       /\ allocation_count r' = allocation_count r
       /\ total_freed r' = u64 (total_freed r + u64 len)
       /\ free_count r' = u64 (free_count r + 1).
Proof.
  intros Hp1 Hp2 Haddr Habs Hroom Hr st'. subst st'.
  assert (u64 addr = addr) as Hu by (apply u64_small; lia).
  assert (0 <= s64 addr) as Hs.
  { unfold s64. rewrite Hu. destruct (Z.ltb_spec addr (2 ^ 63)); lia. }
  cbn [run]. unfold fire. cbv beta iota.
  rewrite trace_mmap_exit_ok by (rewrite ?Hu; auto).
  unfold trace_munmap. rewrite Hu.
  destruct (Z.eqb_spec (current_pid env2) 0) as [|_]; [done|].
  destruct (Z.eqb_spec addr 0) as [|_]; [lia|]. cbn [orb].
  cbn [allocation_map with_allocation_map].
  unfold allocation_take, bpf_map_lookup_elem, bpf_map_delete_elem.
  rewrite lookup_insert_eq, delete_insert_eq, (delete_id _ _ Habs).
  rewrite send_memory_event_allocation_map,
          send_memory_event_process_memory_map.
  split; [done|].
  unfold update_process_memory.
  cbn [process_memory_map allocation_map with_process_memory_map
       with_allocation_map].
  rewrite (lookup_or_create_hit _ _ _ _ Hr), lookup_insert_eq.
  eexists. split; [done|]. unfold account. cbn [Z.eqb].
  rewrite u64_idem.
  destruct (u64 len <=? _); done.
Qed.

Lemma mmap_then_munmap_accounts_only_a_free_witness :
  let st' := run fire [(env_user, MmapExit 8192); (env_user, Munmap 8192 4096)]
               st_busy in
  allocation_map st' = allocation_map st_busy
  /\ exists r',
       process_memory_map st' !! current_pid env_user = Some r'
       /\ total_allocated r' = total_allocated busy_record
       /\ allocation_count r' = allocation_count busy_record
       /\ total_freed r' = u64 (total_freed busy_record + u64 4096)
       /\ free_count r' = u64 (free_count busy_record + 1).
Proof.
  apply (mmap_then_munmap_accounts_only_a_free
           env_user env_user 8192 4096 st_busy busy_record).
  - vm_compute. discriminate.
  - vm_compute. discriminate.
  - lia.
  - reflexivity.
  - vm_compute. reflexivity.
  - reflexivity.
Defined.

(** *** Page accounting *)

Lemma pages_to_bytes_range order : 0 <= pages_to_bytes order < 2 ^ 64.
Proof. apply u64_range. Qed.

(** X4. [pages_to_bytes] is 4096 * 2^order for orders up to 51; for orders 52 to
    63 the product no longer fits 64 bits and the result is 0. *)
Theorem pages_to_bytes_value (order : Z) :
  0 <= order < 64 ->
  pages_to_bytes order = if order <=? 51 then 4096 * 2 ^ order else 0.
Proof.
  intros Ho. unfold pages_to_bytes.
  assert (Z.land order 63 = order) as ->.
  { change 63 with (Z.ones 6). rewrite Z.land_ones by lia.
    apply Z.mod_small. change (2 ^ 6) with 64. lia. }
  rewrite Z.shiftl_1_l.
  assert (0 < 2 ^ order < 2 ^ 64) as Hp.
  { split; [apply Z.pow_pos_nonneg; lia|apply Z.pow_lt_mono_r; lia]. }
  rewrite (u64_small (2 ^ order)) by lia.
  change 4096 with (2 ^ 12). rewrite <- Z.pow_add_r by lia.
  destruct (Z.leb_spec order 51).
  - rewrite Z.mul_comm, <- Z.pow_add_r by lia.
    rewrite Z.add_comm. apply u64_small.
    split; [apply Z.pow_nonneg; lia|apply Z.pow_lt_mono_r; lia].
  - replace (order + 12) with (order - 52 + 64) by lia.
    rewrite Z.pow_add_r by lia. unfold u64. apply Z.mod_mul. lia.
Qed.

Lemma pages_to_bytes_value_witness :
  pages_to_bytes 3 = (if 3 <=? 51 then 4096 * 2 ^ 3 else 0)
  /\ pages_to_bytes 52 = (if 52 <=? 51 then 4096 * 2 ^ 52 else 0).
Proof.
  split.
  - apply (pages_to_bytes_value 3). lia.
  - apply (pages_to_bytes_value 52). lia.
Defined.

(** X5. A page allocation followed by the release of as many pages brings the
    process's gauge back to where it was (as long as the allocation did not
    wrap it), raises the peak to the value reached in between, and advances
    both ledgers by the same amount. *)
Theorem alloc_then_free_pages_restores_gauge
    (env : bpf_env) (order : Z) (st : state) (r : process_memory) :
  current_pid env <> 0 ->
  process_memory_map st !! current_pid env = Some r ->
  0 <= current_usage r ->
  current_usage r + pages_to_bytes order < 2 ^ 64 ->
  exists r',
    process_memory_map
      (run fire [(env, AllocPages order); (env, FreePages order)] st)
      !! current_pid env = Some r'
    /\ current_usage r' = current_usage r
    /\ peak_usage r'
       = Z.max (peak_usage r) (current_usage r + pages_to_bytes order)
    /\ total_allocated r' = u64 (total_allocated r + pages_to_bytes order)
    /\ total_freed r' = u64 (total_freed r + pages_to_bytes order)
    /\ allocation_count r' = u64 (allocation_count r + 1)
    /\ free_count r' = u64 (free_count r + 1).
Proof.
  intros Hpid Hr Hcur Hfit.
  pose proof (pages_to_bytes_range order) as Hsz.
  cbn [run]. unfold fire. cbv beta iota.
  unfold alloc_pages, free_pages.
  destruct (Z.eqb_spec (current_pid env) 0) as [|_]; [done|].
  unfold update_process_memory.
  cbn [process_memory_map with_process_memory_map].
  rewrite send_memory_event_process_memory_map.
  cbn [process_memory_map with_process_memory_map].
  rewrite (lookup_or_create_hit _ _ _ _ Hr).
  rewrite (lookup_or_create_hit _ _ _ _ (lookup_insert_eq _ _ _)).
  rewrite lookup_insert_eq. eexists. split; [done|].
  unfold account. cbn [Z.eqb].
  rewrite (u64_small (pages_to_bytes order)) by done.
  cbn [current_usage peak_usage total_allocated total_freed allocation_count
       free_count set_total_allocated set_allocation_count set_current_usage
       set_peak_usage set_total_freed set_free_count].
  rewrite (u64_small (current_usage r + pages_to_bytes order)) by lia.
  destruct (Z.ltb_spec (peak_usage r) (current_usage r + pages_to_bytes order));
    cbn [current_usage peak_usage total_allocated total_freed allocation_count
         free_count set_total_allocated set_allocation_count
         set_current_usage set_peak_usage set_total_freed set_free_count];
    (destruct (Z.leb_spec (pages_to_bytes order)
                 (current_usage r + pages_to_bytes order)); [|lia]);
    cbn [current_usage peak_usage total_allocated total_freed allocation_count
         free_count set_total_allocated set_allocation_count
         set_current_usage set_peak_usage set_total_freed set_free_count];
    replace (current_usage r + pages_to_bytes order - pages_to_bytes order)
      with (current_usage r) by lia;
    rewrite (u64_small (current_usage r)) by lia;
    repeat split; lia.
Qed.

Lemma alloc_then_free_pages_restores_gauge_witness :
  exists r',
    process_memory_map
      (run fire [(env_user, AllocPages 2); (env_user, FreePages 2)] st_busy)
      !! current_pid env_user = Some r'
    /\ current_usage r' = current_usage busy_record
    /\ peak_usage r'
       = Z.max (peak_usage busy_record)
           (current_usage busy_record + pages_to_bytes 2)
    /\ total_allocated r' = u64 (total_allocated busy_record + pages_to_bytes 2)
    /\ total_freed r' = u64 (total_freed busy_record + pages_to_bytes 2)
    /\ allocation_count r' = u64 (allocation_count busy_record + 1)
    /\ free_count r' = u64 (free_count busy_record + 1).
Proof.
  apply (alloc_then_free_pages_restores_gauge env_user 2 st_busy busy_record).
  - vm_compute. discriminate.
  - reflexivity.
  - vm_compute. discriminate.
  - vm_compute. reflexivity.
Defined.

(** *** What the other hooks leave alone *)

Lemma account_free_quiet size_delta : quiet (account size_delta 0).
Proof.
  intros m. unfold account. cbn [Z.eqb]. simpl.
  pose proof (u64_range size_delta) as Hd.
  destruct (Z.leb_spec (u64 size_delta) (current_usage m)); simpl.
  - pose proof (u64_le (current_usage m - u64 size_delta)).
    repeat split; try done; lia.
  - repeat split; try done; lia.
Qed.

Lemma count_fault_quiet error_code : quiet (count_fault error_code).
Proof.
  intros m. unfold count_fault. destruct (_ =? 0); simpl; repeat split; lia.
Qed.

Lemma set_rss_vmem_quiet rss vm : quiet (set_rss_vmem rss vm).
Proof. intros m. simpl. repeat split; lia. Qed.

Lemma trace_page_fault_counts env address error_code st :
  current_pid env <> 0 ->
  process_memory_map (trace_page_fault env address error_code st)
  = lookup_or_create (current_pid env) (count_fault (u32 error_code))
      (process_memory_map st).
Proof.
  intros Hpid. unfold trace_page_fault.
  destruct (Z.eqb_spec (current_pid env) 0) as [|_]; [done|].
  unfold lookup_or_create.
  destruct (bpf_map_lookup_elem (process_memory_map st) (current_pid env));
    [by rewrite send_memory_event_process_memory_map|].
  destruct (bpf_map_lookup_elem (bpf_map_update_elem _ _ _ _) _);
    [by rewrite send_memory_event_process_memory_map|done].
Qed.

Lemma fire_quiet eh st :
  (forall order, eh.2 <> AllocPages order) ->
  process_memory_map (fire eh st) = process_memory_map st
  \/ exists pid f, quiet f /\
       process_memory_map (fire eh st)
       = lookup_or_create pid f (process_memory_map st).
Proof.
  destruct eh as [env h]. intros Hno.
  destruct h; unfold fire; cbv beta iota.
  - unfold trace_malloc. destruct (_ || _); [by left|].
    left. apply send_memory_event_process_memory_map.
  - unfold trace_malloc_ret. left. by destruct (_ || _).
  - unfold trace_free. destruct (_ || _); [by left|].
    unfold allocation_take.
    destruct (bpf_map_lookup_elem (allocation_map st) addr) as [info|].
    + right. exists (current_pid env), (account (info_size info) 0).
      split; [apply account_free_quiet|].
      by rewrite send_memory_event_process_memory_map.
    + left. apply send_memory_event_process_memory_map.
  - unfold trace_mmap_enter. destruct (_ || _); [by left|].
    left. apply send_memory_event_process_memory_map.
  - unfold trace_mmap_exit. left. by destruct (_ || _).
  - unfold trace_munmap. destruct (_ || _); [by left|].
    unfold allocation_take.
    destruct (bpf_map_lookup_elem (allocation_map st) (u64 a0)) as [info|].
    + right. exists (current_pid env), (account (u64 a1) 0).
      split; [apply account_free_quiet|].
      by rewrite send_memory_event_process_memory_map.
    + left. apply send_memory_event_process_memory_map.
  - unfold trace_brk. destruct (_ =? 0); [by left|].
    left. apply send_memory_event_process_memory_map.
  - destruct (Z.eq_dec (current_pid env) 0) as [Hz|Hnz].
    + left. unfold trace_page_fault. by rewrite Hz.
    + right. rewrite trace_page_fault_counts by done.
      eexists _, _. split; [apply count_fault_quiet|done].
  - by left.
  - left. apply send_memory_event_process_memory_map.
  - unfold sample_memory_stats. destruct (_ =? 0); [by left|].
    destruct (_ =? 0); [by left|].
    right. eexists _, _. split; [apply set_rss_vmem_quiet|done].
  - by destruct (Hno order).
  - unfold free_pages. destruct (_ =? 0); [by left|].
    right. eexists _, _. split; [apply account_free_quiet|done].
Qed.

(** X6. Allocations are accounted by the page-allocation kprobe alone: along any
    sequence of invocations of the other hooks (malloc, mmap, brk and
    page-fault hooks included), a process record keeps its
    [total_allocated], [allocation_count] and [peak_usage], and its
    [current_usage] never grows. *)
Theorem only_alloc_pages_accounts_allocations
    (tr : list (bpf_env * hook)) (st : state) (pid : Z) (r : process_memory) :
  Forall (fun eh => forall order, eh.2 <> AllocPages order) tr ->
  process_memory_map st !! pid = Some r ->
  exists r',
    process_memory_map (run fire tr st) !! pid = Some r'
    /\ total_allocated r' = total_allocated r
    /\ allocation_count r' = allocation_count r
    /\ peak_usage r' = peak_usage r
    /\ current_usage r' <= current_usage r.
Proof.
  intros Hall. revert st r.
  induction Hall as [|eh tr Hno _ IH]; intros st r Hr; cbn [run].
  { exists r. repeat split; try done; lia. }
  assert (exists r1,
            process_memory_map (fire eh st) !! pid = Some r1
            /\ total_allocated r1 = total_allocated r
            /\ allocation_count r1 = allocation_count r
            /\ peak_usage r1 = peak_usage r
            /\ current_usage r1 <= current_usage r)
    as (r1 & Hr1 & Ha & Hc & Hp & Hu).
  { destruct (fire_quiet eh st Hno) as [->|(p & f & Hf & ->)].
    { exists r. repeat split; try done; lia. }
    destruct (lookup_or_create_cases p f (process_memory_map st))
      as [(mem & Hm & ->)|[[Hm ->]|[Hm ->]]].
    - destruct (decide (p = pid)) as [->|Hne].
      + rewrite lookup_insert_eq. eexists. split; [done|].
        assert (mem = r) as -> by congruence. apply Hf.
      + rewrite lookup_insert_ne by done. exists r. repeat split; try done; lia.
    - assert (p <> pid) by congruence.
      rewrite lookup_insert_ne by done. exists r. repeat split; try done; lia.
    - exists r. repeat split; try done; lia. }
  destruct (IH _ _ Hr1) as (r' & Hr' & Ha' & Hc' & Hp' & Hu').
  exists r'. repeat split; try done; lia.
Qed.

Lemma only_alloc_pages_accounts_allocations_witness :
  exists r',
    process_memory_map
      (run fire [(env_user, Malloc 128); (env_user, PageFault 4096 4);
                 (env_user, Munmap 4096 50)] st_busy) !! 1234 = Some r'
    /\ total_allocated r' = total_allocated busy_record
    /\ allocation_count r' = allocation_count busy_record
    /\ peak_usage r' = peak_usage busy_record
    /\ current_usage r' <= current_usage busy_record.
Proof.
  apply (only_alloc_pages_accounts_allocations
           [(env_user, Malloc 128); (env_user, PageFault 4096 4);
            (env_user, Munmap 4096 50)] st_busy 1234 busy_record).
  - repeat constructor; discriminate.
  - reflexivity.
Defined.

(** X7. A user page fault of a process that has a record, or for which the
    table has room, is counted exactly once: [page_faults] goes up by one
    from its previous value (from 0 for a new record), [major_faults] goes up
    by one exactly when bit 2 of the error code is set, and the allocation
    ledger of the record is left alone. *)
Theorem page_fault_is_counted
    (env : bpf_env) (address error_code : Z) (st : state) :
  current_pid env <> 0 ->
  is_Some (process_memory_map st !! current_pid env)
  \/ Z.of_nat (size (process_memory_map st)) < MAX_ENTRIES ->
  let old := default new_mem (process_memory_map st !! current_pid env) in
  exists r',
    process_memory_map (trace_page_fault env address error_code st)
      !! current_pid env = Some r'
    /\ page_faults r' = u64 (page_faults old + 1)
    /\ major_faults r'
       = (if Z.testbit (u32 error_code) 2 then u64 (major_faults old + 1)
          else major_faults old)
    /\ current_usage r' = current_usage old
    /\ peak_usage r' = peak_usage old
    /\ total_allocated r' = total_allocated old
    /\ total_freed r' = total_freed old.
Proof.
  intros Hpid Hroom old. rewrite trace_page_fault_counts by done.
  assert (lookup_or_create (current_pid env) (count_fault (u32 error_code))
            (process_memory_map st) !! current_pid env
          = Some (count_fault (u32 error_code) old)) as ->.
  { subst old.
    destruct (process_memory_map st !! current_pid env) as [mem|] eqn:Hm.
    - by rewrite (lookup_or_create_hit _ _ _ _ Hm), lookup_insert_eq.
    - destruct Hroom as [[? ?]|Hroom]; [done|].
      by rewrite lookup_or_create_miss, lookup_insert_eq. }
  eexists. split; [done|]. unfold count_fault.
  assert (Z.land (u32 error_code) 4 = if Z.testbit (u32 error_code) 2
                                      then 4 else 0) as ->.
  { apply Z.bits_inj'. intros n Hn. rewrite Z.land_spec.
    destruct (decide (n = 2)) as [->|Hne].
    - destruct (Z.testbit (u32 error_code) 2); reflexivity.
    - assert (Z.testbit 4 n = false) as ->.
      { change 4 with (2 ^ 2). apply Z.pow2_bits_false. lia. }
      rewrite andb_false_r.
      destruct (Z.testbit (u32 error_code) 2);
        [change 4 with (2 ^ 2); symmetry; apply Z.pow2_bits_false; lia
        |symmetry; apply Z.bits_0]. }
  destruct (Z.testbit (u32 error_code) 2); simpl; repeat split; done.
Qed.

Lemma page_fault_is_counted_witness :
  let old := default new_mem (process_memory_map st_busy !! current_pid env_user) in
  exists r',
    process_memory_map (trace_page_fault env_user 4096 6 st_busy)
      !! current_pid env_user = Some r'
    /\ page_faults r' = u64 (page_faults old + 1)
    /\ major_faults r'
       = (if Z.testbit (u32 6) 2 then u64 (major_faults old + 1)
          else major_faults old)
    /\ current_usage r' = current_usage old
    /\ peak_usage r' = peak_usage old
    /\ total_allocated r' = total_allocated old
    /\ total_freed r' = total_freed old.
Proof.
  apply (page_fault_is_counted env_user 4096 6 st_busy).
  - vm_compute. discriminate.
  - left. vm_compute. eauto.
Defined.

(** X8. The periodic sampler stores absolute values: taking the same sample
    twice leaves the same state as taking it once. *)
Theorem sample_memory_stats_idempotent
    (env : bpf_env) (mm rss vm : Z) (st : state) :
  sample_memory_stats env mm rss vm (sample_memory_stats env mm rss vm st)
  = sample_memory_stats env mm rss vm st.
Proof.
  unfold sample_memory_stats.
  destruct (current_pid env =? 0); [done|]. destruct (mm =? 0); [done|].
  unfold with_process_memory_map. cbn [process_memory_map allocation_map
    system_memory_map events]. f_equal.
  set (f := set_rss_vmem (u64 rss) (u64 vm)).
  assert (forall m, f (f m) = f m) as Hf by done.
  destruct (lookup_or_create_cases (current_pid env) f (process_memory_map st))
    as [(mem & Hm & ->)|[[Hm ->]|[Hm Heq]]].
  - rewrite (lookup_or_create_hit _ _ _ _ (lookup_insert_eq _ _ _)).
    by rewrite insert_insert_eq, Hf.
  - rewrite (lookup_or_create_hit _ _ _ _ (lookup_insert_eq _ _ _)).
    by rewrite insert_insert_eq, Hf.
  - by rewrite !Heq.
Qed.

(** *** A statistics table at capacity *)

(** X9. When [process_memory_map] is full and the process has no record, a page
    fault changes nothing at all, not even the event channel, whereas a page
    allocation still emits its event (given room in the channel) without
    recording anything, and a page release changes nothing. *)
Theorem unknown_process_at_capacity
    (env : bpf_env) (st : state) (address error_code order : Z) :
  current_pid env <> 0 ->
  process_memory_map st !! current_pid env = None ->
  MAX_ENTRIES <= Z.of_nat (size (process_memory_map st)) ->
  trace_page_fault env address error_code st = st
  /\ alloc_pages env order st
     = send_memory_event env (current_pid env) 0 (pages_to_bytes order)
         ALLOC_PAGE 0 st
  /\ free_pages env order st = st.
Proof.
  intros Hpid Habs Hfull.
  assert (forall f, lookup_or_create (current_pid env) f (process_memory_map st)
                    = process_memory_map st) as Hloc.
  { intros f. by apply lookup_or_create_full. }
  assert (forall d a, update_process_memory (current_pid env) d a st = st)
    as Hupd.
  { intros d a. unfold update_process_memory. rewrite Hloc. by destruct st. }
  split; [|split].
  - unfold trace_page_fault, bpf_map_lookup_elem, bpf_map_update_elem.
    destruct (Z.eqb_spec (current_pid env) 0) as [|_]; [done|].
    rewrite Habs.
    destruct (Z.ltb_spec (Z.of_nat (size (process_memory_map st))) MAX_ENTRIES);
      [lia|].
    rewrite Habs. by destruct st.
  - unfold alloc_pages.
    destruct (Z.eqb_spec (current_pid env) 0) as [|_]; [done|].
    by rewrite Hupd.
  - unfold free_pages.
    destruct (Z.eqb_spec (current_pid env) 0) as [|_]; [done|].
    by rewrite Hupd.
Qed.

Lemma full_table_keys (l : list nat) :
  (map (fun i => (Z.of_nat i, new_mem)) l).*1 = Z.of_nat <$> l.
Proof. induction l as [|i l IH]; [done|]. cbn. by rewrite IH. Qed.

Lemma full_table_size : Z.of_nat (size full_table) = MAX_ENTRIES.
Proof.
  unfold full_table. rewrite map_size_list_to_map.
  - rewrite length_map, length_seq. apply Z2Nat.id. unfold MAX_ENTRIES. lia.
  - rewrite full_table_keys. apply NoDup_fmap_2; [apply _|apply NoDup_seq].
Qed.

Lemma full_table_lookup_high (k : Z) :
  MAX_ENTRIES < k -> full_table !! k = None.
Proof.
  intros Hk. unfold full_table. apply not_elem_of_list_to_map_1.
  rewrite full_table_keys. intros Hin.
  apply list_elem_of_fmap in Hin as (i & -> & Hi).
  apply elem_of_seq in Hi. unfold MAX_ENTRIES in Hk. lia.
Qed.

Lemma unknown_process_at_capacity_witness :
  trace_page_fault env_other 4096 4 st_table_full = st_table_full
  /\ alloc_pages env_other 1 st_table_full
     = send_memory_event env_other (current_pid env_other) 0 (pages_to_bytes 1)
         ALLOC_PAGE 0 st_table_full
  /\ free_pages env_other 1 st_table_full = st_table_full.
Proof.
  apply (unknown_process_at_capacity env_other st_table_full 4096 4 1).
  - vm_compute. discriminate.
  - apply (full_table_lookup_high 20000). unfold MAX_ENTRIES. lia.
  - apply Z.eq_le_incl. symmetry. exact full_table_size.
Defined.

(** *** The event channel *)

Lemma send_memory_event_emits env pid addr size type old st0 st :
  events st = events st0 ->
  events (send_memory_event env pid addr size type old st) = events st0
  \/ (bpf_ringbuf_reserve (events st0) = true
      /\ exists e, events (send_memory_event env pid addr size type old st)
                   = bpf_ringbuf_submit e (events st0)).
Proof.
  intros Heq. unfold send_memory_event. rewrite Heq.
  destruct (bpf_ringbuf_reserve (events st0)); [|by left].
  right. split; [done|]. eauto.
Qed.

Lemma memory_fire_emits eh st :
  events (fire eh st) = events st
  \/ (bpf_ringbuf_reserve (events st) = true
      /\ exists e, events (fire eh st) = bpf_ringbuf_submit e (events st)).
Proof.
  destruct eh as [env h]. destruct h; unfold fire; cbv beta iota.
  - unfold trace_malloc. destruct (_ || _); [by left|].
    by apply send_memory_event_emits.
  - unfold trace_malloc_ret. left. by destruct (_ || _).
  - unfold trace_free. destruct (_ || _); [by left|].
    destruct (allocation_take addr (allocation_map st)) as [[info|] am];
      by apply send_memory_event_emits.
  - unfold trace_mmap_enter. destruct (_ || _); [by left|].
    by apply send_memory_event_emits.
  - unfold trace_mmap_exit. left. by destruct (_ || _).
  - unfold trace_munmap. destruct (_ || _); [by left|].
    destruct (allocation_take (u64 a0) (allocation_map st)) as [[info|] am];
      by apply send_memory_event_emits.
  - unfold trace_brk. destruct (_ =? 0); [by left|].
    by apply send_memory_event_emits.
  - unfold trace_page_fault. destruct (_ =? 0); [by left|].
    destruct (bpf_map_lookup_elem (process_memory_map st) _);
      [by apply send_memory_event_emits|].
    destruct (bpf_map_lookup_elem (bpf_map_update_elem _ _ _ _) _);
      [by apply send_memory_event_emits|by left].
  - by left.
  - unfold trace_oom_victim. by apply send_memory_event_emits.
  - unfold sample_memory_stats. left. destruct (_ =? 0); [done|].
    by destruct (_ =? 0).
  - unfold alloc_pages. destruct (_ =? 0); [by left|].
    by apply send_memory_event_emits.
  - unfold free_pages. left. by destruct (_ =? 0).
Qed.

(** *** What the correlation table holds *)

Lemma fire_sizes_zero eh st :
  sizes_zero (allocation_map st) -> sizes_zero (allocation_map (fire eh st)).
Proof.
  destruct eh as [env h]. intros Hinv.
  assert (forall k, sizes_zero (delete k (allocation_map st))) as Hdel.
  { intros k addr info Hl. apply lookup_delete_Some in Hl as [_ Hl].
    by eapply Hinv. }
  destruct h; unfold fire; cbv beta iota.
  - unfold trace_malloc. destruct (_ || _); [done|].
    by rewrite send_memory_event_allocation_map.
  - unfold trace_malloc_ret. by destruct (_ || _).
  - unfold trace_free. destruct (_ || _); [done|].
    unfold allocation_take, bpf_map_lookup_elem, bpf_map_delete_elem.
    destruct (allocation_map st !! addr);
      rewrite send_memory_event_allocation_map; [apply Hdel|done].
  - unfold trace_mmap_enter. destruct (_ || _); [done|].
    by rewrite send_memory_event_allocation_map.
  - unfold trace_mmap_exit. destruct (_ || _); [done|].
    cbn [allocation_map with_allocation_map]. unfold bpf_map_update_elem.
    assert (sizes_zero
              (<[u64 ret := {| info_size := 0; info_timestamp := ktime_ns env;
                               info_stack_id := 0;
                               info_pid := current_pid env |}]>
                 (allocation_map st))) as Hins.
    { intros addr info. destruct (decide (u64 ret = addr)) as [->|Hne].
      - rewrite lookup_insert_eq. by intros [= <-].
      - rewrite lookup_insert_ne by done. apply Hinv. }
    destruct (allocation_map st !! u64 ret); [done|].
    by destruct (_ <? _).
  - unfold trace_munmap. destruct (_ || _); [done|].
    unfold allocation_take, bpf_map_lookup_elem, bpf_map_delete_elem.
    destruct (allocation_map st !! u64 a0);
      rewrite send_memory_event_allocation_map; [apply Hdel|done].
  - unfold trace_brk. destruct (_ =? 0); [done|].
    by rewrite send_memory_event_allocation_map.
  - by rewrite trace_page_fault_allocation_map.
  - done.
  - unfold trace_oom_victim. by rewrite send_memory_event_allocation_map.
  - unfold sample_memory_stats. destruct (_ =? 0); [done|].
    by destruct (_ =? 0).
  - unfold alloc_pages. destruct (_ =? 0); [done|].
    by rewrite send_memory_event_allocation_map.
  - unfold free_pages. by destruct (_ =? 0).
Qed.

(** X10. The only writer of the correlation table stores size 0, so every entry
    of every table reached from the empty one has size 0; a free therefore
    always reports size 0 in its event, whether or not its address is
    recorded. *)
Theorem recorded_sizes_are_zero
    (tr : list (bpf_env * hook)) (st : state) (env : bpf_env) (addr : Z) :
  sizes_zero (allocation_map st) ->
  let st1 := run fire tr st in
  sizes_zero (allocation_map st1)
  /\ (current_pid env <> 0 -> addr <> 0 ->
      bpf_ringbuf_reserve (events st1) = true ->
      exists e,
        rb_records (events (trace_free env addr st1))
        = rb_records (events st1) ++ [e]
        /\ ev_type e = ALLOC_FREE /\ ev_addr e = addr /\ ev_size e = 0).
Proof.
  intros Hinv st1.
  assert (sizes_zero (allocation_map st1)) as Hinv1.
  { subst st1. revert st Hinv.
    induction tr as [|eh tr IH]; intros st Hinv; cbn [run]; [done|].
    apply IH. by apply fire_sizes_zero. }
  split; [done|]. intros Hpid Haddr Hroom. unfold trace_free.
  destruct (Z.eqb_spec (current_pid env) 0) as [|_]; [done|].
  destruct (Z.eqb_spec addr 0) as [|_]; [done|]. cbn [orb].
  unfold allocation_take, bpf_map_lookup_elem.
  destruct (allocation_map st1 !! addr) as [info|] eqn:Hl.
  - rewrite (Hinv1 _ _ Hl). unfold send_memory_event.
    cbn [events update_process_memory with_process_memory_map
         with_allocation_map].
    rewrite Hroom. eexists. by split.
  - unfold send_memory_event. rewrite Hroom. eexists. by split.
Qed.

Lemma sizes_zero_empty : sizes_zero ∅.
Proof. intros addr info. by rewrite lookup_empty. Qed.

Lemma recorded_sizes_are_zero_witness :
  let st1 := run fire [(env_user, MmapExit 8192); (env_user, Malloc 64)]
               (init 8) in
  sizes_zero (allocation_map st1)
  /\ exists e,
       rb_records (events (trace_free env_user 8192 st1))
       = rb_records (events st1) ++ [e]
       /\ ev_type e = ALLOC_FREE /\ ev_addr e = 8192 /\ ev_size e = 0.
Proof.
  destruct (recorded_sizes_are_zero
              [(env_user, MmapExit 8192); (env_user, Malloc 64)]
              (init 8) env_user 8192 sizes_zero_empty) as [Hinv Hfree].
  split; [exact Hinv|].
  apply Hfree.
  - vm_compute. discriminate.
  - discriminate.
  - reflexivity.
Defined.

End MemoryTrackerSpec.

(** ** Properties of the TCP flow monitor *)

Module TcpFlowSpec.
Import TcpFlow BpfSpec.

Lemma send_event_flow_map env ty sk bytes rtt st :
  flow_map (send_event env ty sk bytes rtt st) = flow_map st.
Proof. unfold send_event. by destruct (bpf_ringbuf_reserve _). Qed.

Lemma send_event_full env ty sk bytes rtt st :
  bpf_ringbuf_reserve (events st) = false ->
  send_event env ty sk bytes rtt st = st.
Proof. intros Hfull. unfold send_event. by rewrite Hfull. Qed.

Lemma trace_tcp_state_change_flow_map env sk family oldstate newstate st :
  flow_map (trace_tcp_state_change env sk family oldstate newstate st)
  = flow_map st.
Proof.
  unfold trace_tcp_state_change. destruct (negb _); [done|].
  repeat (destruct (_ : bool); rewrite ?send_event_flow_map); done.
Qed.

(** What the outbound kprobe does to [flow_map]. *)
Lemma tcp_sendmsg_flow_map env sk size st :
  flow_map (tcp_sendmsg env sk size st)
  = spec_getOrCreate MAX_ENTRIES (sock_key sk)
      (fresh_tx (ktime_ns env) (u64 size))
      (evolve_tx (ktime_ns env) (u64 size)) (flow_map st).
Proof.
  unfold tcp_sendmsg. rewrite send_event_flow_map. cbn [flow_map with_flow_map].
  apply lookup_then_update.
Qed.

(** What the inbound kprobe does to [flow_map]. *)
Lemma tcp_cleanup_rbuf_flow_map env sk copied st :
  0 < s32 copied ->
  flow_map (tcp_cleanup_rbuf env sk copied st)
  = spec_getOrCreate MAX_ENTRIES (sock_key sk)
      {| bytes_tx := 0; bytes_rx := u64 (s32 copied); packets_tx := 0;
         packets_rx := 1; first_seen := ktime_ns env;
         last_seen := ktime_ns env; rtt_samples := 0; rtt_total := 0;
         state := 0 |}
      (fun flow =>
         {| bytes_tx := bytes_tx flow;
            bytes_rx := u64 (bytes_rx flow + s32 copied);
            packets_tx := packets_tx flow;
            packets_rx := u64 (packets_rx flow + 1);
            first_seen := first_seen flow;
            last_seen := ktime_ns env;
            rtt_samples := rtt_samples flow;
            rtt_total := rtt_total flow;
            state := state flow |})
      (flow_map st).
Proof.
  intros Hpos. unfold tcp_cleanup_rbuf.
  destruct (Z.leb_spec (s32 copied) 0); [lia|].
  rewrite send_event_flow_map. cbn [flow_map with_flow_map].
  apply lookup_then_update.
Qed.

(** One hook invocation either leaves [flow_map] alone or performs one
    get-or-create whose fresh record and in-place update both leave the
    round-trip-time pair as it is (zero when fresh). *)
Lemma fire_flow_map eh st :
  flow_map (fire eh st) = flow_map st
  \/ exists k fresh evolve,
       flow_map (fire eh st)
       = spec_getOrCreate MAX_ENTRIES k fresh evolve (flow_map st)
       /\ rtt_samples fresh = 0 /\ rtt_total fresh = 0
       /\ (forall r, rtt_samples (evolve r) = rtt_samples r
                     /\ rtt_total (evolve r) = rtt_total r).
Proof.
  destruct eh as [env h]. destruct h; unfold fire; cbv beta iota.
  - left. apply trace_tcp_state_change_flow_map.
  - left. apply send_event_flow_map.
  - left. apply send_event_flow_map.
  - right. rewrite tcp_sendmsg_flow_map. eexists _, _, _. by split.
  - destruct (Z.lt_ge_cases 0 (s32 copied)) as [Hpos|Hneg].
    + right. rewrite tcp_cleanup_rbuf_flow_map by done.
      eexists _, _, _. by split.
    + left. unfold tcp_cleanup_rbuf.
      by destruct (Z.leb_spec (s32 copied) 0); [|lia].
Qed.

Lemma tcp_fire_keeps eh st k :
  is_Some (flow_map st !! k) -> is_Some (flow_map (fire eh st) !! k).
Proof.
  intros Hk.
  destruct (fire_flow_map eh st) as [->|(k' & fr & ev & -> & _)]; [done|].
  by apply spec_getOrCreate_keeps.
Qed.

Lemma fire_rtt_unset eh st :
  rtt_unset (flow_map st) -> rtt_unset (flow_map (fire eh st)).
Proof.
  intros Hinv.
  destruct (fire_flow_map eh st)
    as [->|(k' & fr & ev & -> & Hs & Ht & Hev)]; [done|].
  intros k r. destruct (decide (k' = k)) as [->|Hne].
  - unfold spec_getOrCreate. destruct (flow_map st !! k) as [r0|] eqn:Hk.
    + rewrite lookup_insert_eq. intros [= <-].
      destruct (Hev r0) as [-> ->]. by eapply Hinv.
    + destruct (_ <? _).
      * rewrite lookup_insert_eq. by intros [= <-].
      * rewrite Hk. done.
  - rewrite spec_getOrCreate_other by done. apply Hinv.
Qed.

Lemma run_rtt_unset tr st :
  rtt_unset (flow_map st) -> rtt_unset (flow_map (run fire tr st)).
Proof.
  revert st. induction tr as [|eh tr IH]; intros st Hinv; simpl; [done|].
  apply IH. by apply fire_rtt_unset.
Qed.

(** C9 fails as stated: a probe sample with smoothed RTT 500 on a socket
    whose flow is already tracked leaves the flow's [rtt_samples] and
    [rtt_total] at 0; the whole [flow_map] is unchanged. *)
Lemma rtt_sample_counterexample :
  let st := trace_tcp_probe env_user sk_a 2000 1000 500 st_flow in
  sock_key sk_a = key_a
  /\ flow_map st = flow_map st_flow
  /\ flow_map st !! key_a = Some flow_a
  /\ ~ (exists r, flow_map st !! key_a = Some r
                  /\ rtt_samples r = rtt_samples flow_a + 1
                  /\ rtt_total r = rtt_total flow_a + 500).
Proof.
  cbv zeta. split; [reflexivity|]. split; [reflexivity|].
  split; [reflexivity|].
  intros (r & Hr & Hs & _).
  assert (Some r = Some flow_a) as [= ->] by (rewrite <- Hr; reflexivity).
  simpl in Hs. lia.
Qed.

(** C9, amended.  A round-trip-time sample observed by the tcp_probe hook
    is forwarded in the emitted event (kind 3, [rtt] field) when the
    channel has room, and is not accumulated anywhere: the hook leaves
    [flow_map] unchanged, and no hook of the probe ever writes
    [rtt_samples] or [rtt_total], which are therefore 0 in every record
    of every table reached from the empty one. *)
Theorem rtt_sample_forwarded_not_accumulated
    (env : bpf_env) (sk : sock) (snd_nxt snd_una srtt : Z)
    (st : probe_state) :
  flow_map (trace_tcp_probe env sk snd_nxt snd_una srtt st) = flow_map st
  /\ (bpf_ringbuf_reserve (events st) = true ->
      exists e,
        rb_records (events (trace_tcp_probe env sk snd_nxt snd_una srtt st))
        = rb_records (events st) ++ [e]
        /\ ev_event_type e = 3 /\ ev_rtt e = u32 srtt)
  /\ (forall tr cap, rtt_unset (flow_map (run fire tr (init cap)))).
Proof.
  split; [apply send_event_flow_map|]. split.
  - intros Hroom. unfold trace_tcp_probe, send_event. rewrite Hroom.
    eexists. split; [done|]. split; [done|].
    cbn [ev_rtt]. unfold u32. by rewrite Z.mod_mod.
  - intros tr cap. apply run_rtt_unset. intros k r.
    cbn [init flow_map]. by rewrite lookup_empty.
Qed.

Lemma rtt_sample_forwarded_not_accumulated_witness :
  exists e,
    rb_records (events (trace_tcp_probe env_user sk_a 2000 1000 500 st_flow))
    = rb_records (events st_flow) ++ [e]
    /\ ev_event_type e = 3 /\ ev_rtt e = u32 500.
Proof.
  apply (rtt_sample_forwarded_not_accumulated
           env_user sk_a 2000 1000 500 st_flow).
  reflexivity.
Defined.

(** *** The event channel *)

Lemma send_event_emits env ty sk bytes rtt st0 st :
  events st = events st0 ->
  events (send_event env ty sk bytes rtt st) = events st0
  \/ (bpf_ringbuf_reserve (events st0) = true
      /\ exists e, events (send_event env ty sk bytes rtt st)
                   = bpf_ringbuf_submit e (events st0)).
Proof.
  intros Heq. unfold send_event. rewrite Heq.
  destruct (bpf_ringbuf_reserve (events st0)); [|by left].
  right. split; [done|]. eauto.
Qed.

(** The three tests of the state-change hook exclude one another. *)
Lemma trace_tcp_state_change_cases env sk family oldstate newstate st :
  trace_tcp_state_change env sk family oldstate newstate st = st
  \/ exists kind,
       trace_tcp_state_change env sk family oldstate newstate st
       = send_event env kind sk 0 0 st
       /\ u16 family = AF_INET
       /\ ((kind = 1 /\ oldstate = TCP_SYN_SENT /\ newstate = TCP_ESTABLISHED)
           \/ (kind = 2 /\ oldstate = TCP_SYN_RECV
               /\ newstate = TCP_ESTABLISHED)
           \/ (kind = 5 /\ newstate = TCP_CLOSE)).
Proof.
  unfold trace_tcp_state_change.
  destruct (Z.eqb_spec (u16 family) AF_INET) as [Hf|]; [|by left].
  cbn [negb].
  destruct (Z.eqb_spec oldstate TCP_SYN_SENT) as [Ho1|Ho1];
    destruct (Z.eqb_spec oldstate TCP_SYN_RECV) as [Ho2|Ho2];
    destruct (Z.eqb_spec newstate TCP_ESTABLISHED) as [Hn1|Hn1];
    destruct (Z.eqb_spec newstate TCP_CLOSE) as [Hn2|Hn2];
    cbn [andb];
    try (exfalso; unfold TCP_SYN_SENT, TCP_SYN_RECV, TCP_ESTABLISHED,
           TCP_CLOSE in *; lia);
    try (by left);
    right; eexists; (split; [reflexivity|]); split; try done; tauto.
Qed.

Lemma tcp_fire_emits eh st :
  events (fire eh st) = events st
  \/ (bpf_ringbuf_reserve (events st) = true
      /\ exists e, events (fire eh st) = bpf_ringbuf_submit e (events st)).
Proof.
  destruct eh as [env h]. destruct h; unfold fire; cbv beta iota.
  - destruct (trace_tcp_state_change_cases env sk family oldstate newstate st)
      as [->|(kind & -> & _)]; [by left|].
    by apply send_event_emits.
  - by apply send_event_emits.
  - by apply send_event_emits.
  - by apply send_event_emits.
  - unfold tcp_cleanup_rbuf. destruct (_ <=? 0); [by left|].
    by apply send_event_emits.
Qed.

(** X11. A socket state change never touches [flow_map] and emits at most one
    event: connect (1) on SYN_SENT to ESTABLISHED, accept (2) on SYN_RECV to
    ESTABLISHED, close (5) on any transition into CLOSE, each with zero
    bytes and zero rtt; a socket that is not IPv4 is ignored. *)
Theorem state_change_emits_one_lifecycle_event
    (env : bpf_env) (sk : sock) (family oldstate newstate : Z)
    (st : probe_state) :
  let st' := trace_tcp_state_change env sk family oldstate newstate st in
  flow_map st' = flow_map st
  /\ (u16 family <> AF_INET -> st' = st)
  /\ (rb_records (events st') = rb_records (events st)
      \/ exists e,
           rb_records (events st') = rb_records (events st) ++ [e]
           /\ ev_bytes e = 0 /\ ev_rtt e = 0
           /\ ((ev_event_type e = 1 /\ oldstate = TCP_SYN_SENT
                /\ newstate = TCP_ESTABLISHED)
               \/ (ev_event_type e = 2 /\ oldstate = TCP_SYN_RECV
                   /\ newstate = TCP_ESTABLISHED)
               \/ (ev_event_type e = 5 /\ newstate = TCP_CLOSE))).
Proof.
  intros st'. subst st'. split; [apply trace_tcp_state_change_flow_map|].
  split.
  { intros Hf. unfold trace_tcp_state_change.
    by destruct (Z.eqb_spec (u16 family) AF_INET). }
  destruct (trace_tcp_state_change_cases env sk family oldstate newstate st)
    as [->|(kind & -> & _ & Hkind)]; [by left|].
  unfold send_event. destruct (bpf_ringbuf_reserve (events st)); [|by left].
  right. eexists. split; [done|]. cbn [ev_bytes ev_rtt ev_event_type].
  split; [done|]. split; [done|].
  destruct Hkind as [(-> & ? & ?)|[(-> & ? & ?)|(-> & ?)]]; auto.
Qed.

(** X12. A hook invocation touches no flow record other than the one of its own
    socket: every other key of [flow_map] keeps its record, or its
    absence. *)
Theorem other_flows_untouched
    (eh : bpf_env * hook) (st : probe_state) (k : flow_key) :
  k <> sock_key (hook_sock eh.2) ->
  flow_map (fire eh st) !! k = flow_map st !! k.
Proof.
  destruct eh as [env h]. intros Hk.
  destruct h; unfold fire; cbv beta iota; cbn [snd hook_sock] in Hk.
  - by rewrite trace_tcp_state_change_flow_map.
  - unfold trace_tcp_probe. by rewrite send_event_flow_map.
  - unfold trace_tcp_retransmit. by rewrite send_event_flow_map.
  - rewrite tcp_sendmsg_flow_map. by apply spec_getOrCreate_other.
  - destruct (Z.lt_ge_cases 0 (s32 copied)) as [Hpos|Hneg].
    + rewrite tcp_cleanup_rbuf_flow_map by done.
      by apply spec_getOrCreate_other.
    + unfold tcp_cleanup_rbuf.
      by destruct (Z.leb_spec (s32 copied) 0); [|lia].
Qed.

Lemma other_flows_untouched_witness :
  flow_map (fire (env_user, SendMsg sk_b 100) st_flow) !! key_a
  = flow_map st_flow !! key_a.
Proof.
  apply (other_flows_untouched (env_user, SendMsg sk_b 100) st_flow key_a).
  vm_compute. discriminate.
Defined.

Lemma u64_add_l a b : u64 (u64 a + b) = u64 (a + b).
Proof. unfold u64. apply Zplus_mod_idemp_l. Qed.

Lemma u64_add_r a b : u64 (a + u64 b) = u64 (a + b).
Proof. unfold u64. apply Zplus_mod_idemp_r. Qed.

(** X13. Outbound accounting adds up: after any series of [tcp_sendmsg] calls on
    a socket whose flow is tracked, [bytes_tx] has grown by the sum of the
    sizes and [packets_tx] by the number of calls, both modulo 2^64, while
    the inbound counters and [first_seen] are as before. *)
Theorem sendmsg_totals
    (sk : sock) (calls : list (bpf_env * Z)) (st : probe_state)
    (r : flow_data) :
  flow_map st !! sock_key sk = Some r ->
  0 <= bytes_tx r < 2 ^ 64 ->
  0 <= packets_tx r < 2 ^ 64 ->
  exists r',
    flow_map (run fire (sends sk calls) st) !! sock_key sk = Some r'
    /\ bytes_tx r' = u64 (bytes_tx r + total_size calls)
    /\ packets_tx r' = u64 (packets_tx r + Z.of_nat (length calls))
    /\ bytes_rx r' = bytes_rx r
    /\ packets_rx r' = packets_rx r
    /\ first_seen r' = first_seen r.
Proof.
  revert st r. induction calls as [|[env size] calls IH]; intros st r Hr Hb Hp.
  { exists r. cbn [sends map run total_size foldr length].
    rewrite !Z.add_0_r. unfold u64. by rewrite !Z.mod_small. }
  cbn [sends map run fst snd]. fold (sends sk calls).
  assert (flow_map (fire (env, SendMsg sk size) st) !! sock_key sk
          = Some (evolve_tx (ktime_ns env) (u64 size) r)) as Hr1.
  { unfold fire. rewrite tcp_sendmsg_flow_map.
    by rewrite (spec_getOrCreate_hit _ _ _ _ _ _ Hr), lookup_insert_eq. }
  destruct (IH _ _ Hr1) as (r' & Hr' & Hbt & Hpt & Hbr & Hpr & Hfs).
  { cbn [evolve_tx bytes_tx]. unfold u64. apply Z.mod_pos_bound. lia. }
  { cbn [evolve_tx packets_tx]. unfold u64. apply Z.mod_pos_bound. lia. }
  exists r'. split; [done|].
  cbn [evolve_tx bytes_tx packets_tx bytes_rx packets_rx first_seen] in *.
  rewrite Hbt, Hpt. cbn [total_size foldr length snd].
  fold (total_size calls).
  repeat split; try done.
  - rewrite u64_add_l, <- Z.add_assoc, (Z.add_comm (u64 size)), Z.add_assoc.
    rewrite u64_add_r. f_equal. lia.
  - rewrite u64_add_l. f_equal. lia.
Qed.

Lemma sendmsg_totals_witness :
  exists r',
    flow_map (run fire (sends sk_a [(env_user, 40); (env_later, 2)]) st_flow)
      !! sock_key sk_a = Some r'
    /\ bytes_tx r' = u64 (bytes_tx flow_a + total_size [(env_user, 40); (env_later, 2)])
    /\ packets_tx r'
       = u64 (packets_tx flow_a
              + Z.of_nat (length [(env_user, 40); (env_later, 2)]))
    /\ bytes_rx r' = bytes_rx flow_a
    /\ packets_rx r' = packets_rx flow_a
    /\ first_seen r' = first_seen flow_a.
Proof.
  apply (sendmsg_totals sk_a [(env_user, 40); (env_later, 2)] st_flow flow_a).
  - reflexivity.
  - vm_compute. split; [discriminate|reflexivity].
  - vm_compute. split; [discriminate|reflexivity].
Defined.

(** X14. A send and a receive on the same socket land in one record: starting
    from an untracked socket and a table with room, the send creates the
    record, and the receive adds its bytes and packet to that record and
    moves [last_seen], leaving [first_seen] at the time of the send. *)
Theorem send_then_receive_share_record
    (env1 env2 : bpf_env) (sk : sock) (sent copied : Z) (st : probe_state) :
  flow_map st !! sock_key sk = None ->
  Z.of_nat (size (flow_map st)) < MAX_ENTRIES ->
  0 < s32 copied ->
  flow_map (run fire [(env1, SendMsg sk sent); (env2, CleanupRbuf sk copied)] st)
  = <[sock_key sk :=
        {| bytes_tx := u64 sent; bytes_rx := u64 (s32 copied);
           packets_tx := 1; packets_rx := 1;
           first_seen := ktime_ns env1; last_seen := ktime_ns env2;
           rtt_samples := 0; rtt_total := 0; state := 0 |}]> (flow_map st).
Proof.
  intros Habs Hroom Hpos. cbn [run]. unfold fire.
  rewrite tcp_cleanup_rbuf_flow_map by done.
  rewrite tcp_sendmsg_flow_map.
  rewrite (spec_getOrCreate_miss _ _ _ _ _ Habs Hroom).
  rewrite (spec_getOrCreate_hit _ _ _ _ _ _ (lookup_insert_eq _ _ _)).
  by rewrite insert_insert_eq.
Qed.

Lemma send_then_receive_share_record_witness :
  flow_map (run fire [(env_user, SendMsg sk_b 100);
                      (env_later, CleanupRbuf sk_b 60)] st_flow)
  = <[sock_key sk_b :=
        {| bytes_tx := u64 100; bytes_rx := u64 (s32 60);
           packets_tx := 1; packets_rx := 1;
           first_seen := ktime_ns env_user; last_seen := ktime_ns env_later;
           rtt_samples := 0; rtt_total := 0; state := 0 |}]> (flow_map st_flow).
Proof.
  apply (send_then_receive_share_record env_user env_later sk_b 100 60 st_flow).
  - vm_compute. reflexivity.
  - vm_compute. reflexivity.
  - vm_compute. reflexivity.
Defined.

Lemma u32_idem x : u32 (u32 x) = u32 x.
Proof. unfold u32. apply Z.mod_mod. lia. Qed.

Lemma u32_u64 x : u32 (u64 x) = u32 x.
Proof.
  unfold u32, u64. apply Z.mod_mod_divide. exists (2 ^ 32). reflexivity.
Qed.

Lemma bpf_ntohs_fits x : u16 (bpf_ntohs x) = bpf_ntohs x.
Proof.
  unfold u16. rewrite <- Z.land_ones by lia.
  apply Z.bits_inj'. intros n Hn. rewrite Z.land_spec.
  destruct (Z.ltb_spec n 16).
  - rewrite Z.ones_spec_low by lia. apply andb_true_r.
  - rewrite Z.ones_spec_high by lia. rewrite andb_false_r.
    unfold bpf_ntohs. rewrite Z.lor_spec, Z.shiftl_spec, !Z.land_spec by lia.
    change 255 with (Z.ones 8). rewrite !Z.ones_spec_high by lia.
    by rewrite !andb_false_r.
Qed.

(** X15. The event [tcp_sendmsg] emits names the flow it accounted: its
    addresses and ports are those of the flow key.  Its byte count is the
    size modulo 2^32, whereas the flow record accumulates the full 64-bit
    size. *)
Theorem sendmsg_event_matches_flow
    (env : bpf_env) (sk : sock) (sent : Z) (st : probe_state) :
  bpf_ringbuf_reserve (events st) = true ->
  exists e,
    rb_records (events (tcp_sendmsg env sk sent st))
    = rb_records (events st) ++ [e]
    /\ ev_event_type e = 3
    /\ ev_bytes e = u32 sent
    /\ ev_saddr e = saddr (sock_key sk)
    /\ ev_daddr e = daddr (sock_key sk)
    /\ ev_sport e = sport (sock_key sk)
    /\ ev_dport e = dport (sock_key sk).
Proof.
  intros Hroom. unfold tcp_sendmsg, send_event.
  cbn [events with_flow_map]. rewrite Hroom.
  eexists. split; [done|].
  cbn [ev_event_type ev_bytes ev_saddr ev_daddr ev_sport ev_dport].
  unfold sock_key, make_flow_key. cbn [saddr daddr sport dport].
  by rewrite u32_u64, !u32_idem, !bpf_ntohs_fits.
Qed.

Lemma sendmsg_event_matches_flow_witness :
  exists e,
    rb_records (events (tcp_sendmsg env_user sk_a (2 ^ 32 + 5) st_flow))
    = rb_records (events st_flow) ++ [e]
    /\ ev_event_type e = 3
    /\ ev_bytes e = u32 (2 ^ 32 + 5)
    /\ ev_saddr e = saddr (sock_key sk_a)
    /\ ev_daddr e = daddr (sock_key sk_a)
    /\ ev_sport e = sport (sock_key sk_a)
    /\ ev_dport e = dport (sock_key sk_a).
Proof.
  apply (sendmsg_event_matches_flow env_user sk_a (2 ^ 32 + 5) st_flow).
  reflexivity.
Defined.

Lemma fire_flow_record eh st k r :
  flow_map st !! k = Some r ->
  exists r',
    flow_map (fire eh st) !! k = Some r'
    /\ first_seen r' = first_seen r /\ state r' = state r.
Proof.
  intros Hr.
  assert (forall fresh evolve,
            (forall x, first_seen (evolve x) = first_seen x
                       /\ state (evolve x) = state x) ->
            forall k0, exists r',
              spec_getOrCreate MAX_ENTRIES k0 fresh evolve (flow_map st) !! k
              = Some r'
              /\ first_seen r' = first_seen r /\ state r' = state r) as Hgoc.
  { intros fresh evolve Hev k0. destruct (decide (k0 = k)) as [->|Hne].
    - rewrite (spec_getOrCreate_hit _ _ _ _ _ _ Hr), lookup_insert_eq.
      eexists. split; [done|]. apply Hev.
    - rewrite spec_getOrCreate_other by done. eauto. }
  destruct eh as [env h]. destruct h; unfold fire; cbv beta iota.
  - rewrite trace_tcp_state_change_flow_map. eauto.
  - unfold trace_tcp_probe. rewrite send_event_flow_map. eauto.
  - unfold trace_tcp_retransmit. rewrite send_event_flow_map. eauto.
  - rewrite tcp_sendmsg_flow_map. by apply Hgoc.
  - destruct (Z.lt_ge_cases 0 (s32 copied)) as [Hpos|Hneg].
    + rewrite tcp_cleanup_rbuf_flow_map by done. by apply Hgoc.
    + unfold tcp_cleanup_rbuf.
      destruct (Z.leb_spec (s32 copied) 0); [eauto|lia].
Qed.

(** X16. Once a flow record exists it is never removed, and its [first_seen]
    and [state] fields are never written again, whatever hooks run. *)
Theorem first_seen_is_write_once
    (tr : list (bpf_env * hook)) (st : probe_state) (k : flow_key)
    (r : flow_data) :
  flow_map st !! k = Some r ->
  exists r',
    flow_map (run fire tr st) !! k = Some r'
    /\ first_seen r' = first_seen r /\ state r' = state r.
Proof.
  revert st r. induction tr as [|eh tr IH]; intros st r Hr; cbn [run].
  { eauto. }
  destruct (fire_flow_record eh st k r Hr) as (r1 & Hr1 & Hf1 & Hs1).
  destruct (IH _ _ Hr1) as (r' & Hr' & Hf' & Hs').
  exists r'. split; [done|]. split; congruence.
Qed.

Lemma first_seen_is_write_once_witness :
  exists r',
    flow_map (run fire [(env_later, SendMsg sk_a 10);
                        (env_later, CleanupRbuf sk_a 20)] st_flow) !! key_a
    = Some r'
    /\ first_seen r' = first_seen flow_a /\ state r' = state flow_a.
Proof.
  apply (first_seen_is_write_once
           [(env_later, SendMsg sk_a 10); (env_later, CleanupRbuf sk_a 20)]
           st_flow key_a flow_a).
  reflexivity.
Defined.

Lemma state_change_emits_one_lifecycle_event_witness :
  trace_tcp_state_change env_user sk_a 10 2 1 st_flow = st_flow.
Proof.
  destruct (state_change_emits_one_lifecycle_event env_user sk_a 10 2 1 st_flow)
    as (_ & Hfamily & _).
  apply Hfamily. vm_compute. discriminate.
Defined.

End TcpFlowSpec.

(** ** Properties of the CPU profiler *)

Module CpuProfilerSpec.
Import CpuProfiler BpfSpec.

Lemma send_cpu_sample_process_map env task cpu runtime st :
  process_map (send_cpu_sample env task cpu runtime st) = process_map st.
Proof. unfold send_cpu_sample. by destruct (bpf_ringbuf_reserve _). Qed.

Lemma send_cpu_sample_full env task cpu runtime st :
  bpf_ringbuf_reserve (events st) = false ->
  send_cpu_sample env task cpu runtime st = st.
Proof. intros Hfull. unfold send_cpu_sample. by rewrite Hfull. Qed.

Lemma cpu_map_modify_process_map cpu key f st :
  process_map (cpu_map_modify cpu key f st) = process_map st.
Proof. unfold cpu_map_modify. by destruct (cpu_map_lookup _ _ _). Qed.

Lemma switch_out_getOrCreate ts cpu prev_pid prev_state pm :
  0 < prev_pid ->
  switch_out ts cpu prev_pid prev_state pm
  = spec_getOrCreate MAX_ENTRIES prev_pid (fresh_out ts cpu)
      (evolve_out ts cpu prev_state) pm.
Proof.
  intros Hpos. unfold switch_out.
  destruct (Z.ltb_spec 0 prev_pid); [|lia].
  rewrite <- lookup_then_update.
  destruct (bpf_map_lookup_elem pm prev_pid); [|done].
  f_equal. unfold evolve_out, touch. by destruct (prev_state =? _).
Qed.

Lemma switch_in_getOrCreate ts cpu next_pid pm :
  0 < next_pid ->
  switch_in ts cpu next_pid pm
  = spec_getOrCreate MAX_ENTRIES next_pid (fresh_in ts cpu)
      (evolve_in ts cpu) pm.
Proof.
  intros Hpos. unfold switch_in.
  destruct (Z.ltb_spec 0 next_pid); [|lia].
  by rewrite <- lookup_then_update.
Qed.

Lemma sample_cpu_perf_process_map env task st :
  let pid := u32 (Z.shiftr (current_pid_tgid env) 32) in
  let cpu := u32 (smp_processor_id env) in
  pid <> 0 ->
  process_map (sample_cpu_perf env task st)
  = spec_getOrCreate MAX_ENTRIES pid
      {| total_runtime := 1; schedule_count := 0; voluntary_switches := 0;
         involuntary_switches := 0; last_seen := ktime_ns env;
         min_cpu := cpu; max_cpu := cpu |}
      (fun r =>
         {| total_runtime := u64 (total_runtime r + 1);
            schedule_count := schedule_count r;
            voluntary_switches := voluntary_switches r;
            involuntary_switches := involuntary_switches r;
            last_seen := ktime_ns env;
            min_cpu := if cpu <? min_cpu r then cpu else min_cpu r;
            max_cpu := if max_cpu r <? cpu then cpu else max_cpu r |})
      (process_map st).
Proof.
  intros pid cpu Hpid. unfold sample_cpu_perf. fold pid. fold cpu.
  destruct (Z.eqb_spec pid 0); [done|].
  rewrite <- lookup_then_update.
  destruct (bpf_map_lookup_elem (process_map st) pid);
    by rewrite send_cpu_sample_process_map.
Qed.

Lemma switch_out_keeps ts cpu prev_pid prev_state pm k :
  is_Some (pm !! k) ->
  is_Some (switch_out ts cpu prev_pid prev_state pm !! k).
Proof.
  intros Hk. destruct (Z.lt_ge_cases 0 prev_pid).
  - rewrite switch_out_getOrCreate by done. by apply spec_getOrCreate_keeps.
  - unfold switch_out. by destruct (Z.ltb_spec 0 prev_pid); [lia|].
Qed.

Lemma switch_in_keeps ts cpu next_pid pm k :
  is_Some (pm !! k) -> is_Some (switch_in ts cpu next_pid pm !! k).
Proof.
  intros Hk. destruct (Z.lt_ge_cases 0 next_pid).
  - rewrite switch_in_getOrCreate by done. by apply spec_getOrCreate_keeps.
  - unfold switch_in. by destruct (Z.ltb_spec 0 next_pid); [lia|].
Qed.

Lemma cpu_fire_keeps eh st k :
  is_Some (process_map st !! k) -> is_Some (process_map (fire eh st) !! k).
Proof.
  destruct eh as [env h]. intros Hk.
  destruct h; unfold fire; cbv beta iota.
  - unfold trace_sched_switch. rewrite cpu_map_modify_process_map.
    cbn [process_map with_process_map].
    by apply switch_in_keeps, switch_out_keeps.
  - unfold trace_sched_wakeup. by rewrite send_cpu_sample_process_map.
  - destruct (Z.eq_dec (u32 (Z.shiftr (current_pid_tgid env) 32)) 0) as [Hz|Hnz].
    + unfold sample_cpu_perf. by rewrite Hz.
    + rewrite (sample_cpu_perf_process_map env task st Hnz).
      by apply spec_getOrCreate_keeps.
  - unfold trace_cpu_frequency. by rewrite cpu_map_modify_process_map.
  - unfold trace_cpu_idle. by rewrite cpu_map_modify_process_map.
  - unfold trace_irq_entry. by rewrite cpu_map_modify_process_map.
  - unfold trace_softirq_entry. by rewrite cpu_map_modify_process_map.
  - unfold finish_task_switch. destruct (0 <? _); [|done].
    unfold bpf_map_lookup_elem.
    destruct (process_map st !! u32 (task_pid prev)) eqn:Hp; [|done].
    rewrite send_cpu_sample_process_map. cbn [process_map with_process_map].
    destruct (decide (u32 (task_pid prev) = k)) as [->|Hne].
    + rewrite lookup_insert_eq. eauto.
    + by rewrite lookup_insert_ne.
Qed.

(** A switch away from a task the table already knows is classified. *)
Lemma switch_out_counts_known_task ts cpu prev_pid prev_state pm r :
  0 < prev_pid -> pm !! prev_pid = Some r ->
  exists r',
    switch_out ts cpu prev_pid prev_state pm !! prev_pid = Some r'
    /\ (prev_state = TASK_RUNNING ->
        involuntary_switches r' = u64 (involuntary_switches r + 1)
        /\ voluntary_switches r' = voluntary_switches r)
    /\ (prev_state <> TASK_RUNNING ->
        voluntary_switches r' = u64 (voluntary_switches r + 1)
        /\ involuntary_switches r' = involuntary_switches r).
Proof.
  intros Hpos Hr. rewrite switch_out_getOrCreate by done.
  rewrite (spec_getOrCreate_hit _ _ _ _ _ _ Hr), lookup_insert_eq.
  eexists. split; [done|]. unfold evolve_out. cbn.
  destruct (Z.eqb_spec prev_state TASK_RUNNING); split; done.
Qed.

(** C8, on the code.  The first scheduler switch away from a task the
    table has not seen yet (outgoing task id 7, nonzero) creates the
    task's record with both switch counters at 0, whether the prior state
    was runnable or not: that switch is not counted.  The incoming task's
    first record does start with [schedule_count = 1]. *)
Theorem first_switch_out_not_counted :
  let runnable := trace_sched_switch env_user 7 8 TASK_RUNNING (init 8) in
  let blocked := trace_sched_switch env_user 7 8 1 (init 8) in
  (involuntary_switches <$> process_map runnable !! 7) = Some 0
  /\ (voluntary_switches <$> process_map blocked !! 7) = Some 0
  /\ (schedule_count <$> process_map runnable !! 8) = Some 1.
Proof. vm_compute. done. Qed.

(** *** Further properties of the hooks *)

Lemma send_cpu_sample_cpu_map env task cpu runtime st :
  cpu_map (send_cpu_sample env task cpu runtime st) = cpu_map st.
Proof. unfold send_cpu_sample. by destruct (bpf_ringbuf_reserve _). Qed.

Lemma cpu_map_modify_events cpu key f st :
  events (cpu_map_modify cpu key f st) = events st.
Proof. unfold cpu_map_modify. by destruct (cpu_map_lookup _ _ _). Qed.

Lemma send_cpu_sample_emits env task cpu runtime st0 st :
  events st = events st0 ->
  events (send_cpu_sample env task cpu runtime st) = events st0
  \/ (bpf_ringbuf_reserve (events st0) = true
      /\ exists e, events (send_cpu_sample env task cpu runtime st)
                   = bpf_ringbuf_submit e (events st0)).
Proof.
  intros Heq. unfold send_cpu_sample. rewrite Heq.
  destruct (bpf_ringbuf_reserve (events st0)); [|by left].
  right. split; [done|]. eauto.
Qed.

Lemma cpu_fire_emits eh st :
  events (fire eh st) = events st
  \/ (bpf_ringbuf_reserve (events st) = true
      /\ exists e, events (fire eh st) = bpf_ringbuf_submit e (events st)).
Proof.
  destruct eh as [env h]. destruct h; unfold fire; cbv beta iota.
  - left. unfold trace_sched_switch. by rewrite cpu_map_modify_events.
  - by apply send_cpu_sample_emits.
  - unfold sample_cpu_perf. destruct (_ =? 0); [by left|].
    destruct (bpf_map_lookup_elem _ _); by apply send_cpu_sample_emits.
  - left. apply cpu_map_modify_events.
  - left. apply cpu_map_modify_events.
  - left. apply cpu_map_modify_events.
  - left. apply cpu_map_modify_events.
  - unfold finish_task_switch. destruct (0 <? _); [|by left].
    destruct (bpf_map_lookup_elem _ _); [|by left].
    by apply send_cpu_sample_emits.
Qed.

(** How a per-CPU update shows in CPU [c]'s own slot. *)
Lemma cpu_map_modify_own_slot cpu key f st c :
  0 <= c < MAX_CPUS ->
  own_slot c (cpu_map (cpu_map_modify cpu key f st))
  = if (cpu =? c) && (key =? c) then f (own_slot c (cpu_map st))
    else own_slot c (cpu_map st).
Proof.
  intros Hc. unfold cpu_map_modify, cpu_map_lookup, own_slot.
  destruct (Z.eqb_spec cpu c) as [->|Hcpu];
    destruct (Z.eqb_spec key c) as [->|Hkey]; cbn [andb].
  - destruct (Z.leb_spec 0 c); [|lia].
    destruct (Z.ltb_spec c MAX_CPUS); [|lia]. cbn [andb].
    cbn [cpu_map with_cpu_map]. by rewrite lookup_insert_eq.
  - destruct ((0 <=? key) && (key <? MAX_CPUS)); [|done].
    cbn [cpu_map with_cpu_map]. rewrite lookup_insert_ne; [done|congruence].
  - destruct ((0 <=? c) && (c <? MAX_CPUS)); [|done].
    cbn [cpu_map with_cpu_map]. rewrite lookup_insert_ne; [done|congruence].
  - destruct ((0 <=? key) && (key <? MAX_CPUS)); [|done].
    cbn [cpu_map with_cpu_map]. rewrite lookup_insert_ne; [done|congruence].
Qed.

Lemma fire_context_switches eh st c :
  0 <= c < MAX_CPUS ->
  context_switches (own_slot c (cpu_map (fire eh st)))
  = if is_switch_on c eh
    then u64 (context_switches (own_slot c (cpu_map st)) + 1)
    else context_switches (own_slot c (cpu_map st)).
Proof.
  intros Hc. destruct eh as [env h]. unfold is_switch_on. cbn [fst snd].
  destruct h; unfold fire; cbv beta iota.
  - unfold trace_sched_switch. rewrite cpu_map_modify_own_slot by done.
    cbn [cpu_map with_process_map].
    by destruct (u32 (smp_processor_id env) =? c).
  - unfold trace_sched_wakeup. by rewrite send_cpu_sample_cpu_map.
  - unfold sample_cpu_perf. destruct (_ =? 0); [done|].
    destruct (bpf_map_lookup_elem _ _); by rewrite send_cpu_sample_cpu_map.
  - unfold trace_cpu_frequency. rewrite cpu_map_modify_own_slot by done.
    by destruct (_ && _).
  - unfold trace_cpu_idle. rewrite cpu_map_modify_own_slot by done.
    destruct (_ && _); [|done]. by destruct (_ =? _).
  - unfold trace_irq_entry. rewrite cpu_map_modify_own_slot by done.
    by destruct (_ && _).
  - unfold trace_softirq_entry. rewrite cpu_map_modify_own_slot by done.
    by destruct (_ && _).
  - unfold finish_task_switch. destruct (0 <? _); [|done].
    destruct (bpf_map_lookup_elem _ _); [|done].
    by rewrite send_cpu_sample_cpu_map.
Qed.

(** X17. [context_switches] of a CPU's own slot counts the scheduler switches
    that ran on that CPU, whatever the task ids were (idle task included)
    and whatever other hooks ran in between: after any sequence of hook
    invocations it has grown by the number of those switches, modulo
    2^64. *)
Theorem context_switches_count_every_switch
    (c : Z) (tr : list (bpf_env * hook)) (st : state) :
  0 <= c < MAX_CPUS ->
  0 <= context_switches (own_slot c (cpu_map st)) < 2 ^ 64 ->
  context_switches (own_slot c (cpu_map (run fire tr st)))
  = u64 (context_switches (own_slot c (cpu_map st)) + switches_on c tr).
Proof.
  intros Hc. revert st. induction tr as [|eh tr IH]; intros st Hrange.
  { cbn [run switches_on]. rewrite Z.add_0_r. unfold u64.
    by rewrite Z.mod_small. }
  cbn [run switches_on]. rewrite IH.
  - rewrite fire_context_switches by done.
    destruct (is_switch_on c eh).
    + unfold u64. rewrite Zplus_mod_idemp_l. f_equal. lia.
    + done.
  - rewrite fire_context_switches by done.
    destruct (is_switch_on c eh); [|done].
    unfold u64. apply Z.mod_pos_bound. lia.
Qed.

Lemma context_switches_count_every_switch_witness :
  context_switches
    (own_slot 2
       (cpu_map (run fire [(env_user, SchedSwitch 0 0 0); (env_cpu3, IrqEntry);
                           (env_cpu3, SchedSwitch 7 8 1);
                           (env_user, SchedSwitch 7 0 0)] st_known)))
  = u64 (context_switches (own_slot 2 (cpu_map st_known))
         + switches_on 2 [(env_user, SchedSwitch 0 0 0); (env_cpu3, IrqEntry);
                          (env_cpu3, SchedSwitch 7 8 1);
                          (env_user, SchedSwitch 7 0 0)]).
Proof.
  apply (context_switches_count_every_switch 2
           [(env_user, SchedSwitch 0 0 0); (env_cpu3, IrqEntry);
            (env_cpu3, SchedSwitch 7 8 1); (env_user, SchedSwitch 7 0 0)]
           st_known).
  - vm_compute. split; [discriminate|reflexivity].
  - vm_compute. split; [discriminate|reflexivity].
Defined.

(** *** The per-task table *)

Lemma spec_getOrCreate_cpu_range k fresh evolve pm :
  min_cpu fresh <= max_cpu fresh ->
  (forall r, min_cpu r <= max_cpu r -> min_cpu (evolve r) <= max_cpu (evolve r)) ->
  cpu_range_inv pm ->
  cpu_range_inv (spec_getOrCreate MAX_ENTRIES k fresh evolve pm).
Proof.
  intros Hfresh Hevolve Hinv k' r'.
  destruct (decide (k = k')) as [->|Hne].
  - unfold spec_getOrCreate. destruct (pm !! k') as [r|] eqn:Hk.
    + rewrite lookup_insert_eq. intros [= <-]. apply Hevolve. by eapply Hinv.
    + destruct (_ <? _).
      * rewrite lookup_insert_eq. by intros [= <-].
      * by rewrite Hk.
  - rewrite spec_getOrCreate_other by done. apply Hinv.
Qed.

Lemma touch_range (cpu lo hi : Z) :
  lo <= hi ->
  (if cpu <? lo then cpu else lo) <= (if hi <? cpu then cpu else hi).
Proof.
  intros Hle. destruct (Z.ltb_spec cpu lo); destruct (Z.ltb_spec hi cpu); lia.
Qed.

Lemma fire_cpu_range eh st :
  cpu_range_inv (process_map st) -> cpu_range_inv (process_map (fire eh st)).
Proof.
  destruct eh as [env h]. intros Hinv.
  destruct h; unfold fire; cbv beta iota.
  - unfold trace_sched_switch. rewrite cpu_map_modify_process_map.
    cbn [process_map with_process_map].
    set (pm1 := switch_out _ _ _ _ _).
    assert (cpu_range_inv pm1) as Hinv1.
    { subst pm1. destruct (Z.lt_ge_cases 0 (u32 prev_pid)).
      - rewrite switch_out_getOrCreate by done.
        apply spec_getOrCreate_cpu_range; [simpl; lia| |done].
        intros r Hr. cbn [evolve_out min_cpu max_cpu]. by apply touch_range.
      - unfold switch_out. by destruct (Z.ltb_spec 0 (u32 prev_pid)); [lia|]. }
    destruct (Z.lt_ge_cases 0 (u32 next_pid)).
    + rewrite switch_in_getOrCreate by done.
      apply spec_getOrCreate_cpu_range; [simpl; lia| |done].
      intros r Hr. cbn [evolve_in min_cpu max_cpu]. by apply touch_range.
    + unfold switch_in. by destruct (Z.ltb_spec 0 (u32 next_pid)); [lia|].
  - unfold trace_sched_wakeup. by rewrite send_cpu_sample_process_map.
  - destruct (Z.eq_dec (u32 (Z.shiftr (current_pid_tgid env) 32)) 0) as [Hz|Hnz].
    + unfold sample_cpu_perf. by rewrite Hz.
    + rewrite (sample_cpu_perf_process_map env task st Hnz).
      apply spec_getOrCreate_cpu_range; [simpl; lia| |done].
      intros r Hr. cbn [min_cpu max_cpu]. by apply touch_range.
  - unfold trace_cpu_frequency. by rewrite cpu_map_modify_process_map.
  - unfold trace_cpu_idle. by rewrite cpu_map_modify_process_map.
  - unfold trace_irq_entry. by rewrite cpu_map_modify_process_map.
  - unfold trace_softirq_entry. by rewrite cpu_map_modify_process_map.
  - unfold finish_task_switch. destruct (0 <? _); [|done].
    unfold bpf_map_lookup_elem.
    destruct (process_map st !! u32 (task_pid prev)) as [r|] eqn:Hp; [|done].
    rewrite send_cpu_sample_process_map. cbn [process_map with_process_map].
    intros k r'. destruct (decide (u32 (task_pid prev) = k)) as [->|Hne].
    + rewrite lookup_insert_eq. intros [= <-]. cbn [min_cpu max_cpu].
      by eapply Hinv.
    + rewrite lookup_insert_ne by done. apply Hinv.
Qed.

(** X18. Every task record keeps [min_cpu <= max_cpu]: no sequence of hook
    invocations breaks it, so it holds in every table reached from the
    empty one. *)
Theorem min_cpu_never_exceeds_max_cpu
    (tr : list (bpf_env * hook)) (st : state) :
  cpu_range_inv (process_map st) ->
  cpu_range_inv (process_map (run fire tr st)).
Proof.
  revert st. induction tr as [|eh tr IH]; intros st Hinv; cbn [run]; [done|].
  apply IH. by apply fire_cpu_range.
Qed.

Lemma cpu_range_inv_empty : cpu_range_inv ∅.
Proof. intros k r. by rewrite lookup_empty. Qed.

Lemma min_cpu_never_exceeds_max_cpu_witness :
  cpu_range_inv
    (process_map (run fire [(env_user, SchedSwitch 7 8 0);
                            (env_cpu3, SchedSwitch 8 7 1)] (init 8))).
Proof.
  apply (min_cpu_never_exceeds_max_cpu
           [(env_user, SchedSwitch 7 8 0); (env_cpu3, SchedSwitch 8 7 1)]
           (init 8)).
  apply cpu_range_inv_empty.
Defined.

(** X19. A switch away from a task that already has a record is classified:
    exactly one of its two switch counters goes up by one, the involuntary
    one when the prior state was runnable and the voluntary one otherwise;
    its [schedule_count] and [total_runtime] are not touched and
    [last_seen] becomes the time of the switch. *)
Theorem known_task_switch_is_classified
    (env : bpf_env) (prev_pid next_pid prev_state : Z) (st : state)
    (r : process_stats) :
  0 < u32 prev_pid ->
  u32 next_pid <> u32 prev_pid ->
  process_map st !! u32 prev_pid = Some r ->
  exists r',
    process_map (trace_sched_switch env prev_pid next_pid prev_state st)
      !! u32 prev_pid = Some r'
    /\ involuntary_switches r'
       = (if prev_state =? TASK_RUNNING then u64 (involuntary_switches r + 1)
          else involuntary_switches r)
    /\ voluntary_switches r'
       = (if prev_state =? TASK_RUNNING then voluntary_switches r
          else u64 (voluntary_switches r + 1))
    /\ schedule_count r' = schedule_count r
    /\ total_runtime r' = total_runtime r
    /\ last_seen r' = ktime_ns env.
Proof.
  intros Hpos Hne Hr. unfold trace_sched_switch.
  rewrite cpu_map_modify_process_map. cbn [process_map with_process_map].
  rewrite switch_out_getOrCreate by done.
  rewrite (spec_getOrCreate_hit _ _ _ _ _ _ Hr).
  assert (switch_in (ktime_ns env) (u32 (smp_processor_id env)) (u32 next_pid)
            (<[u32 prev_pid := evolve_out (ktime_ns env)
                                 (u32 (smp_processor_id env)) prev_state r]>
               (process_map st)) !! u32 prev_pid
          = Some (evolve_out (ktime_ns env) (u32 (smp_processor_id env))
                    prev_state r)) as ->.
  { destruct (Z.lt_ge_cases 0 (u32 next_pid)).
    - rewrite switch_in_getOrCreate by done.
      by rewrite spec_getOrCreate_other, lookup_insert_eq.
    - unfold switch_in. destruct (Z.ltb_spec 0 (u32 next_pid)); [lia|].
      by rewrite lookup_insert_eq. }
  eexists. split; [done|]. by cbn.
Qed.

Lemma known_task_switch_is_classified_witness :
  exists r',
    process_map (trace_sched_switch env_user 7 8 1 st_known) !! u32 7 = Some r'
    /\ involuntary_switches r'
       = (if 1 =? TASK_RUNNING then u64 (involuntary_switches known_stats + 1)
          else involuntary_switches known_stats)
    /\ voluntary_switches r'
       = (if 1 =? TASK_RUNNING then voluntary_switches known_stats
          else u64 (voluntary_switches known_stats + 1))
    /\ schedule_count r' = schedule_count known_stats
    /\ total_runtime r' = total_runtime known_stats
    /\ last_seen r' = ktime_ns env_user.
Proof.
  apply (known_task_switch_is_classified env_user 7 8 1 st_known known_stats).
  - reflexivity.
  - vm_compute. discriminate.
  - reflexivity.
Defined.

(** X20. The periodic sampler's event agrees with the table: when the channel
    has room and the task has a record or the table has room for one, the
    emitted sample's runtime is the [total_runtime] the record holds after
    the call (1 for a new record, the incremented value otherwise), and the
    record's [last_seen] is the time of the sample. *)
Theorem sample_runtime_matches_record
    (env : bpf_env) (task : task_struct) (st : state) :
  let pid := u32 (Z.shiftr (current_pid_tgid env) 32) in
  pid <> 0 ->
  bpf_ringbuf_reserve (events st) = true ->
  is_Some (process_map st !! pid)
  \/ Z.of_nat (size (process_map st)) < MAX_ENTRIES ->
  exists e r',
    rb_records (events (sample_cpu_perf env task st))
    = rb_records (events st) ++ [e]
    /\ process_map (sample_cpu_perf env task st) !! pid = Some r'
    /\ sample_runtime e = total_runtime r'
    /\ sample_cpu e = u32 (smp_processor_id env)
    /\ last_seen r' = ktime_ns env.
Proof.
  intros pid Hpid Hroom Htable. unfold sample_cpu_perf. fold pid.
  destruct (Z.eqb_spec pid 0); [done|].
  unfold bpf_map_lookup_elem, bpf_map_update_elem, send_cpu_sample.
  cbn [events with_process_map].
  destruct (process_map st !! pid) as [r|] eqn:Hr.
  - rewrite Hroom. eexists _, _. split; [done|].
    cbn [process_map with_events with_process_map].
    rewrite lookup_insert_eq. split; [done|].
    cbn [sample_runtime sample_cpu touch total_runtime last_seen].
    unfold u64, u32. by rewrite !Z.mod_mod.
  - destruct Htable as [[? ?]|Htable]; [done|].
    destruct (Z.ltb_spec (Z.of_nat (size (process_map st))) MAX_ENTRIES);
      [|lia].
    rewrite Hroom. eexists _, _. split; [done|].
    cbn [process_map with_events with_process_map].
    rewrite lookup_insert_eq. split; [done|].
    cbn [sample_runtime sample_cpu total_runtime last_seen].
    unfold u32. by rewrite Z.mod_mod.
Qed.

Lemma sample_runtime_matches_record_witness :
  exists e r',
    rb_records (events (sample_cpu_perf env_user task_app st_known))
    = rb_records (events st_known) ++ [e]
    /\ process_map (sample_cpu_perf env_user task_app st_known)
         !! u32 (Z.shiftr (current_pid_tgid env_user) 32) = Some r'
    /\ sample_runtime e = total_runtime r'
    /\ sample_cpu e = u32 (smp_processor_id env_user)
    /\ last_seen r' = ktime_ns env_user.
Proof.
  apply (sample_runtime_matches_record env_user task_app st_known).
  - vm_compute. discriminate.
  - reflexivity.
  - right. vm_compute. reflexivity.
Defined.

(** X21. [finish_task_switch] never creates a record: the set of tracked tasks
    is the same afterwards, and for a task without a record (or task id 0)
    the whole state is unchanged.  For a tracked task it adds the time since
    [last_seen] to [total_runtime] and leaves [last_seen] where it was. *)
Theorem finish_task_switch_only_updates_known_tasks
    (env : bpf_env) (prev : task_struct) (st : state) :
  let pid := u32 (task_pid prev) in
  dom (process_map (finish_task_switch env prev st)) = dom (process_map st)
  /\ (process_map st !! pid = None -> finish_task_switch env prev st = st)
  /\ (pid = 0 -> finish_task_switch env prev st = st)
  /\ (forall r,
        0 < pid -> process_map st !! pid = Some r ->
        exists r',
          process_map (finish_task_switch env prev st) !! pid = Some r'
          /\ total_runtime r'
             = u64 (total_runtime r + u64 (ktime_ns env - last_seen r))
          /\ last_seen r' = last_seen r
          /\ schedule_count r' = schedule_count r).
Proof.
  intros pid. unfold finish_task_switch, bpf_map_lookup_elem. fold pid.
  repeat split.
  - destruct (0 <? pid); [|done].
    destruct (process_map st !! pid) as [r|] eqn:Hr; [|done].
    rewrite send_cpu_sample_process_map. cbn [process_map with_process_map].
    apply dom_insert_lookup_L. eauto.
  - intros ->. by destruct (0 <? pid).
  - intros ->. done.
  - intros r Hpos Hr. destruct (Z.ltb_spec 0 pid); [|lia]. rewrite Hr.
    rewrite send_cpu_sample_process_map. cbn [process_map with_process_map].
    rewrite lookup_insert_eq. eauto.
Qed.

Lemma finish_task_switch_only_updates_known_tasks_witness :
  finish_task_switch env_user task_app st_known = st_known
  /\ exists r',
       process_map (finish_task_switch env_user task_known st_known)
         !! u32 (task_pid task_known) = Some r'
       /\ total_runtime r'
          = u64 (total_runtime known_stats
                 + u64 (ktime_ns env_user - last_seen known_stats))
       /\ last_seen r' = last_seen known_stats
       /\ schedule_count r' = schedule_count known_stats.
Proof.
  destruct (finish_task_switch_only_updates_known_tasks
              env_user task_app st_known) as (_ & Hnone & _ & _).
  destruct (finish_task_switch_only_updates_known_tasks
              env_user task_known st_known) as (_ & _ & _ & Hknown).
  split.
  - apply Hnone. reflexivity.
  - apply Hknown.
    + reflexivity.
    + reflexivity.
Defined.

(** X22. A frequency change is stored in the slot named by the event's CPU id,
    in the copy of the CPU that ran the hook, leaving the slot's counters
    as they were; an id of [MAX_CPUS] or more is ignored.  The per-task
    table and the event channel are never involved. *)
Theorem cpu_frequency_is_stored_per_slot
    (env : bpf_env) (cpu_id freq : Z) (st : state) :
  let cpu := u32 (smp_processor_id env) in
  let st' := trace_cpu_frequency env cpu_id freq st in
  process_map st' = process_map st
  /\ events st' = events st
  /\ (MAX_CPUS <= u32 cpu_id -> st' = st)
  /\ (u32 cpu_id < MAX_CPUS ->
      exists old new,
        cpu_map_lookup cpu (u32 cpu_id) (cpu_map st) = Some old
        /\ cpu_map_lookup cpu (u32 cpu_id) (cpu_map st') = Some new
        /\ frequency new = u32 freq
        /\ context_switches new = context_switches old
        /\ idle_time new = idle_time old
        /\ irq_time new = irq_time old
        /\ softirq_time new = softirq_time old).
Proof.
  intros cpu st'. subst st'. unfold trace_cpu_frequency. fold cpu.
  split; [apply cpu_map_modify_process_map|].
  split; [apply cpu_map_modify_events|].
  assert (0 <= u32 cpu_id) as Hnn.
  { unfold u32. apply Z.mod_pos_bound. lia. }
  unfold cpu_map_modify, cpu_map_lookup.
  destruct (Z.leb_spec 0 (u32 cpu_id)); [|lia]. cbn [andb].
  split.
  - intros Hbig. by destruct (Z.ltb_spec (u32 cpu_id) MAX_CPUS); [lia|].
  - intros Hsmall. destruct (Z.ltb_spec (u32 cpu_id) MAX_CPUS); [|lia].
    cbn [cpu_map with_cpu_map]. rewrite lookup_insert_eq.
    eexists _, _. split; [done|]. split; [done|]. by cbn.
Qed.

Lemma cpu_frequency_is_stored_per_slot_witness :
  trace_cpu_frequency env_user 300 2400 st_known = st_known
  /\ exists old new,
       cpu_map_lookup (u32 (smp_processor_id env_user)) (u32 5)
         (cpu_map st_known) = Some old
       /\ cpu_map_lookup (u32 (smp_processor_id env_user)) (u32 5)
            (cpu_map (trace_cpu_frequency env_user 5 2400 st_known))
          = Some new
       /\ frequency new = u32 2400
       /\ context_switches new = context_switches old
       /\ idle_time new = idle_time old
       /\ irq_time new = irq_time old
       /\ softirq_time new = softirq_time old.
Proof.
  destruct (cpu_frequency_is_stored_per_slot env_user 300 2400 st_known)
    as (_ & _ & Hbig & _).
  destruct (cpu_frequency_is_stored_per_slot env_user 5 2400 st_known)
    as (_ & _ & _ & Hsmall).
  split.
  - apply Hbig. vm_compute. discriminate.
  - apply Hsmall. vm_compute. reflexivity.
Defined.

End CpuProfilerSpec.

(** ** Properties shared by the three probes *)

Module ProbesSpec.
Import BpfSpec.

(** C2 fails as stated: on a full channel [send_memory_event] returns the
    probe state exactly as it received it, so no quantity that can be
    read off the state, a drop counter included, has gone up by one. *)
Lemma no_drop_counter_counterexample :
  bpf_ringbuf_reserve (MemoryTracker.events MemoryTracker.st_full) = false
  /\ ~ (exists counter : MemoryTracker.state -> Z,
          counter (MemoryTracker.send_memory_event MemoryTracker.env_user
                     1234 0 128 MemoryTracker.ALLOC_MALLOC 0
                     MemoryTracker.st_full)
          = counter MemoryTracker.st_full + 1).
Proof.
  split; [reflexivity|].
  intros [counter Hc].
  rewrite MemoryTrackerSpec.send_memory_event_full in Hc by reflexivity.
  lia.
Qed.

(** C2, amended.  When the bounded channel is full, each event-emission
    helper ([send_memory_event], [send_event], [send_cpu_sample]) returns
    at once with the probe state unchanged: the record is dropped, no
    table is touched and nothing is counted (the probes keep no drop
    counter). *)
Theorem emit_on_full_channel_drops_silently :
  (forall env pid addr size type old_addr (st : MemoryTracker.state),
     bpf_ringbuf_reserve (MemoryTracker.events st) = false ->
     MemoryTracker.send_memory_event env pid addr size type old_addr st = st)
  /\ (forall env event_type sk bytes rtt (st : TcpFlow.probe_state),
        bpf_ringbuf_reserve (TcpFlow.events st) = false ->
        TcpFlow.send_event env event_type sk bytes rtt st = st)
  /\ (forall env task cpu runtime (st : CpuProfiler.state),
        bpf_ringbuf_reserve (CpuProfiler.events st) = false ->
        CpuProfiler.send_cpu_sample env task cpu runtime st = st).
Proof.
  split; [|split]; intros.
  - by apply MemoryTrackerSpec.send_memory_event_full.
  - by apply TcpFlowSpec.send_event_full.
  - by apply CpuProfilerSpec.send_cpu_sample_full.
Qed.

Lemma emit_on_full_channel_drops_silently_witness :
  MemoryTracker.send_memory_event MemoryTracker.env_user 1234 0 128
    MemoryTracker.ALLOC_MALLOC 0 MemoryTracker.st_full
  = MemoryTracker.st_full
  /\ TcpFlow.send_event TcpFlow.env_user 3 TcpFlow.sk_a 100 0 TcpFlow.st_full
     = TcpFlow.st_full
  /\ CpuProfiler.send_cpu_sample CpuProfiler.env_user CpuProfiler.task_app
       2 0 CpuProfiler.st_full
     = CpuProfiler.st_full.
Proof.
  destruct emit_on_full_channel_drops_silently as (Hmem & Htcp & Hcpu).
  split; [|split].
  - apply Hmem. reflexivity.
  - apply Htcp. reflexivity.
  - apply Hcpu. reflexivity.
Defined.

Lemma memory_fire_keeps eh (st : MemoryTracker.state) k :
  is_Some (MemoryTracker.process_memory_map st !! k) ->
  is_Some (MemoryTracker.process_memory_map (MemoryTracker.fire eh st) !! k).
Proof.
  intros [r Hr].
  destruct (MemoryTrackerSpec.fire_peak_mono eh st k r Hr) as (r' & -> & _).
  eauto.
Qed.

Lemma sample_memory_stats_getOrCreate env mm rss vm (st : MemoryTracker.state) :
  MemoryTracker.current_pid env <> 0 -> mm <> 0 ->
  MemoryTracker.process_memory_map
    (MemoryTracker.sample_memory_stats env mm rss vm st)
  = spec_getOrCreate MemoryTracker.MAX_ENTRIES (MemoryTracker.current_pid env)
      (MemoryTracker.set_rss_vmem (u64 rss) (u64 vm) MemoryTracker.new_mem)
      (MemoryTracker.set_rss_vmem (u64 rss) (u64 vm))
      (MemoryTracker.process_memory_map st).
Proof.
  intros Hpid Hmm. unfold MemoryTracker.sample_memory_stats.
  destruct (Z.eqb_spec (MemoryTracker.current_pid env) 0) as [|_]; [done|].
  destruct (Z.eqb_spec mm 0) as [|_]; [done|].
  apply MemoryTrackerSpec.lookup_or_create_getOrCreate.
Qed.

Lemma finish_task_switch_process_map env prev (st : CpuProfiler.state) :
  CpuProfiler.process_map (CpuProfiler.finish_task_switch env prev st)
  = match CpuProfiler.process_map st !! u32 (CpuProfiler.task_pid prev) with
    | Some r =>
        if 0 <? u32 (CpuProfiler.task_pid prev)
        then <[u32 (CpuProfiler.task_pid prev) :=
                 CpuProfiler.evolve_finish (ktime_ns env) r]>
               (CpuProfiler.process_map st)
        else CpuProfiler.process_map st
    | None => CpuProfiler.process_map st
    end.
Proof.
  unfold CpuProfiler.finish_task_switch, bpf_map_lookup_elem.
  destruct (0 <? _);
    destruct (CpuProfiler.process_map st !! u32 (CpuProfiler.task_pid prev));
    try done.
  by rewrite CpuProfilerSpec.send_cpu_sample_process_map.
Qed.

Lemma update_process_memory_rejected pid size_delta is_allocation
    (st : MemoryTracker.state) :
  MemoryTracker.process_memory_map st !! pid = None ->
  MemoryTracker.MAX_ENTRIES
  <= Z.of_nat (size (MemoryTracker.process_memory_map st)) ->
  MemoryTracker.update_process_memory pid size_delta is_allocation st = st.
Proof.
  intros Habs Hfull. unfold MemoryTracker.update_process_memory.
  rewrite MemoryTrackerSpec.lookup_or_create_full by done. by destruct st.
Qed.

(** C6 fails as stated: in a [process_memory_map] that already holds
    [MAX_ENTRIES] keys, the first access for the new key 20000 synthesizes
    no record, and neither does the next one; the state is left exactly as
    it was. *)
Lemma miss_at_capacity_counterexample :
  Z.of_nat (size (MemoryTracker.process_memory_map MemoryTracker.st_table_full))
  = MemoryTracker.MAX_ENTRIES
  /\ MemoryTracker.process_memory_map MemoryTracker.st_table_full !! 20000
     = None
  /\ MemoryTracker.process_memory_map
       (MemoryTracker.update_process_memory 20000 4096 1
          MemoryTracker.st_table_full) !! 20000 = None
  /\ MemoryTracker.update_process_memory 20000 4096 1
       (MemoryTracker.update_process_memory 20000 4096 1
          MemoryTracker.st_table_full)
     = MemoryTracker.st_table_full.
Proof.
  assert (MemoryTracker.process_memory_map MemoryTracker.st_table_full
            !! 20000 = None) as Habs.
  { apply (MemoryTrackerSpec.full_table_lookup_high 20000).
    unfold MemoryTracker.MAX_ENTRIES. lia. }
  assert (MemoryTracker.MAX_ENTRIES
          <= Z.of_nat (size (MemoryTracker.process_memory_map
                               MemoryTracker.st_table_full))) as Hfull.
  { apply Z.eq_le_incl. symmetry. exact MemoryTrackerSpec.full_table_size. }
  pose proof (update_process_memory_rejected 20000 4096 1
                MemoryTracker.st_table_full Habs Hfull) as Hsame.
  split; [exact MemoryTrackerSpec.full_table_size|].
  split; [exact Habs|]. rewrite !Hsame. split; [exact Habs|exact eq_refl].
Qed.

(** C6, amended.  Every access of a hook to a keyed aggregation table
    ([process_memory_map], [flow_map], [process_map]) is the specification's
    [spec_getOrCreate]: while the table holds fewer than [MAX_ENTRIES] keys
    a lookup miss stores a record built from the zero-initialized struct,
    carrying only what that first event sets; at capacity a miss creates
    nothing and leaves the table as it was; a hit updates the record in
    place from its current contents, never resetting it.  This holds for
    each access site: [update_process_memory], [trace_page_fault] and
    [sample_memory_stats]; [tcp_sendmsg] and [tcp_cleanup_rbuf];
    [trace_sched_switch] (outgoing task, then incoming) and
    [sample_cpu_perf]; [finish_task_switch] only looks up and updates a
    record that exists.  Along any sequence of hook invocations a key is
    created at most once and a present key is never removed. *)
Theorem keyed_tables_get_or_create :
  (forall pid size_delta is_allocation (st : MemoryTracker.state),
     MemoryTracker.process_memory_map
       (MemoryTracker.update_process_memory pid size_delta is_allocation st)
     = spec_getOrCreate MemoryTracker.MAX_ENTRIES pid
         (MemoryTracker.account size_delta is_allocation MemoryTracker.new_mem)
         (MemoryTracker.account size_delta is_allocation)
         (MemoryTracker.process_memory_map st))
  /\ (forall env address error_code (st : MemoryTracker.state),
        MemoryTracker.current_pid env <> 0 ->
        MemoryTracker.process_memory_map
          (MemoryTracker.trace_page_fault env address error_code st)
        = spec_getOrCreate MemoryTracker.MAX_ENTRIES
            (MemoryTracker.current_pid env)
            (MemoryTracker.count_fault (u32 error_code) MemoryTracker.new_mem)
            (MemoryTracker.count_fault (u32 error_code))
            (MemoryTracker.process_memory_map st))
  /\ (forall env mm rss vm (st : MemoryTracker.state),
        MemoryTracker.current_pid env <> 0 -> mm <> 0 ->
        MemoryTracker.process_memory_map
          (MemoryTracker.sample_memory_stats env mm rss vm st)
        = spec_getOrCreate MemoryTracker.MAX_ENTRIES
            (MemoryTracker.current_pid env)
            (MemoryTracker.set_rss_vmem (u64 rss) (u64 vm)
               MemoryTracker.new_mem)
            (MemoryTracker.set_rss_vmem (u64 rss) (u64 vm))
            (MemoryTracker.process_memory_map st))
  /\ (forall env sk sent (st : TcpFlow.probe_state),
        TcpFlow.flow_map (TcpFlow.tcp_sendmsg env sk sent st)
        = spec_getOrCreate TcpFlow.MAX_ENTRIES (TcpFlow.sock_key sk)
            (TcpFlow.fresh_tx (ktime_ns env) (u64 sent))
            (TcpFlow.evolve_tx (ktime_ns env) (u64 sent))
            (TcpFlow.flow_map st))
  /\ (forall env sk copied (st : TcpFlow.probe_state),
        0 < s32 copied ->
        TcpFlow.flow_map (TcpFlow.tcp_cleanup_rbuf env sk copied st)
        = spec_getOrCreate TcpFlow.MAX_ENTRIES (TcpFlow.sock_key sk)
            (TcpFlow.fresh_rx (ktime_ns env) (s32 copied))
            (TcpFlow.evolve_rx (ktime_ns env) (s32 copied))
            (TcpFlow.flow_map st))
  /\ (forall env prev_pid next_pid prev_state (st : CpuProfiler.state),
        let ts := ktime_ns env in
        let cpu := u32 (smp_processor_id env) in
        let out pm :=
          if 0 <? u32 prev_pid
          then spec_getOrCreate CpuProfiler.MAX_ENTRIES (u32 prev_pid)
                 (CpuProfiler.fresh_out ts cpu)
                 (CpuProfiler.evolve_out ts cpu prev_state) pm
          else pm in
        let into pm :=
          if 0 <? u32 next_pid
          then spec_getOrCreate CpuProfiler.MAX_ENTRIES (u32 next_pid)
                 (CpuProfiler.fresh_in ts cpu) (CpuProfiler.evolve_in ts cpu)
                 pm
          else pm in
        CpuProfiler.process_map
          (CpuProfiler.trace_sched_switch env prev_pid next_pid prev_state st)
        = into (out (CpuProfiler.process_map st)))
  /\ (forall env task (st : CpuProfiler.state),
        let pid := u32 (Z.shiftr (current_pid_tgid env) 32) in
        let cpu := u32 (smp_processor_id env) in
        pid <> 0 ->
        CpuProfiler.process_map (CpuProfiler.sample_cpu_perf env task st)
        = spec_getOrCreate CpuProfiler.MAX_ENTRIES pid
            (CpuProfiler.fresh_sample (ktime_ns env) cpu)
            (CpuProfiler.evolve_sample (ktime_ns env) cpu)
            (CpuProfiler.process_map st))
  /\ (forall env prev (st : CpuProfiler.state),
        let pid := u32 (CpuProfiler.task_pid prev) in
        CpuProfiler.process_map (CpuProfiler.finish_task_switch env prev st)
        = match CpuProfiler.process_map st !! pid with
          | Some r =>
              if 0 <? pid
              then <[pid := CpuProfiler.evolve_finish (ktime_ns env) r]>
                     (CpuProfiler.process_map st)
              else CpuProfiler.process_map st
          | None => CpuProfiler.process_map st
          end)
  /\ (forall k tr st,
        (creations MemoryTracker.fire MemoryTracker.process_memory_map k tr st
         <= 1)%nat
        /\ (is_Some (MemoryTracker.process_memory_map st !! k) ->
            is_Some (MemoryTracker.process_memory_map
                       (run MemoryTracker.fire tr st) !! k)))
  /\ (forall k tr st,
        (creations TcpFlow.fire TcpFlow.flow_map k tr st <= 1)%nat
        /\ (is_Some (TcpFlow.flow_map st !! k) ->
            is_Some (TcpFlow.flow_map (run TcpFlow.fire tr st) !! k)))
  /\ (forall k tr st,
        (creations CpuProfiler.fire CpuProfiler.process_map k tr st <= 1)%nat
        /\ (is_Some (CpuProfiler.process_map st !! k) ->
            is_Some (CpuProfiler.process_map
                       (run CpuProfiler.fire tr st) !! k))).
Proof.
  split; [intros; apply MemoryTrackerSpec.lookup_or_create_getOrCreate|].
  split.
  { intros env address error_code st Hpid.
    rewrite MemoryTrackerSpec.trace_page_fault_counts by done.
    apply MemoryTrackerSpec.lookup_or_create_getOrCreate. }
  split; [intros; by apply sample_memory_stats_getOrCreate|].
  split; [intros; apply TcpFlowSpec.tcp_sendmsg_flow_map|].
  split; [intros; by apply TcpFlowSpec.tcp_cleanup_rbuf_flow_map|].
  split.
  { intros env prev_pid next_pid prev_state st ts cpu out into.
    subst out into. cbv beta.
    unfold CpuProfiler.trace_sched_switch.
    rewrite CpuProfilerSpec.cpu_map_modify_process_map.
    cbn [CpuProfiler.process_map CpuProfiler.with_process_map].
    fold ts. fold cpu.
    assert (CpuProfiler.switch_out ts cpu (u32 prev_pid) prev_state
              (CpuProfiler.process_map st)
            = if 0 <? u32 prev_pid
              then spec_getOrCreate CpuProfiler.MAX_ENTRIES (u32 prev_pid)
                     (CpuProfiler.fresh_out ts cpu)
                     (CpuProfiler.evolve_out ts cpu prev_state)
                     (CpuProfiler.process_map st)
              else CpuProfiler.process_map st) as ->.
    { destruct (Z.ltb_spec 0 (u32 prev_pid)) as [Hp|Hp].
      - by apply CpuProfilerSpec.switch_out_getOrCreate.
      - unfold CpuProfiler.switch_out.
        by destruct (Z.ltb_spec 0 (u32 prev_pid)); [lia|]. }
    destruct (Z.ltb_spec 0 (u32 next_pid)) as [Hn|Hn].
    - by apply CpuProfilerSpec.switch_in_getOrCreate.
    - unfold CpuProfiler.switch_in.
      by destruct (Z.ltb_spec 0 (u32 next_pid)); [lia|]. }
  split.
  { intros env task st pid cpu Hpid.
    by apply CpuProfilerSpec.sample_cpu_perf_process_map. }
  split; [intros; apply finish_task_switch_process_map|].
  split; [|split]; intros k tr st; split.
  - apply creations_at_most_once. intros h st'. apply memory_fire_keeps.
  - apply run_keeps. intros h st'. apply memory_fire_keeps.
  - apply creations_at_most_once. intros h st'. apply TcpFlowSpec.tcp_fire_keeps.
  - apply run_keeps. intros h st'. apply TcpFlowSpec.tcp_fire_keeps.
  - apply creations_at_most_once.
    intros h st'. apply CpuProfilerSpec.cpu_fire_keeps.
  - apply run_keeps. intros h st'. apply CpuProfilerSpec.cpu_fire_keeps.
Qed.

Lemma keyed_tables_get_or_create_witness :
  MemoryTracker.process_memory_map
    (MemoryTracker.trace_page_fault MemoryTracker.env_user 4096 4
       MemoryTracker.st_busy)
  = spec_getOrCreate MemoryTracker.MAX_ENTRIES
      (MemoryTracker.current_pid MemoryTracker.env_user)
      (MemoryTracker.count_fault (u32 4) MemoryTracker.new_mem)
      (MemoryTracker.count_fault (u32 4))
      (MemoryTracker.process_memory_map MemoryTracker.st_busy)
  /\ TcpFlow.flow_map
       (TcpFlow.tcp_cleanup_rbuf TcpFlow.env_user TcpFlow.sk_a 60
          TcpFlow.st_flow)
     = spec_getOrCreate TcpFlow.MAX_ENTRIES (TcpFlow.sock_key TcpFlow.sk_a)
         (TcpFlow.fresh_rx (ktime_ns TcpFlow.env_user) (s32 60))
         (TcpFlow.evolve_rx (ktime_ns TcpFlow.env_user) (s32 60))
         (TcpFlow.flow_map TcpFlow.st_flow)
  /\ CpuProfiler.process_map
       (CpuProfiler.sample_cpu_perf CpuProfiler.env_user CpuProfiler.task_app
          CpuProfiler.st_known)
     = spec_getOrCreate CpuProfiler.MAX_ENTRIES
         (u32 (Z.shiftr (current_pid_tgid CpuProfiler.env_user) 32))
         (CpuProfiler.fresh_sample (ktime_ns CpuProfiler.env_user)
            (u32 (smp_processor_id CpuProfiler.env_user)))
         (CpuProfiler.evolve_sample (ktime_ns CpuProfiler.env_user)
            (u32 (smp_processor_id CpuProfiler.env_user)))
         (CpuProfiler.process_map CpuProfiler.st_known).
Proof.
  destruct keyed_tables_get_or_create
    as (_ & Hfault & _ & _ & Hrx & _ & Hsample & _).
  split; [|split].
  - apply Hfault. vm_compute. discriminate.
  - apply Hrx. vm_compute. reflexivity.
  - apply Hsample. vm_compute. discriminate.
Defined.

(** X23. The event channel of each probe is append-only and bounded: along any
    sequence of hook invocations the capacity is constant, the records
    already submitted stay at the front in their order, at most one record
    is added per invocation, and a channel within its capacity stays within
    it. *)
Theorem event_channels_append_only_and_bounded :
  (forall tr (st : MemoryTracker.state),
     let log := MemoryTracker.events in
     let st' := run MemoryTracker.fire tr st in
     rb_capacity (log st') = rb_capacity (log st)
     /\ rb_records (log st) `prefix_of` rb_records (log st')
     /\ (length (rb_records (log st'))
         <= length (rb_records (log st)) + length tr)%nat
     /\ ((length (rb_records (log st)) <= rb_capacity (log st))%nat ->
         (length (rb_records (log st')) <= rb_capacity (log st))%nat))
  /\ (forall tr (st : TcpFlow.probe_state),
        let log := TcpFlow.events in
        let st' := run TcpFlow.fire tr st in
        rb_capacity (log st') = rb_capacity (log st)
        /\ rb_records (log st) `prefix_of` rb_records (log st')
        /\ (length (rb_records (log st'))
            <= length (rb_records (log st)) + length tr)%nat
        /\ ((length (rb_records (log st)) <= rb_capacity (log st))%nat ->
            (length (rb_records (log st')) <= rb_capacity (log st))%nat))
  /\ (forall tr (st : CpuProfiler.state),
        let log := CpuProfiler.events in
        let st' := run CpuProfiler.fire tr st in
        rb_capacity (log st') = rb_capacity (log st)
        /\ rb_records (log st) `prefix_of` rb_records (log st')
        /\ (length (rb_records (log st'))
            <= length (rb_records (log st)) + length tr)%nat
        /\ ((length (rb_records (log st)) <= rb_capacity (log st))%nat ->
            (length (rb_records (log st')) <= rb_capacity (log st))%nat)).
Proof.
  split; [|split]; intros tr st log st'.
  - apply (run_event_log MemoryTracker.fire MemoryTracker.events).
    apply MemoryTrackerSpec.memory_fire_emits.
  - apply (run_event_log TcpFlow.fire TcpFlow.events).
    apply TcpFlowSpec.tcp_fire_emits.
  - apply (run_event_log CpuProfiler.fire CpuProfiler.events).
    apply CpuProfilerSpec.cpu_fire_emits.
Qed.

Lemma event_channels_append_only_and_bounded_witness :
  (length (rb_records (MemoryTracker.events
                         (run MemoryTracker.fire MemoryTracker.scenario_A
                            MemoryTracker.st_busy)))
   <= rb_capacity (MemoryTracker.events MemoryTracker.st_busy))%nat.
Proof.
  destruct event_channels_append_only_and_bounded as (Hmem & _ & _).
  apply (Hmem MemoryTracker.scenario_A MemoryTracker.st_busy).
  vm_compute. lia.
Defined.

End ProbesSpec.
